(** * Drivers service: domain rules of the driver record

    A shallow embedding of the domain layer (Driver, HoursOfService,
    Endorsement, Document, EmergencyContact) and of the application
    service (DriverService) of the drivers microservice, with the
    properties of the lifecycle and compliance rules proved about it.

    Conventions of the embedding.
    - A TypeScript [number] holding hours is a rational ([Q]), one counting
      days is an integer ([Z]); NaN and the infinities are outside the
      model.
    - A [Date] is its time value, the milliseconds since the epoch ([Z]);
      calendar fields are read in UTC.  Each operation runs at one clock
      reading [now], passed explicitly wherever the source calls
      [new Date()].
    - A [string] is a sequence of 8-bit code units; only ASCII letters have
      a case.
    - A method is a function from the receiver's state to a completion
      (normal or thrown) and the receiver's state afterwards: a throw does
      not roll back what was assigned before it. *)

From Stdlib Require Import ZArith QArith Qminmax Lqa Lia Bool String Ascii List.
From stdpp Require Import base option list gmap strings pretty.
Import ListNotations.

Local Open Scope string_scope.

(** ** Errors and completions *)

(** The error classes of the source; each carries the argument given to its
    constructor ([Error] is the plain JavaScript error of the service). *)
Inductive Exn : Type :=
| InvalidDriverDataError (message : string)
| InvalidHoursOfServiceError (message : string)
| InvalidEndorsementTypeError (type : string)
| InvalidDocumentTypeError (type : string)
| Error (message : string)
| StorageError (message : string).

Inductive completion (A : Type) : Type :=
| Normal (a : A)
| Throw (e : Exn).
Arguments Normal {A} a.
Arguments Throw {A} e.

Definition is_normal {A} (c : completion A) : bool :=
  match c with Normal _ => true | Throw _ => false end.

(** Pure, fallible code (the static validators and factories). *)
Definition cbind {A B} (c : completion A) (k : A -> completion B) : completion B :=
  match c with
  | Normal a => k a
  | Throw e => Throw e
  end.

(** Methods: state passing over the receiver [S]. *)
Section Method.
Context {S : Type}.

Definition method (A : Type) : Type := S -> completion A * S.

Definition ret {A} (a : A) : method A := fun s => (Normal a, s).
Definition throw {A} (e : Exn) : method A := fun s => (Throw e, s).
Definition bind {A B} (m : method A) (k : A -> method B) : method B :=
  fun s =>
    match m s with
    | (Normal a, s') => k a s'
    | (Throw e, s') => (Throw e, s')
    end.
Definition get : method S := fun s => (Normal s, s).
Definition put (s : S) : method unit := fun _ => (Normal tt, s).
Definition lift {A} (c : completion A) : method A := fun s => (c, s).
(** [if (c) throw e;] *)
Definition throw_if (c : bool) (e : Exn) : method unit :=
  if c then throw e else ret tt.
(** The completion of a call, and the receiver after it. *)
Definition result {A} (m : method A) (s : S) : completion A := fst (m s).
Definition after {A} (m : method A) (s : S) : S := snd (m s).
End Method.
Arguments method : clear implicits.

Notation "'let*' x ':=' c 'in' k" := (bind c (fun x => k))
  (at level 10, x binder, c at level 200, k at level 200).
Notation "c1 ';;;' c2" := (bind c1 (fun _ => c2))
  (at level 100, c2 at level 200, right associativity).
Notation "'let+' x ':=' c 'in' k" := (cbind c (fun x => k))
  (at level 10, x binder, c at level 200, k at level 200).

(** ** JavaScript values *)

(** Truthiness of an optional string: [undefined] and the empty string are
    falsy. *)
Definition truthy_string (s : string) : bool := negb (String.eqb s "").
Definition truthy_ostring (o : option string) : bool :=
  match o with Some s => truthy_string s | None => false end.

(** [x < y] and [x > y] on numbers. *)
Definition Qlt_bool (x y : Q) : bool := negb (Qle_bool y x).
Definition Qgt_bool (x y : Q) : bool := Qlt_bool y x.

(** ** HoursOfService *)

Module HoursOfService.

Definition MAX_DRIVING_HOURS_PER_DAY : Q := 11.
Definition MAX_DUTY_HOURS_PER_DAY : Q := 14.
(** 30 minutes *)
Definition REQUIRED_BREAK_TIME : Q := 1 # 2.

Record t : Type := mk {
  id : option Z;
  drivingHoursToday : Q;
  dutyHoursToday : Q;
  timeUntilBreakRequired : Q;
  driverId : option string
}.

(** The private constructor: [id] and [driverId] are kept only when
    truthy. *)
Definition new (drivingHoursToday dutyHoursToday timeUntilBreakRequired : Q)
    (id : option Z) (driverId : option string) : t :=
  {| id := match id with Some i => if Z.eqb i 0 then None else Some i | None => None end;
     drivingHoursToday := drivingHoursToday;
     dutyHoursToday := dutyHoursToday;
     timeUntilBreakRequired := timeUntilBreakRequired;
     driverId := if truthy_ostring driverId then driverId else None |}.

Definition validateHours (drivingHours dutyHours timeUntilBreak : Q) : completion unit :=
  if Qlt_bool drivingHours 0 then
    Throw (InvalidHoursOfServiceError "Driving hours cannot be negative")
  else if Qlt_bool dutyHours 0 then
    Throw (InvalidHoursOfServiceError "Duty hours cannot be negative")
  else if Qlt_bool timeUntilBreak 0 then
    Throw (InvalidHoursOfServiceError "Time until break cannot be negative")
  else if Qgt_bool drivingHours dutyHours then
    Throw (InvalidHoursOfServiceError "Driving hours cannot exceed duty hours")
  else if Qgt_bool drivingHours MAX_DRIVING_HOURS_PER_DAY then
    Throw (InvalidHoursOfServiceError "Driving hours cannot exceed 11 hours per day")
  else if Qgt_bool dutyHours MAX_DUTY_HOURS_PER_DAY then
    Throw (InvalidHoursOfServiceError "Duty hours cannot exceed 14 hours per day")
  else Normal tt.

(** The argument of [create]. *)
Record data : Type := mk_data {
  data_drivingHoursToday : Q;
  data_dutyHoursToday : Q;
  data_timeUntilBreakRequired : Q;
  data_id : option Z;
  data_driverId : option string
}.

Definition create (d : data) : completion t :=
  let+ _ := validateHours (data_drivingHoursToday d) (data_dutyHoursToday d)
              (data_timeUntilBreakRequired d) in
  Normal (new (data_drivingHoursToday d) (data_dutyHoursToday d)
            (data_timeUntilBreakRequired d) (data_id d) (data_driverId d)).

Definition createDefault (driverId : string) : t :=
  new 0 0 REQUIRED_BREAK_TIME None (Some driverId).

Definition hasReachedMaxDrivingHours (this : t) : bool :=
  Qle_bool MAX_DRIVING_HOURS_PER_DAY (drivingHoursToday this).

Definition hasReachedMaxDutyHours (this : t) : bool :=
  Qle_bool MAX_DUTY_HOURS_PER_DAY (dutyHoursToday this).


Definition getRemainingDrivingHours (this : t) : Q :=
  Qmax 0 (MAX_DRIVING_HOURS_PER_DAY - drivingHoursToday this).

Definition getRemainingDutyHours (this : t) : Q :=
  Qmax 0 (MAX_DUTY_HOURS_PER_DAY - dutyHoursToday this).

(** Field assignments [this.f = v]. *)
Definition set_drivingHoursToday (v : Q) : method t unit :=
  fun this => (Normal tt,
    {| id := id this; drivingHoursToday := v; dutyHoursToday := dutyHoursToday this;
       timeUntilBreakRequired := timeUntilBreakRequired this; driverId := driverId this |}).
Definition set_dutyHoursToday (v : Q) : method t unit :=
  fun this => (Normal tt,
    {| id := id this; drivingHoursToday := drivingHoursToday this; dutyHoursToday := v;
       timeUntilBreakRequired := timeUntilBreakRequired this; driverId := driverId this |}).
Definition set_timeUntilBreakRequired (v : Q) : method t unit :=
  fun this => (Normal tt,
    {| id := id this; drivingHoursToday := drivingHoursToday this;
       dutyHoursToday := dutyHoursToday this;
       timeUntilBreakRequired := v; driverId := driverId this |}).

Definition addDrivingTime (hours : Q) : method t unit :=
  throw_if (Qlt_bool hours 0)
    (InvalidHoursOfServiceError "Cannot add negative driving time") ;;;
  let* this := get in
  let newDrivingHours := (drivingHoursToday this + hours)%Q in
  let newDutyHours := (dutyHoursToday this + hours)%Q in
  let newTimeUntilBreak := Qmax 0 (timeUntilBreakRequired this - hours) in
  lift (validateHours newDrivingHours newDutyHours newTimeUntilBreak) ;;;
  set_drivingHoursToday newDrivingHours ;;;
  set_dutyHoursToday newDutyHours ;;;
  set_timeUntilBreakRequired newTimeUntilBreak.

Definition addOnDutyTime (hours : Q) : method t unit :=
  throw_if (Qlt_bool hours 0)
    (InvalidHoursOfServiceError "Cannot add negative duty time") ;;;
  let* this := get in
  let newDutyHours := (dutyHoursToday this + hours)%Q in
  lift (validateHours (drivingHoursToday this) newDutyHours
          (timeUntilBreakRequired this)) ;;;
  set_dutyHoursToday newDutyHours.

Definition takeBreak (hours : Q) : method t unit :=
  throw_if (Qlt_bool hours 0)
    (InvalidHoursOfServiceError "Break time cannot be negative") ;;;
  set_timeUntilBreakRequired REQUIRED_BREAK_TIME.

Definition resetForNewDay : method t unit :=
  set_drivingHoursToday 0 ;;;
  set_dutyHoursToday 0 ;;;
  set_timeUntilBreakRequired REQUIRED_BREAK_TIME.

End HoursOfService.

(** ** Strings *)

Definition ascii_between (lo hi c : ascii) : bool :=
  (N.leb (N_of_ascii lo) (N_of_ascii c) && N.leb (N_of_ascii c) (N_of_ascii hi))%N.

(** [\d] *)
Definition is_digit (c : ascii) : bool := ascii_between "0" "9" c.

(** [\s], on 8-bit code units: tab, line feed, vertical tab, form feed,
    carriage return, space and the no-break space. *)
Definition is_space (c : ascii) : bool :=
  let n := N_of_ascii c in
  (N.leb 9 n && N.leb n 13) || N.eqb n 32 || N.eqb n 160.

Definition upper_ascii (c : ascii) : ascii :=
  if ascii_between "a" "z" c then ascii_of_N (N_of_ascii c - 32) else c.

(** [String.prototype.toUpperCase] *)
Fixpoint toUpperCase (s : string) : string :=
  match s with
  | EmptyString => EmptyString
  | String c s' => String (upper_ascii c) (toUpperCase s')
  end.

Definition lower_ascii (c : ascii) : ascii :=
  if ascii_between "A" "Z" c then ascii_of_N (N_of_ascii c + 32) else c.

(** [String.prototype.toLowerCase] *)
Fixpoint toLowerCase (s : string) : string :=
  match s with
  | EmptyString => EmptyString
  | String c s' => String (lower_ascii c) (toLowerCase s')
  end.

(** [s.split(sep)] for a separator of one character: never empty. *)
Fixpoint split (sep : ascii) (s : string) : list string :=
  match s with
  | EmptyString => [EmptyString]
  | String c s' =>
      if Ascii.eqb c sep then EmptyString :: split sep s'
      else match split sep s' with
           | part :: parts => String c part :: parts
           | [] => [String c EmptyString]
           end
  end.

(** [Array.prototype.includes] on an array of strings. *)
Definition includes (l : list string) (x : string) : bool :=
  existsb (String.eqb x) l.

(** [s.replace(/[^0-9]/g, '')] *)
Fixpoint strip_non_digits (s : string) : string :=
  match s with
  | EmptyString => EmptyString
  | String c s' =>
      if is_digit c then String c (strip_non_digits s') else strip_non_digits s'
  end.

(** Number of decimal digits in a string. *)
Fixpoint count_digits (s : string) : nat :=
  match s with
  | EmptyString => 0
  | String c s' => (if is_digit c then 1 else 0) + count_digits s'
  end.

(** Regular expressions, matched against the whole string (the patterns of
    the source are all anchored with [^] and [$]) by derivatives. *)
Inductive regex : Type :=
| Void
| Eps
| Class (p : ascii -> bool)
| Cat (r1 r2 : regex)
| Alt (r1 r2 : regex)
| Star (r : regex).

Fixpoint nullable (r : regex) : bool :=
  match r with
  | Void => false
  | Eps => true
  | Class _ => false
  | Cat r1 r2 => nullable r1 && nullable r2
  | Alt r1 r2 => nullable r1 || nullable r2
  | Star _ => true
  end.

Fixpoint deriv (c : ascii) (r : regex) : regex :=
  match r with
  | Void => Void
  | Eps => Void
  | Class p => if p c then Eps else Void
  | Cat r1 r2 =>
      if nullable r1 then Alt (Cat (deriv c r1) r2) (deriv c r2)
      else Cat (deriv c r1) r2
  | Alt r1 r2 => Alt (deriv c r1) (deriv c r2)
  | Star r' => Cat (deriv c r') (Star r')
  end.

Fixpoint regex_test (r : regex) (s : string) : bool :=
  match s with
  | EmptyString => nullable r
  | String c s' => regex_test (deriv c r) s'
  end.

(** [r+] and [r{n}], [r{0,n}] *)
Definition Plus (r : regex) : regex := Cat r (Star r).
Fixpoint Times (n : nat) (r : regex) : regex :=
  match n with
  | O => Eps
  | S n' => Cat r (Times n' r)
  end.
Fixpoint UpTo (n : nat) (r : regex) : regex :=
  match n with
  | O => Eps
  | S n' => Alt Eps (Cat r (UpTo n' r))
  end.

(** ** Dates *)

(** A [Date] by its time value in milliseconds since 1970-01-01T00:00Z. *)
Definition Date : Type := Z.

Definition msPerDay : Z := 86400000.

(** Year, month (1 to 12) and day of the month of a day number counted from
    1970-01-01, in the proleptic Gregorian calendar. *)
Definition civil_from_days (days : Z) : Z * Z * Z :=
  let z := (days + 719468)%Z in
  let era := (z / 146097)%Z in
  let doe := (z - era * 146097)%Z in
  let yoe := ((doe - doe / 1460 + doe / 36524 - doe / 146096) / 365)%Z in
  let doy := (doe - (365 * yoe + yoe / 4 - yoe / 100))%Z in
  let mp := ((5 * doy + 2) / 153)%Z in
  let d := (doy - (153 * mp + 2) / 5 + 1)%Z in
  let m := (if Z.ltb mp 10 then mp + 3 else mp - 9)%Z in
  let y := (yoe + era * 400 + (if Z.leb m 2 then 1 else 0))%Z in
  (y, m, d).

(** Day number of a calendar date (the inverse of [civil_from_days]). *)
Definition days_from_civil (y m d : Z) : Z :=
  let y' := (if Z.leb m 2 then y - 1 else y)%Z in
  let era := (y' / 400)%Z in
  let yoe := (y' - era * 400)%Z in
  let mp := (if Z.ltb 2 m then m - 3 else m + 9)%Z in
  let doy := ((153 * mp + 2) / 5 + d - 1)%Z in
  let doe := (yoe * 365 + yoe / 4 - yoe / 100 + doy)%Z in
  (era * 146097 + doe - 719468)%Z.

(** [new Date(Date.UTC(y, m - 1, d))] *)
Definition Date_of_ymd (y m d : Z) : Date := (days_from_civil y m d * msPerDay)%Z.

Definition Date_ymd (t : Date) : Z * Z * Z := civil_from_days (t / msPerDay).

Definition getFullYear (t : Date) : Z := fst (fst (Date_ymd t)).
(** 1 to 12 (one more than JavaScript's [getMonth]). *)
Definition month_of (t : Date) : Z := snd (fst (Date_ymd t)).
Definition getDate (t : Date) : Z := snd (Date_ymd t).

(** [t.setDate(t.getDate() + n)]: the same time of day, [n] days later. *)
Definition Date_addDays (t : Date) (n : Z) : Date := (t + n * msPerDay)%Z.

(** Completed years from [birth] to [now]. *)
Definition age_in_years (now birth : Date) : Z :=
  let '(yn, mn, dn) := Date_ymd now in
  let '(yb, mb, db) := Date_ymd birth in
  (yn - yb - (if Z.ltb mn mb || (Z.eqb mn mb && Z.ltb dn db) then 1 else 0))%Z.

(** ** EmergencyContact *)

Module EmergencyContact.

Record t : Type := mk {
  id : option Z;
  name : string;
  relationship : string;
  phone : string;
  driverId : option string
}.

Definition new (name relationship phone : string) (id : option Z)
    (driverId : option string) : t :=
  {| id := match id with Some i => if Z.eqb i 0 then None else Some i | None => None end;
     name := name; relationship := relationship; phone := phone;
     driverId := if truthy_ostring driverId then driverId else None |}.

Record data : Type := mk_data {
  data_name : string;
  data_relationship : string;
  data_phone : string;
  data_id : option Z;
  data_driverId : option string
}.

Definition create (d : data) : t :=
  new (data_name d) (data_relationship d) (data_phone d) (data_id d) (data_driverId d).

Definition isValid (this : t) : bool :=
  truthy_string (name this) && truthy_string (relationship this)
  && truthy_string (phone this) && Nat.leb 10 (String.length (phone this)).

(** [Partial<EmergencyContact>], as far as [update] reads it. *)
Record partial : Type := mk_partial {
  p_name : option string;
  p_relationship : option string;
  p_phone : option string
}.

Definition update (d : partial) : method t unit :=
  fun this =>
    (Normal tt,
     {| id := id this;
        name := if truthy_ostring (p_name d) then default (name this) (p_name d)
                else name this;
        relationship :=
          if truthy_ostring (p_relationship d)
          then default (relationship this) (p_relationship d)
          else relationship this;
        phone := if truthy_ostring (p_phone d) then default (phone this) (p_phone d)
                 else phone this;
        driverId := driverId this |}).

End EmergencyContact.

(** ** Endorsement *)

Module Endorsement.

Definition VALID_TYPES : list string := ["H"; "N"; "P"; "S"; "T"; "X"].

Record t : Type := mk {
  id : option Z;
  type : string;
  expiryDate : option Date;
  driverId : option string
}.

Definition new (type : string) (expiryDate : option Date) (id : option Z)
    (driverId : option string) : t :=
  {| type := type;
     expiryDate := expiryDate;
     id := match id with Some i => if Z.eqb i 0 then None else Some i | None => None end;
     driverId := if truthy_ostring driverId then driverId else None |}.

Definition validateType (type : string) : completion unit :=
  let upperType := toUpperCase type in
  if negb (includes VALID_TYPES upperType) then Throw (InvalidEndorsementTypeError type)
  else Normal tt.

Record data : Type := mk_data {
  data_type : string;
  data_expiryDate : option Date;
  data_id : option Z;
  data_driverId : option string
}.

Definition create (d : data) : completion t :=
  let+ _ := validateType (data_type d) in
  let upperType := toUpperCase (data_type d) in
  Normal (new upperType (data_expiryDate d) (data_id d) (data_driverId d)).

Definition isExpired (now : Date) (this : t) : bool :=
  match expiryDate this with
  | None => false
  | Some e => Z.ltb e now
  end.

(** [Partial<Endorsement>], as far as [update] reads it. *)
Record partial : Type := mk_partial {
  p_type : option string;
  p_expiryDate : option Date
}.

Definition set_type (v : string) : method t unit :=
  fun this =>
    (Normal tt,
     {| id := id this; type := v; expiryDate := expiryDate this;
        driverId := driverId this |}).
Definition set_expiryDate (v : option Date) : method t unit :=
  fun this =>
    (Normal tt,
     {| id := id this; type := type this; expiryDate := v; driverId := driverId this |}).

Definition update (d : partial) : method t unit :=
  match p_type d with
  | Some ty =>
      if truthy_string ty then
        lift (validateType ty) ;;;
        set_type (toUpperCase ty)
      else ret tt
  | None => ret tt
  end ;;;
  match p_expiryDate d with
  | Some e => set_expiryDate (Some e)
  | None => ret tt
  end.

End Endorsement.

(** ** Document *)

Module Document.

Definition VALID_TYPES : list string :=
  ["license"; "medical_certificate"; "twic_card"; "training_certificate";
   "employment_verification"; "background_check"; "drug_test"; "other"].

Record t : Type := mk {
  id : option string;
  fileName : string;
  fileUrl : string;
  fileType : string;
  driverId : option string;
  createdAt : option Date
}.

Definition new (fileName fileUrl fileType : string) (id driverId : option string)
    (createdAt : option Date) : t :=
  {| fileName := fileName; fileUrl := fileUrl; fileType := fileType;
     id := if truthy_ostring id then id else None;
     driverId := if truthy_ostring driverId then driverId else None;
     createdAt := createdAt |}.

Definition validateType (type : string) : completion unit :=
  if negb (includes VALID_TYPES type) then Throw (InvalidDocumentTypeError type)
  else Normal tt.

Record data : Type := mk_data {
  data_fileName : string;
  data_fileUrl : string;
  data_fileType : string;
  data_id : option string;
  data_driverId : option string;
  data_createdAt : option Date
}.

Definition create (now : Date) (d : data) : completion t :=
  let+ _ := validateType (data_fileType d) in
  Normal (new (data_fileName d) (data_fileUrl d) (data_fileType d) (data_id d)
            (data_driverId d) (Some (default now (data_createdAt d)))).

(** [parts[parts.length - 1]] of the name split at the dots, in lower case;
    empty without a dot. *)
Definition getFileExtension (this : t) : string :=
  let parts := split "." (fileName this) in
  if Nat.ltb 1 (List.length parts) then toLowerCase (List.last parts "") else "".

Definition imageExtensions : list string := ["jpg"; "jpeg"; "png"; "gif"; "bmp"; "webp"].

Definition isImage (this : t) : bool := includes imageExtensions (getFileExtension this).

Definition isPdf (this : t) : bool := String.eqb (getFileExtension this) "pdf".

(** [Partial<Document>], as far as [update] reads it. *)
Record partial : Type := mk_partial {
  p_fileName : option string;
  p_fileUrl : option string;
  p_fileType : option string
}.

Definition set_fileName (v : string) : method t unit :=
  fun this =>
    (Normal tt,
     {| id := id this; fileName := v; fileUrl := fileUrl this; fileType := fileType this;
        driverId := driverId this; createdAt := createdAt this |}).
Definition set_fileUrl (v : string) : method t unit :=
  fun this =>
    (Normal tt,
     {| id := id this; fileName := fileName this; fileUrl := v; fileType := fileType this;
        driverId := driverId this; createdAt := createdAt this |}).
Definition set_fileType (v : string) : method t unit :=
  fun this =>
    (Normal tt,
     {| id := id this; fileName := fileName this; fileUrl := fileUrl this; fileType := v;
        driverId := driverId this; createdAt := createdAt this |}).

(** [if (o) body(o);] for an optional string. *)
Definition when_truthy {S} (o : option string) (body : string -> method S unit)
  : method S unit :=
  match o with
  | Some v => if truthy_string v then body v else ret tt
  | None => ret tt
  end.

Definition update (d : partial) : method t unit :=
  when_truthy (p_fileName d) set_fileName ;;;
  when_truthy (p_fileUrl d) set_fileUrl ;;;
  when_truthy (p_fileType d)
    (fun fileType => lift (validateType fileType) ;;; set_fileType fileType).

End Document.

(** ** DriverStatus, DriverType, EmploymentStatus *)

Inductive DriverStatus : Type :=
| AVAILABLE | DRIVING | ON_BREAK | LOADING | UNLOADING | MAINTENANCE | AWAY | OFF_DUTY.

Definition DriverStatus_value (s : DriverStatus) : string :=
  match s with
  | AVAILABLE => "available"
  | DRIVING => "driving"
  | ON_BREAK => "on-break"
  | LOADING => "loading"
  | UNLOADING => "unloading"
  | MAINTENANCE => "maintenance"
  | AWAY => "away"
  | OFF_DUTY => "off-duty"
  end.

Definition DriverStatus_eqb (a b : DriverStatus) : bool :=
  String.eqb (DriverStatus_value a) (DriverStatus_value b).

Module DriverStatusHelper.

Definition canBeAssigned (status : DriverStatus) : bool :=
  DriverStatus_eqb status AVAILABLE.

Definition getDescription (status : DriverStatus) : string :=
  match status with
  | AVAILABLE => "Available for assignment"
  | DRIVING => "Currently driving"
  | ON_BREAK => "Taking a break"
  | LOADING => "Loading cargo"
  | UNLOADING => "Unloading cargo"
  | MAINTENANCE => "Handling maintenance"
  | AWAY => "Away (not working)"
  | OFF_DUTY => "Off duty"
  end.

(** [Object.values(DriverStatus)], in the order of the declaration. *)
Definition getAllStatuses : list DriverStatus :=
  [AVAILABLE; DRIVING; ON_BREAK; LOADING; UNLOADING; MAINTENANCE; AWAY; OFF_DUTY].

Definition getActiveStatuses : list DriverStatus :=
  [AVAILABLE; DRIVING; LOADING; UNLOADING; MAINTENANCE].

Definition getInactiveStatuses : list DriverStatus := [ON_BREAK; AWAY; OFF_DUTY].

End DriverStatusHelper.

(** The two string enums whose values the validation checks at run time. *)
Module DriverType.
Definition COMPANY : string := "company".
Definition OWNER_OPERATOR : string := "owner_operator".
Definition LEASE_PURCHASE : string := "lease_purchase".
Definition values : list string := [COMPANY; OWNER_OPERATOR; LEASE_PURCHASE].
End DriverType.

Module EmploymentStatus.
Definition ACTIVE : string := "active".
Definition LEAVE : string := "leave".
Definition TERMINATED : string := "terminated".
Definition values : list string := [ACTIVE; LEAVE; TERMINATED].
End EmploymentStatus.

(** ** Driver *)

Module Driver.

Record t : Type := mk {
  id : option string;
  firstName : string;
  lastName : string;
  driverId : option string;
  dob : Date;
  ssn : option string;
  phonePrimary : string;
  phoneSecondary : option string;
  email : string;
  streetNumber : option string;
  streetName : option string;
  city : option string;
  stateProvince : option string;
  country : option string;
  postalCode : option string;
  licenseNumber : string;
  licenseState : string;
  licenseClass : string;
  licenseClassOther : option string;
  licenseExpiry : Date;
  medCertExpiry : Date;
  twicExpiry : option Date;
  hireDate : Date;
  driverType : string;
  employmentStatus : string;
  operatingBaseCity : option string;
  operatingBaseState : option string;
  assignedVehicle : option string;
  status : DriverStatus;
  loadId : option string;
  notes : option string;
  avatarUrl : option string;
  emergencyContacts : list EmergencyContact.t;
  endorsements : list Endorsement.t;
  documents : list Document.t;
  hoursOfService : option HoursOfService.t;
  createdAt : Date;
  updatedAt : Date
}.

(** [Partial<Driver>]: every property may be absent. *)
Record partial : Type := mk_partial {
  p_id : option string;
  p_firstName : option string;
  p_lastName : option string;
  p_driverId : option string;
  p_dob : option Date;
  p_ssn : option string;
  p_phonePrimary : option string;
  p_phoneSecondary : option string;
  p_email : option string;
  p_streetNumber : option string;
  p_streetName : option string;
  p_city : option string;
  p_stateProvince : option string;
  p_country : option string;
  p_postalCode : option string;
  p_licenseNumber : option string;
  p_licenseState : option string;
  p_licenseClass : option string;
  p_licenseClassOther : option string;
  p_licenseExpiry : option Date;
  p_medCertExpiry : option Date;
  p_twicExpiry : option Date;
  p_hireDate : option Date;
  p_driverType : option string;
  p_employmentStatus : option string;
  p_operatingBaseCity : option string;
  p_operatingBaseState : option string;
  p_assignedVehicle : option string;
  p_status : option DriverStatus;
  p_loadId : option string;
  p_notes : option string;
  p_avatarUrl : option string;
  p_emergencyContacts : option (list EmergencyContact.t);
  p_endorsements : option (list Endorsement.t);
  p_documents : option (list Document.t);
  p_hoursOfService : option HoursOfService.t;
  p_createdAt : option Date;
  p_updatedAt : option Date
}.

(** The argument of [create]. *)
Record data : Type := mk_data {
  data_id : option string;
  data_firstName : string;
  data_lastName : string;
  data_driverId : option string;
  data_dob : Date;
  data_ssn : option string;
  data_phonePrimary : string;
  data_phoneSecondary : option string;
  data_email : string;
  data_streetNumber : option string;
  data_streetName : option string;
  data_city : option string;
  data_stateProvince : option string;
  data_country : option string;
  data_postalCode : option string;
  data_licenseNumber : string;
  data_licenseState : string;
  data_licenseClass : string;
  data_licenseClassOther : option string;
  data_licenseExpiry : Date;
  data_medCertExpiry : Date;
  data_twicExpiry : option Date;
  data_hireDate : Date;
  data_driverType : string;
  data_employmentStatus : option string;
  data_operatingBaseCity : option string;
  data_operatingBaseState : option string;
  data_assignedVehicle : option string;
  data_status : option DriverStatus;
  data_loadId : option string;
  data_notes : option string;
  data_avatarUrl : option string;
  data_emergencyContacts : option (list EmergencyContact.t);
  data_endorsements : option (list Endorsement.t);
  data_documents : option (list Document.t);
  data_hoursOfService : option HoursOfService.t
}.

(** [base] overridden by [over] where [over] is present. *)
Definition override {A} (base over : option A) : option A :=
  match over with Some v => Some v | None => base end.

(** The own properties of an entity, as in [{ ...this }]. *)
Definition to_partial (this : t) : partial :=
  {| p_id := id this;
     p_firstName := Some (firstName this);
     p_lastName := Some (lastName this);
     p_driverId := driverId this;
     p_dob := Some (dob this);
     p_ssn := ssn this;
     p_phonePrimary := Some (phonePrimary this);
     p_phoneSecondary := phoneSecondary this;
     p_email := Some (email this);
     p_streetNumber := streetNumber this;
     p_streetName := streetName this;
     p_city := city this;
     p_stateProvince := stateProvince this;
     p_country := country this;
     p_postalCode := postalCode this;
     p_licenseNumber := Some (licenseNumber this);
     p_licenseState := Some (licenseState this);
     p_licenseClass := Some (licenseClass this);
     p_licenseClassOther := licenseClassOther this;
     p_licenseExpiry := Some (licenseExpiry this);
     p_medCertExpiry := Some (medCertExpiry this);
     p_twicExpiry := twicExpiry this;
     p_hireDate := Some (hireDate this);
     p_driverType := Some (driverType this);
     p_employmentStatus := Some (employmentStatus this);
     p_operatingBaseCity := operatingBaseCity this;
     p_operatingBaseState := operatingBaseState this;
     p_assignedVehicle := assignedVehicle this;
     p_status := Some (status this);
     p_loadId := loadId this;
     p_notes := notes this;
     p_avatarUrl := avatarUrl this;
     p_emergencyContacts := Some (emergencyContacts this);
     p_endorsements := Some (endorsements this);
     p_documents := Some (documents this);
     p_hoursOfService := hoursOfService this;
     p_createdAt := Some (createdAt this);
     p_updatedAt := Some (updatedAt this) |}.

(** [{ ...a, ...b }] *)
Definition spread (a b : partial) : partial :=
  {| p_id := override (p_id a) (p_id b);
     p_firstName := override (p_firstName a) (p_firstName b);
     p_lastName := override (p_lastName a) (p_lastName b);
     p_driverId := override (p_driverId a) (p_driverId b);
     p_dob := override (p_dob a) (p_dob b);
     p_ssn := override (p_ssn a) (p_ssn b);
     p_phonePrimary := override (p_phonePrimary a) (p_phonePrimary b);
     p_phoneSecondary := override (p_phoneSecondary a) (p_phoneSecondary b);
     p_email := override (p_email a) (p_email b);
     p_streetNumber := override (p_streetNumber a) (p_streetNumber b);
     p_streetName := override (p_streetName a) (p_streetName b);
     p_city := override (p_city a) (p_city b);
     p_stateProvince := override (p_stateProvince a) (p_stateProvince b);
     p_country := override (p_country a) (p_country b);
     p_postalCode := override (p_postalCode a) (p_postalCode b);
     p_licenseNumber := override (p_licenseNumber a) (p_licenseNumber b);
     p_licenseState := override (p_licenseState a) (p_licenseState b);
     p_licenseClass := override (p_licenseClass a) (p_licenseClass b);
     p_licenseClassOther := override (p_licenseClassOther a) (p_licenseClassOther b);
     p_licenseExpiry := override (p_licenseExpiry a) (p_licenseExpiry b);
     p_medCertExpiry := override (p_medCertExpiry a) (p_medCertExpiry b);
     p_twicExpiry := override (p_twicExpiry a) (p_twicExpiry b);
     p_hireDate := override (p_hireDate a) (p_hireDate b);
     p_driverType := override (p_driverType a) (p_driverType b);
     p_employmentStatus := override (p_employmentStatus a) (p_employmentStatus b);
     p_operatingBaseCity := override (p_operatingBaseCity a) (p_operatingBaseCity b);
     p_operatingBaseState := override (p_operatingBaseState a) (p_operatingBaseState b);
     p_assignedVehicle := override (p_assignedVehicle a) (p_assignedVehicle b);
     p_status := override (p_status a) (p_status b);
     p_loadId := override (p_loadId a) (p_loadId b);
     p_notes := override (p_notes a) (p_notes b);
     p_avatarUrl := override (p_avatarUrl a) (p_avatarUrl b);
     p_emergencyContacts := override (p_emergencyContacts a) (p_emergencyContacts b);
     p_endorsements := override (p_endorsements a) (p_endorsements b);
     p_documents := override (p_documents a) (p_documents b);
     p_hoursOfService := override (p_hoursOfService a) (p_hoursOfService b);
     p_createdAt := override (p_createdAt a) (p_createdAt b);
     p_updatedAt := override (p_updatedAt a) (p_updatedAt b) |}.

(** [Object.assign(this, d)] *)
Definition assign (d : partial) : method t unit :=
  fun this =>
  (Normal tt,
  {| id := override (id this) (p_id d);
     firstName := default (firstName this) (p_firstName d);
     lastName := default (lastName this) (p_lastName d);
     driverId := override (driverId this) (p_driverId d);
     dob := default (dob this) (p_dob d);
     ssn := override (ssn this) (p_ssn d);
     phonePrimary := default (phonePrimary this) (p_phonePrimary d);
     phoneSecondary := override (phoneSecondary this) (p_phoneSecondary d);
     email := default (email this) (p_email d);
     streetNumber := override (streetNumber this) (p_streetNumber d);
     streetName := override (streetName this) (p_streetName d);
     city := override (city this) (p_city d);
     stateProvince := override (stateProvince this) (p_stateProvince d);
     country := override (country this) (p_country d);
     postalCode := override (postalCode this) (p_postalCode d);
     licenseNumber := default (licenseNumber this) (p_licenseNumber d);
     licenseState := default (licenseState this) (p_licenseState d);
     licenseClass := default (licenseClass this) (p_licenseClass d);
     licenseClassOther := override (licenseClassOther this) (p_licenseClassOther d);
     licenseExpiry := default (licenseExpiry this) (p_licenseExpiry d);
     medCertExpiry := default (medCertExpiry this) (p_medCertExpiry d);
     twicExpiry := override (twicExpiry this) (p_twicExpiry d);
     hireDate := default (hireDate this) (p_hireDate d);
     driverType := default (driverType this) (p_driverType d);
     employmentStatus := default (employmentStatus this) (p_employmentStatus d);
     operatingBaseCity := override (operatingBaseCity this) (p_operatingBaseCity d);
     operatingBaseState := override (operatingBaseState this) (p_operatingBaseState d);
     assignedVehicle := override (assignedVehicle this) (p_assignedVehicle d);
     status := default (status this) (p_status d);
     loadId := override (loadId this) (p_loadId d);
     notes := override (notes this) (p_notes d);
     avatarUrl := override (avatarUrl this) (p_avatarUrl d);
     emergencyContacts := default (emergencyContacts this) (p_emergencyContacts d);
     endorsements := default (endorsements this) (p_endorsements d);
     documents := default (documents this) (p_documents d);
     hoursOfService := override (hoursOfService this) (p_hoursOfService d);
     createdAt := default (createdAt this) (p_createdAt d);
     updatedAt := default (updatedAt this) (p_updatedAt d) |}).

(** The object literal of [create]: the argument with the defaults of the
    optional properties filled in. *)
Definition with_defaults (d : data) : data :=
  {| data_id := data_id d;
     data_firstName := data_firstName d;
     data_lastName := data_lastName d;
     data_driverId := data_driverId d;
     data_dob := data_dob d;
     data_ssn := data_ssn d;
     data_phonePrimary := data_phonePrimary d;
     data_phoneSecondary := data_phoneSecondary d;
     data_email := data_email d;
     data_streetNumber := data_streetNumber d;
     data_streetName := data_streetName d;
     data_city := data_city d;
     data_stateProvince := data_stateProvince d;
     data_country := data_country d;
     data_postalCode := data_postalCode d;
     data_licenseNumber := data_licenseNumber d;
     data_licenseState := data_licenseState d;
     data_licenseClass := data_licenseClass d;
     data_licenseClassOther := data_licenseClassOther d;
     data_licenseExpiry := data_licenseExpiry d;
     data_medCertExpiry := data_medCertExpiry d;
     data_twicExpiry := data_twicExpiry d;
     data_hireDate := data_hireDate d;
     data_driverType := data_driverType d;
     data_employmentStatus :=
       Some (if truthy_ostring (data_employmentStatus d)
             then default EmploymentStatus.ACTIVE (data_employmentStatus d)
             else EmploymentStatus.ACTIVE);
     data_operatingBaseCity := data_operatingBaseCity d;
     data_operatingBaseState := data_operatingBaseState d;
     data_assignedVehicle := data_assignedVehicle d;
     data_status := Some (default AVAILABLE (data_status d));
     data_loadId := data_loadId d;
     data_notes := data_notes d;
     data_avatarUrl := data_avatarUrl d;
     data_emergencyContacts := Some (default [] (data_emergencyContacts d));
     data_endorsements := Some (default [] (data_endorsements d));
     data_documents := Some (default [] (data_documents d));
     data_hoursOfService := data_hoursOfService d |}.

(** The properties of a [create] argument, read as a [Partial<Driver>]. *)
Definition partial_of_data (d : data) : partial :=
  {| p_id := data_id d;
     p_firstName := Some (data_firstName d);
     p_lastName := Some (data_lastName d);
     p_driverId := data_driverId d;
     p_dob := Some (data_dob d);
     p_ssn := data_ssn d;
     p_phonePrimary := Some (data_phonePrimary d);
     p_phoneSecondary := data_phoneSecondary d;
     p_email := Some (data_email d);
     p_streetNumber := data_streetNumber d;
     p_streetName := data_streetName d;
     p_city := data_city d;
     p_stateProvince := data_stateProvince d;
     p_country := data_country d;
     p_postalCode := data_postalCode d;
     p_licenseNumber := Some (data_licenseNumber d);
     p_licenseState := Some (data_licenseState d);
     p_licenseClass := Some (data_licenseClass d);
     p_licenseClassOther := data_licenseClassOther d;
     p_licenseExpiry := Some (data_licenseExpiry d);
     p_medCertExpiry := Some (data_medCertExpiry d);
     p_twicExpiry := data_twicExpiry d;
     p_hireDate := Some (data_hireDate d);
     p_driverType := Some (data_driverType d);
     p_employmentStatus := data_employmentStatus d;
     p_operatingBaseCity := data_operatingBaseCity d;
     p_operatingBaseState := data_operatingBaseState d;
     p_assignedVehicle := data_assignedVehicle d;
     p_status := data_status d;
     p_loadId := data_loadId d;
     p_notes := data_notes d;
     p_avatarUrl := data_avatarUrl d;
     p_emergencyContacts := data_emergencyContacts d;
     p_endorsements := data_endorsements d;
     p_documents := data_documents d;
     p_hoursOfService := data_hoursOfService d;
     p_createdAt := None;
     p_updatedAt := None |}.

(** The private constructor: empty collections and fresh timestamps, then
    [Object.assign(this, props)]. *)
Definition new (now : Date) (props : data) : t :=
  {| id := data_id props;
     firstName := data_firstName props;
     lastName := data_lastName props;
     driverId := data_driverId props;
     dob := data_dob props;
     ssn := data_ssn props;
     phonePrimary := data_phonePrimary props;
     phoneSecondary := data_phoneSecondary props;
     email := data_email props;
     streetNumber := data_streetNumber props;
     streetName := data_streetName props;
     city := data_city props;
     stateProvince := data_stateProvince props;
     country := data_country props;
     postalCode := data_postalCode props;
     licenseNumber := data_licenseNumber props;
     licenseState := data_licenseState props;
     licenseClass := data_licenseClass props;
     licenseClassOther := data_licenseClassOther props;
     licenseExpiry := data_licenseExpiry props;
     medCertExpiry := data_medCertExpiry props;
     twicExpiry := data_twicExpiry props;
     hireDate := data_hireDate props;
     driverType := data_driverType props;
     employmentStatus := default "" (data_employmentStatus props);
     operatingBaseCity := data_operatingBaseCity props;
     operatingBaseState := data_operatingBaseState props;
     assignedVehicle := data_assignedVehicle props;
     status := default AVAILABLE (data_status props);
     loadId := data_loadId props;
     notes := data_notes props;
     avatarUrl := data_avatarUrl props;
     emergencyContacts := default [] (data_emergencyContacts props);
     endorsements := default [] (data_endorsements props);
     documents := default [] (data_documents props);
     hoursOfService := data_hoursOfService props;
     createdAt := now;
     updatedAt := now |}.

(** Property assignments [this.f = v]. *)
Definition set_id (v : option string) : method t unit :=
  fun this =>
    (Normal tt,
     {| id := v; firstName := firstName this; lastName := lastName this;
        driverId := driverId this; dob := dob this; ssn := ssn this;
        phonePrimary := phonePrimary this; phoneSecondary := phoneSecondary this;
        email := email this; streetNumber := streetNumber this;
        streetName := streetName this; city := city this;
        stateProvince := stateProvince this; country := country this;
        postalCode := postalCode this; licenseNumber := licenseNumber this;
        licenseState := licenseState this; licenseClass := licenseClass this;
        licenseClassOther := licenseClassOther this;
        licenseExpiry := licenseExpiry this; medCertExpiry := medCertExpiry this;
        twicExpiry := twicExpiry this; hireDate := hireDate this;
        driverType := driverType this; employmentStatus := employmentStatus this;
        operatingBaseCity := operatingBaseCity this;
        operatingBaseState := operatingBaseState this;
        assignedVehicle := assignedVehicle this; status := status this;
        loadId := loadId this; notes := notes this; avatarUrl := avatarUrl this;
        emergencyContacts := emergencyContacts this; endorsements := endorsements this;
        documents := documents this; hoursOfService := hoursOfService this;
        createdAt := createdAt this; updatedAt := updatedAt this |}).

Definition set_status (v : DriverStatus) : method t unit :=
  fun this =>
    (Normal tt,
     {| id := id this; firstName := firstName this; lastName := lastName this;
        driverId := driverId this; dob := dob this; ssn := ssn this;
        phonePrimary := phonePrimary this; phoneSecondary := phoneSecondary this;
        email := email this; streetNumber := streetNumber this;
        streetName := streetName this; city := city this;
        stateProvince := stateProvince this; country := country this;
        postalCode := postalCode this; licenseNumber := licenseNumber this;
        licenseState := licenseState this; licenseClass := licenseClass this;
        licenseClassOther := licenseClassOther this;
        licenseExpiry := licenseExpiry this; medCertExpiry := medCertExpiry this;
        twicExpiry := twicExpiry this; hireDate := hireDate this;
        driverType := driverType this; employmentStatus := employmentStatus this;
        operatingBaseCity := operatingBaseCity this;
        operatingBaseState := operatingBaseState this;
        assignedVehicle := assignedVehicle this; status := v; loadId := loadId this;
        notes := notes this; avatarUrl := avatarUrl this;
        emergencyContacts := emergencyContacts this; endorsements := endorsements this;
        documents := documents this; hoursOfService := hoursOfService this;
        createdAt := createdAt this; updatedAt := updatedAt this |}).

Definition set_loadId (v : option string) : method t unit :=
  fun this =>
    (Normal tt,
     {| id := id this; firstName := firstName this; lastName := lastName this;
        driverId := driverId this; dob := dob this; ssn := ssn this;
        phonePrimary := phonePrimary this; phoneSecondary := phoneSecondary this;
        email := email this; streetNumber := streetNumber this;
        streetName := streetName this; city := city this;
        stateProvince := stateProvince this; country := country this;
        postalCode := postalCode this; licenseNumber := licenseNumber this;
        licenseState := licenseState this; licenseClass := licenseClass this;
        licenseClassOther := licenseClassOther this;
        licenseExpiry := licenseExpiry this; medCertExpiry := medCertExpiry this;
        twicExpiry := twicExpiry this; hireDate := hireDate this;
        driverType := driverType this; employmentStatus := employmentStatus this;
        operatingBaseCity := operatingBaseCity this;
        operatingBaseState := operatingBaseState this;
        assignedVehicle := assignedVehicle this; status := status this; loadId := v;
        notes := notes this; avatarUrl := avatarUrl this;
        emergencyContacts := emergencyContacts this; endorsements := endorsements this;
        documents := documents this; hoursOfService := hoursOfService this;
        createdAt := createdAt this; updatedAt := updatedAt this |}).

Definition set_updatedAt (v : Date) : method t unit :=
  fun this =>
    (Normal tt,
     {| id := id this; firstName := firstName this; lastName := lastName this;
        driverId := driverId this; dob := dob this; ssn := ssn this;
        phonePrimary := phonePrimary this; phoneSecondary := phoneSecondary this;
        email := email this; streetNumber := streetNumber this;
        streetName := streetName this; city := city this;
        stateProvince := stateProvince this; country := country this;
        postalCode := postalCode this; licenseNumber := licenseNumber this;
        licenseState := licenseState this; licenseClass := licenseClass this;
        licenseClassOther := licenseClassOther this;
        licenseExpiry := licenseExpiry this; medCertExpiry := medCertExpiry this;
        twicExpiry := twicExpiry this; hireDate := hireDate this;
        driverType := driverType this; employmentStatus := employmentStatus this;
        operatingBaseCity := operatingBaseCity this;
        operatingBaseState := operatingBaseState this;
        assignedVehicle := assignedVehicle this; status := status this;
        loadId := loadId this; notes := notes this; avatarUrl := avatarUrl this;
        emergencyContacts := emergencyContacts this; endorsements := endorsements this;
        documents := documents this; hoursOfService := hoursOfService this;
        createdAt := createdAt this; updatedAt := v |}).

Definition set_employmentStatus (v : string) : method t unit :=
  fun this =>
    (Normal tt,
     {| id := id this; firstName := firstName this; lastName := lastName this;
        driverId := driverId this; dob := dob this; ssn := ssn this;
        phonePrimary := phonePrimary this; phoneSecondary := phoneSecondary this;
        email := email this; streetNumber := streetNumber this;
        streetName := streetName this; city := city this;
        stateProvince := stateProvince this; country := country this;
        postalCode := postalCode this; licenseNumber := licenseNumber this;
        licenseState := licenseState this; licenseClass := licenseClass this;
        licenseClassOther := licenseClassOther this;
        licenseExpiry := licenseExpiry this; medCertExpiry := medCertExpiry this;
        twicExpiry := twicExpiry this; hireDate := hireDate this;
        driverType := driverType this; employmentStatus := v;
        operatingBaseCity := operatingBaseCity this;
        operatingBaseState := operatingBaseState this;
        assignedVehicle := assignedVehicle this; status := status this;
        loadId := loadId this; notes := notes this; avatarUrl := avatarUrl this;
        emergencyContacts := emergencyContacts this; endorsements := endorsements this;
        documents := documents this; hoursOfService := hoursOfService this;
        createdAt := createdAt this; updatedAt := updatedAt this |}).

Definition set_notes (v : option string) : method t unit :=
  fun this =>
    (Normal tt,
     {| id := id this; firstName := firstName this; lastName := lastName this;
        driverId := driverId this; dob := dob this; ssn := ssn this;
        phonePrimary := phonePrimary this; phoneSecondary := phoneSecondary this;
        email := email this; streetNumber := streetNumber this;
        streetName := streetName this; city := city this;
        stateProvince := stateProvince this; country := country this;
        postalCode := postalCode this; licenseNumber := licenseNumber this;
        licenseState := licenseState this; licenseClass := licenseClass this;
        licenseClassOther := licenseClassOther this;
        licenseExpiry := licenseExpiry this; medCertExpiry := medCertExpiry this;
        twicExpiry := twicExpiry this; hireDate := hireDate this;
        driverType := driverType this; employmentStatus := employmentStatus this;
        operatingBaseCity := operatingBaseCity this;
        operatingBaseState := operatingBaseState this;
        assignedVehicle := assignedVehicle this; status := status this;
        loadId := loadId this; notes := v; avatarUrl := avatarUrl this;
        emergencyContacts := emergencyContacts this; endorsements := endorsements this;
        documents := documents this; hoursOfService := hoursOfService this;
        createdAt := createdAt this; updatedAt := updatedAt this |}).

Definition set_emergencyContacts (v : list EmergencyContact.t) : method t unit :=
  fun this =>
    (Normal tt,
     {| id := id this; firstName := firstName this; lastName := lastName this;
        driverId := driverId this; dob := dob this; ssn := ssn this;
        phonePrimary := phonePrimary this; phoneSecondary := phoneSecondary this;
        email := email this; streetNumber := streetNumber this;
        streetName := streetName this; city := city this;
        stateProvince := stateProvince this; country := country this;
        postalCode := postalCode this; licenseNumber := licenseNumber this;
        licenseState := licenseState this; licenseClass := licenseClass this;
        licenseClassOther := licenseClassOther this;
        licenseExpiry := licenseExpiry this; medCertExpiry := medCertExpiry this;
        twicExpiry := twicExpiry this; hireDate := hireDate this;
        driverType := driverType this; employmentStatus := employmentStatus this;
        operatingBaseCity := operatingBaseCity this;
        operatingBaseState := operatingBaseState this;
        assignedVehicle := assignedVehicle this; status := status this;
        loadId := loadId this; notes := notes this; avatarUrl := avatarUrl this;
        emergencyContacts := v; endorsements := endorsements this;
        documents := documents this; hoursOfService := hoursOfService this;
        createdAt := createdAt this; updatedAt := updatedAt this |}).

Definition set_endorsements (v : list Endorsement.t) : method t unit :=
  fun this =>
    (Normal tt,
     {| id := id this; firstName := firstName this; lastName := lastName this;
        driverId := driverId this; dob := dob this; ssn := ssn this;
        phonePrimary := phonePrimary this; phoneSecondary := phoneSecondary this;
        email := email this; streetNumber := streetNumber this;
        streetName := streetName this; city := city this;
        stateProvince := stateProvince this; country := country this;
        postalCode := postalCode this; licenseNumber := licenseNumber this;
        licenseState := licenseState this; licenseClass := licenseClass this;
        licenseClassOther := licenseClassOther this;
        licenseExpiry := licenseExpiry this; medCertExpiry := medCertExpiry this;
        twicExpiry := twicExpiry this; hireDate := hireDate this;
        driverType := driverType this; employmentStatus := employmentStatus this;
        operatingBaseCity := operatingBaseCity this;
        operatingBaseState := operatingBaseState this;
        assignedVehicle := assignedVehicle this; status := status this;
        loadId := loadId this; notes := notes this; avatarUrl := avatarUrl this;
        emergencyContacts := emergencyContacts this; endorsements := v;
        documents := documents this; hoursOfService := hoursOfService this;
        createdAt := createdAt this; updatedAt := updatedAt this |}).

Definition set_documents (v : list Document.t) : method t unit :=
  fun this =>
    (Normal tt,
     {| id := id this; firstName := firstName this; lastName := lastName this;
        driverId := driverId this; dob := dob this; ssn := ssn this;
        phonePrimary := phonePrimary this; phoneSecondary := phoneSecondary this;
        email := email this; streetNumber := streetNumber this;
        streetName := streetName this; city := city this;
        stateProvince := stateProvince this; country := country this;
        postalCode := postalCode this; licenseNumber := licenseNumber this;
        licenseState := licenseState this; licenseClass := licenseClass this;
        licenseClassOther := licenseClassOther this;
        licenseExpiry := licenseExpiry this; medCertExpiry := medCertExpiry this;
        twicExpiry := twicExpiry this; hireDate := hireDate this;
        driverType := driverType this; employmentStatus := employmentStatus this;
        operatingBaseCity := operatingBaseCity this;
        operatingBaseState := operatingBaseState this;
        assignedVehicle := assignedVehicle this; status := status this;
        loadId := loadId this; notes := notes this; avatarUrl := avatarUrl this;
        emergencyContacts := emergencyContacts this; endorsements := endorsements this;
        documents := v; hoursOfService := hoursOfService this;
        createdAt := createdAt this; updatedAt := updatedAt this |}).

Definition set_hoursOfService (v : option HoursOfService.t) : method t unit :=
  fun this =>
    (Normal tt,
     {| id := id this; firstName := firstName this; lastName := lastName this;
        driverId := driverId this; dob := dob this; ssn := ssn this;
        phonePrimary := phonePrimary this; phoneSecondary := phoneSecondary this;
        email := email this; streetNumber := streetNumber this;
        streetName := streetName this; city := city this;
        stateProvince := stateProvince this; country := country this;
        postalCode := postalCode this; licenseNumber := licenseNumber this;
        licenseState := licenseState this; licenseClass := licenseClass this;
        licenseClassOther := licenseClassOther this;
        licenseExpiry := licenseExpiry this; medCertExpiry := medCertExpiry this;
        twicExpiry := twicExpiry this; hireDate := hireDate this;
        driverType := driverType this; employmentStatus := employmentStatus this;
        operatingBaseCity := operatingBaseCity this;
        operatingBaseState := operatingBaseState this;
        assignedVehicle := assignedVehicle this; status := status this;
        loadId := loadId this; notes := notes this; avatarUrl := avatarUrl this;
        emergencyContacts := emergencyContacts this; endorsements := endorsements this;
        documents := documents this; hoursOfService := v; createdAt := createdAt this;
        updatedAt := updatedAt this |}).

(** [/^[^\s@]+@[^\s@]+\.[^\s@]+$/] *)
Definition emailRegex : regex :=
  let other := Class (fun c => negb (is_space c || Ascii.eqb c "@")) in
  Cat (Plus other)
    (Cat (Class (Ascii.eqb "@"))
       (Cat (Plus other) (Cat (Class (Ascii.eqb ".")) (Plus other)))).

(** [/^\d{10,15}$/] *)
Definition phoneRegex : regex :=
  Cat (Times 10 (Class is_digit)) (UpTo 5 (Class is_digit)).

Definition present {A} (o : option A) : bool :=
  match o with Some _ => true | None => false end.

(** The required fields, in the order of the source, each with the
    truthiness of the property of that name in [data]. *)
Definition requiredFields (data : partial) : list (string * bool) :=
  [ ("firstName", truthy_ostring (p_firstName data));
    ("lastName", truthy_ostring (p_lastName data));
    ("dob", present (p_dob data));
    ("phonePrimary", truthy_ostring (p_phonePrimary data));
    ("email", truthy_ostring (p_email data));
    ("licenseNumber", truthy_ostring (p_licenseNumber data));
    ("licenseState", truthy_ostring (p_licenseState data));
    ("licenseClass", truthy_ostring (p_licenseClass data));
    ("licenseExpiry", present (p_licenseExpiry data));
    ("medCertExpiry", present (p_medCertExpiry data));
    ("hireDate", present (p_hireDate data));
    ("driverType", truthy_ostring (p_driverType data)) ].

Fixpoint check_required (fields : list (string * bool)) : completion unit :=
  match fields with
  | [] => Normal tt
  | (field, truthy) :: rest =>
      if negb truthy then
        Throw (InvalidDriverDataError ("Missing required field: " ++ field))
      else check_required rest
  end.

(** [if (o && bad(o)) throw e;] for an optional string. *)
Definition reject_string (o : option string) (bad : string -> bool) (e : string -> Exn)
  : completion unit :=
  match o with
  | Some s => if truthy_string s && bad s then Throw (e s) else Normal tt
  | None => Normal tt
  end.

(** [if (o && bad(o)) throw e;] for an optional date. *)
Definition reject_date (o : option Date) (bad : Date -> bool) (e : Exn)
  : completion unit :=
  match o with
  | Some d => if bad d then Throw e else Normal tt
  | None => Normal tt
  end.

(** The date-of-birth test: the birth year against the years 80 and 21
    before the current one. *)
Definition dob_out_of_range (now dob : Date) : bool :=
  let minBirthYear := (getFullYear now - 80)%Z in
  let maxBirthYear := (getFullYear now - 21)%Z in
  let birthYear := getFullYear dob in
  Z.ltb birthYear minBirthYear || Z.ltb maxBirthYear birthYear.

Definition validateDriverData (now : Date) (data : partial) : completion unit :=
  let+ _ := check_required (requiredFields data) in
  let+ _ := reject_string (p_email data) (fun s => negb (regex_test emailRegex s))
              (fun _ => InvalidDriverDataError "Invalid email format") in
  let+ _ := reject_string (p_phonePrimary data)
              (fun s => negb (regex_test phoneRegex (strip_non_digits s)))
              (fun _ => InvalidDriverDataError "Invalid primary phone number format") in
  let+ _ := reject_string (p_phoneSecondary data)
              (fun s => negb (regex_test phoneRegex (strip_non_digits s)))
              (fun _ => InvalidDriverDataError "Invalid secondary phone number format") in
  let+ _ := reject_date (p_dob data) (dob_out_of_range now)
              (InvalidDriverDataError
                 "Invalid date of birth (driver must be between 21 and 80 years old)") in
  let+ _ := reject_date (p_licenseExpiry data) (fun d => Z.ltb d now)
              (InvalidDriverDataError "License is already expired") in
  let+ _ := reject_date (p_medCertExpiry data) (fun d => Z.ltb d now)
              (InvalidDriverDataError "Medical certificate is already expired") in
  let+ _ := reject_string (p_driverType data)
              (fun s => negb (includes DriverType.values s))
              (fun s => InvalidDriverDataError ("Invalid driver type: " ++ s)) in
  reject_string (p_employmentStatus data)
    (fun s => negb (includes EmploymentStatus.values s))
    (fun s => InvalidDriverDataError ("Invalid employment status: " ++ s)).

Definition create (now : Date) (d : data) : completion t :=
  let driverData := with_defaults d in
  let+ _ := validateDriverData now (partial_of_data driverData) in
  Normal (new now driverData).

Definition getFullName (this : t) : string :=
  firstName this ++ " " ++ lastName this.

Definition isLicenseExpired (now : Date) (this : t) : bool :=
  Z.ltb (licenseExpiry this) now.

Definition isMedCertExpired (now : Date) (this : t) : bool :=
  Z.ltb (medCertExpiry this) now.

Definition isAvailable (this : t) : bool :=
  DriverStatus_eqb (status this) AVAILABLE.

Definition updateStatus (now : Date) (s : DriverStatus) : method t unit :=
  set_status s ;;;
  set_updatedAt now.

Definition assignLoad (now : Date) (loadId : string) : method t unit :=
  set_loadId (Some loadId) ;;;
  set_status DRIVING ;;;
  set_updatedAt now.

Definition completeLoad (now : Date) : method t unit :=
  set_loadId None ;;;
  set_status AVAILABLE ;;;
  set_updatedAt now.

Definition update (now : Date) (d : partial) : method t unit :=
  let* this := get in
  let mergedData := spread (to_partial this) d in
  lift (validateDriverData now mergedData) ;;;
  assign d ;;;
  set_updatedAt now.

Definition newline : string := String (ascii_of_nat 10) EmptyString.

(** [if (notes) this.notes = this.notes ? `${this.notes}\n\n<label>: ${notes}`
    : `<label>: ${notes}`] *)
Definition append_note (label : string) (text : option string) : method t unit :=
  match text with
  | Some n =>
      if truthy_string n then
        let* this := get in
        match notes this with
        | Some old =>
            if truthy_string old
            then set_notes (Some (old ++ newline ++ newline ++ label ++ ": " ++ n))
            else set_notes (Some (label ++ ": " ++ n))
        | None => set_notes (Some (label ++ ": " ++ n))
        end
      else ret tt
  | None => ret tt
  end.

Definition terminate (now : Date) (notes : option string) : method t unit :=
  set_employmentStatus EmploymentStatus.TERMINATED ;;;
  set_status OFF_DUTY ;;;
  append_note "Termination" notes ;;;
  set_updatedAt now.

Definition putOnLeave (now : Date) (notes : option string) : method t unit :=
  set_employmentStatus EmploymentStatus.LEAVE ;;;
  set_status AWAY ;;;
  append_note "Leave" notes ;;;
  set_updatedAt now.

Definition returnFromLeave (now : Date) : method t unit :=
  set_employmentStatus EmploymentStatus.ACTIVE ;;;
  set_status AVAILABLE ;;;
  set_updatedAt now.

Record CredentialStatus : Type := mk_CredentialStatus {
  licenseExpired : bool;
  licenseExpiringSoon : bool;
  medCertExpired : bool;
  medCertExpiringSoon : bool;
  twicExpired : bool;
  twicExpiringSoon : bool
}.

(** [daysThreshold] is a whole number of days, 30 when the argument is
    left out. *)
Definition checkCredentialStatus (now : Date) (daysThreshold : option Z)
  : method t CredentialStatus :=
  let daysThreshold := default 30%Z daysThreshold in
  let* this := get in
  let thresholdDate := Date_addDays now daysThreshold in
  ret {| licenseExpired := Z.ltb (licenseExpiry this) now;
         licenseExpiringSoon :=
           Z.leb now (licenseExpiry this) && Z.leb (licenseExpiry this) thresholdDate;
         medCertExpired := Z.ltb (medCertExpiry this) now;
         medCertExpiringSoon :=
           Z.leb now (medCertExpiry this) && Z.leb (medCertExpiry this) thresholdDate;
         twicExpired :=
           match twicExpiry this with
           | Some e => Z.ltb e now
           | None => false
           end;
         twicExpiringSoon :=
           match twicExpiry this with
           | Some e => Z.leb now e && Z.leb e thresholdDate
           | None => false
           end |}.

(** [[...].filter(Boolean)] on the six parts of the address, joined by a
    comma and a space; [null] when no part is left. *)
Definition getFullAddress (this : t) : option string :=
  let addressParts :=
    List.filter truthy_string
      (omap (fun part : option string => part)
         [streetNumber this; streetName this; city this; stateProvince this;
          postalCode this; country this]) in
  if Nat.ltb 0 (List.length addressParts) then Some (String.concat ", " addressParts)
  else None.

Definition addEmergencyContact (now : Date) (contact : EmergencyContact.t)
  : method t unit :=
  let* this := get in
  set_emergencyContacts (emergencyContacts this ++ [contact]) ;;;
  set_updatedAt now.

(** [x.id !== id] for an optional [id] of the element. *)
Definition id_differs {A} (eqb : A -> A -> bool) (own : option A) (id : A) : bool :=
  match own with
  | Some i => negb (eqb i id)
  | None => true
  end.

Definition removeEmergencyContact (now : Date) (contactId : Z) : method t bool :=
  let* this := get in
  let initialLength := List.length (emergencyContacts this) in
  let kept :=
    List.filter (fun contact => id_differs Z.eqb (EmergencyContact.id contact) contactId)
      (emergencyContacts this) in
  set_emergencyContacts kept ;;;
  let wasRemoved := Nat.ltb (List.length kept) initialLength in
  (if wasRemoved then set_updatedAt now else ret tt) ;;;
  ret wasRemoved.

Definition addEndorsement (now : Date) (endorsement : Endorsement.t) : method t unit :=
  let* this := get in
  set_endorsements (endorsements this ++ [endorsement]) ;;;
  set_updatedAt now.

Definition removeEndorsement (now : Date) (endorsementId : Z) : method t bool :=
  let* this := get in
  let initialLength := List.length (endorsements this) in
  let kept :=
    List.filter
      (fun endorsement => id_differs Z.eqb (Endorsement.id endorsement) endorsementId)
      (endorsements this) in
  set_endorsements kept ;;;
  let wasRemoved := Nat.ltb (List.length kept) initialLength in
  (if wasRemoved then set_updatedAt now else ret tt) ;;;
  ret wasRemoved.

Definition addDocument (now : Date) (document : Document.t) : method t unit :=
  let* this := get in
  set_documents (documents this ++ [document]) ;;;
  set_updatedAt now.

Definition removeDocument (now : Date) (documentId : string) : method t bool :=
  let* this := get in
  let initialLength := List.length (documents this) in
  let kept :=
    List.filter (fun document => id_differs String.eqb (Document.id document) documentId)
      (documents this) in
  set_documents kept ;;;
  let wasRemoved := Nat.ltb (List.length kept) initialLength in
  (if wasRemoved then set_updatedAt now else ret tt) ;;;
  ret wasRemoved.

Definition setHoursOfService (now : Date) (hoursOfService : HoursOfService.t)
  : method t unit :=
  set_hoursOfService (Some hoursOfService) ;;;
  set_updatedAt now.

End Driver.

(** ** IDriverRepository *)

(** The storage interface of the domain layer, over a store of type [R]. *)
Module Repository.

Class IDriverRepository (R : Type) : Type := {
  findAll : method R (list Driver.t);
  findById : string -> method R (option Driver.t);
  findByEmail : string -> method R (option Driver.t);
  create : Driver.t -> method R Driver.t;
  update : Driver.t -> method R Driver.t;
  delete : string -> method R Driver.t
}.

End Repository.

(** A store that meets the contract written in the interface: a table of
    driver records under their primary key [id], and the count of the keys
    generated so far (the schema generates the key of a new record).  A
    lookup returns the stored record or nothing and changes nothing;
    [update] replaces the record stored under the driver's [id].

    The service is written against the interface only.  Its Prisma
    implementation rebuilds every record it loads through the validating
    factories, so a stored row that no longer passes them makes the lookup
    itself throw; like any other failure of the storage layer, that is not
    part of this store. *)
Module Database.

Record t : Type := mk {
  drivers : gmap string Driver.t;
  generated : nat
}.

Definition uuid (n : nat) : string := "driver-" ++ pretty n.

Definition findAll : method t (list Driver.t) :=
  fun db => (Normal (snd <$> map_to_list (drivers db)), db).

Definition findById (id : string) : method t (option Driver.t) :=
  fun db => (Normal (drivers db !! id), db).

Definition findByEmail (email : string) : method t (option Driver.t) :=
  fun db =>
    (Normal (snd <$> List.find (fun row => String.eqb (Driver.email (snd row)) email)
                       (map_to_list (drivers db))),
     db).

Definition create (driver : Driver.t) : method t Driver.t :=
  fun db =>
    let id := uuid (generated db) in
    match drivers db !! id with
    | Some _ => (Throw (StorageError "Unique constraint failed on the fields: (id)"), db)
    | None =>
        let created := snd (Driver.set_id (Some id) driver) in
        (Normal created,
         {| drivers := <[id := created]> (drivers db); generated := S (generated db) |})
    end.

Definition update (driver : Driver.t) : method t Driver.t :=
  fun db =>
    match Driver.id driver with
    | None => (Throw (StorageError "Record to update not found"), db)
    | Some id =>
        match drivers db !! id with
        | None => (Throw (StorageError "Record to update not found"), db)
        | Some _ =>
            (Normal driver,
             {| drivers := <[id := driver]> (drivers db); generated := generated db |})
        end
    end.

Definition delete (id : string) : method t Driver.t :=
  fun db =>
    match drivers db !! id with
    | None => (Throw (StorageError "Record to delete does not exist"), db)
    | Some driver =>
        (Normal driver,
         {| drivers := base.delete id (drivers db); generated := generated db |})
    end.

#[global] Instance repository : Repository.IDriverRepository t := {
  Repository.findAll := findAll;
  Repository.findById := findById;
  Repository.findByEmail := findByEmail;
  Repository.create := create;
  Repository.update := update;
  Repository.delete := delete
}.

End Database.

(** ** DriverService *)

Module DriverService.

(** The nested inputs of [createDriver] and an uploaded file. *)
Record ContactInput : Type := mk_ContactInput {
  ci_name : string;
  ci_relationship : string;
  ci_phone : string
}.

Record EndorsementInput : Type := mk_EndorsementInput {
  ei_type : string;
  ei_expiryDate : option Date
}.

Record File : Type := mk_File {
  originalname : string;
  path : option string;
  filename : option string;
  mimetype : string
}.

Record CreateDriverData : Type := mk_CreateDriverData {
  cd_firstName : string;
  cd_lastName : string;
  cd_driverId : option string;
  cd_dob : Date;
  cd_ssn : option string;
  cd_phonePrimary : string;
  cd_phoneSecondary : option string;
  cd_email : string;
  cd_streetNumber : option string;
  cd_streetName : option string;
  cd_city : option string;
  cd_stateProvince : option string;
  cd_country : option string;
  cd_postalCode : option string;
  cd_licenseNumber : string;
  cd_licenseState : string;
  cd_licenseClass : string;
  cd_licenseClassOther : option string;
  cd_licenseExpiry : Date;
  cd_medCertExpiry : Date;
  cd_twicExpiry : option Date;
  cd_hireDate : Date;
  cd_driverType : string;
  cd_employmentStatus : option string;
  cd_operatingBaseCity : option string;
  cd_operatingBaseState : option string;
  cd_assignedVehicle : option string;
  cd_emergencyContacts : option (list ContactInput);
  cd_endorsements : option (list EndorsementInput);
  cd_tempPassword : option string;
  cd_role : option string;
  cd_notes : option string
}.

(** [{ ...driverBaseData, status: DriverStatus.AVAILABLE }]: the argument
    without its nested collections.  ([tempPassword] and [role] are no
    properties of a driver and are not carried along.) *)
Definition driverBaseData (driverData : CreateDriverData) : Driver.data :=
  {| Driver.data_id := None;
     Driver.data_firstName := cd_firstName driverData;
     Driver.data_lastName := cd_lastName driverData;
     Driver.data_driverId := cd_driverId driverData;
     Driver.data_dob := cd_dob driverData;
     Driver.data_ssn := cd_ssn driverData;
     Driver.data_phonePrimary := cd_phonePrimary driverData;
     Driver.data_phoneSecondary := cd_phoneSecondary driverData;
     Driver.data_email := cd_email driverData;
     Driver.data_streetNumber := cd_streetNumber driverData;
     Driver.data_streetName := cd_streetName driverData;
     Driver.data_city := cd_city driverData;
     Driver.data_stateProvince := cd_stateProvince driverData;
     Driver.data_country := cd_country driverData;
     Driver.data_postalCode := cd_postalCode driverData;
     Driver.data_licenseNumber := cd_licenseNumber driverData;
     Driver.data_licenseState := cd_licenseState driverData;
     Driver.data_licenseClass := cd_licenseClass driverData;
     Driver.data_licenseClassOther := cd_licenseClassOther driverData;
     Driver.data_licenseExpiry := cd_licenseExpiry driverData;
     Driver.data_medCertExpiry := cd_medCertExpiry driverData;
     Driver.data_twicExpiry := cd_twicExpiry driverData;
     Driver.data_hireDate := cd_hireDate driverData;
     Driver.data_driverType := cd_driverType driverData;
     Driver.data_employmentStatus := cd_employmentStatus driverData;
     Driver.data_operatingBaseCity := cd_operatingBaseCity driverData;
     Driver.data_operatingBaseState := cd_operatingBaseState driverData;
     Driver.data_assignedVehicle := cd_assignedVehicle driverData;
     Driver.data_status := Some AVAILABLE;
     Driver.data_loadId := None;
     Driver.data_notes := cd_notes driverData;
     Driver.data_avatarUrl := None;
     Driver.data_emergencyContacts := None;
     Driver.data_endorsements := None;
     Driver.data_documents := None;
     Driver.data_hoursOfService := None |}.


(** The argument of [updateDriver]: every property may be absent. *)
Record UpdateDriverData : Type := mk_UpdateDriverData {
  ud_firstName : option string;
  ud_lastName : option string;
  ud_driverId : option string;
  ud_dob : option Date;
  ud_ssn : option string;
  ud_phonePrimary : option string;
  ud_phoneSecondary : option string;
  ud_email : option string;
  ud_streetNumber : option string;
  ud_streetName : option string;
  ud_city : option string;
  ud_stateProvince : option string;
  ud_country : option string;
  ud_postalCode : option string;
  ud_licenseNumber : option string;
  ud_licenseState : option string;
  ud_licenseClass : option string;
  ud_licenseClassOther : option string;
  ud_licenseExpiry : option Date;
  ud_medCertExpiry : option Date;
  ud_twicExpiry : option Date;
  ud_hireDate : option Date;
  ud_driverType : option string;
  ud_employmentStatus : option string;
  ud_operatingBaseCity : option string;
  ud_operatingBaseState : option string;
  ud_assignedVehicle : option string;
  ud_emergencyContacts : option (list ContactInput);
  ud_endorsements : option (list EndorsementInput);
  ud_notes : option string
}.

(** The argument of [updateDriver] without its nested collections. *)
Definition updateBaseData (driverData : UpdateDriverData) : Driver.partial :=
  {| Driver.p_id := None;
     Driver.p_firstName := ud_firstName driverData;
     Driver.p_lastName := ud_lastName driverData;
     Driver.p_driverId := ud_driverId driverData;
     Driver.p_dob := ud_dob driverData;
     Driver.p_ssn := ud_ssn driverData;
     Driver.p_phonePrimary := ud_phonePrimary driverData;
     Driver.p_phoneSecondary := ud_phoneSecondary driverData;
     Driver.p_email := ud_email driverData;
     Driver.p_streetNumber := ud_streetNumber driverData;
     Driver.p_streetName := ud_streetName driverData;
     Driver.p_city := ud_city driverData;
     Driver.p_stateProvince := ud_stateProvince driverData;
     Driver.p_country := ud_country driverData;
     Driver.p_postalCode := ud_postalCode driverData;
     Driver.p_licenseNumber := ud_licenseNumber driverData;
     Driver.p_licenseState := ud_licenseState driverData;
     Driver.p_licenseClass := ud_licenseClass driverData;
     Driver.p_licenseClassOther := ud_licenseClassOther driverData;
     Driver.p_licenseExpiry := ud_licenseExpiry driverData;
     Driver.p_medCertExpiry := ud_medCertExpiry driverData;
     Driver.p_twicExpiry := ud_twicExpiry driverData;
     Driver.p_hireDate := ud_hireDate driverData;
     Driver.p_driverType := ud_driverType driverData;
     Driver.p_employmentStatus := ud_employmentStatus driverData;
     Driver.p_operatingBaseCity := ud_operatingBaseCity driverData;
     Driver.p_operatingBaseState := ud_operatingBaseState driverData;
     Driver.p_assignedVehicle := ud_assignedVehicle driverData;
     Driver.p_status := None;
     Driver.p_loadId := None;
     Driver.p_notes := ud_notes driverData;
     Driver.p_avatarUrl := None;
     Driver.p_emergencyContacts := None;
     Driver.p_endorsements := None;
     Driver.p_documents := None;
     Driver.p_hoursOfService := None;
     Driver.p_createdAt := None;
     Driver.p_updatedAt := None |}.

(** The MIME types the upload filter of the controller lets through, for
    [createDriver] and for [updateDriver]. *)
Definition allowedMimes : list string :=
  ["application/pdf"; "image/png"; "image/jpeg"; "image/jpg";
   "application/vnd.openxmlformats-officedocument.wordprocessingml.document"].

(** A method called on a local object: the object afterwards, or the error
    the method threw. *)
Definition call_on {S A} (m : method S A) (s : S) : completion S :=
  match m s with
  | (Normal _, s') => Normal s'
  | (Throw e, _) => Throw e
  end.

(** [other.id !== id] *)
Definition other_id (other : Driver.t) (id : string) : bool :=
  Driver.id_differs String.eqb (Driver.id other) id.

(** [array.map(f)] with a callback that may throw. *)
Fixpoint mapM {A B} (f : A -> completion B) (l : list A) : completion (list B) :=
  match l with
  | [] => Normal []
  | x :: l' =>
      let+ y := f x in
      let+ ys := mapM f l' in
      Normal (y :: ys)
  end.

Definition contact_of (contact : ContactInput) : EmergencyContact.t :=
  EmergencyContact.create
    {| EmergencyContact.data_name := ci_name contact;
       EmergencyContact.data_relationship := ci_relationship contact;
       EmergencyContact.data_phone := ci_phone contact;
       EmergencyContact.data_id := None;
       EmergencyContact.data_driverId := None |}.

Definition endorsement_of (endorsement : EndorsementInput) : completion Endorsement.t :=
  Endorsement.create
    {| Endorsement.data_type := ei_type endorsement;
       Endorsement.data_expiryDate := ei_expiryDate endorsement;
       Endorsement.data_id := None;
       Endorsement.data_driverId := None |}.

Definition document_of (now : Date) (file : File) : completion Document.t :=
  Document.create now
    {| Document.data_fileName := originalname file;
       Document.data_fileUrl :=
         if truthy_ostring (path file) then default "" (path file)
         else default "" (filename file);
       Document.data_fileType := mimetype file;
       Document.data_id := None;
       Document.data_driverId := None;
       Document.data_createdAt := None |}.

(** [list && list.length > 0] *)
Definition nonempty {A} (o : option (list A)) : bool :=
  match o with
  | Some (_ :: _) => true
  | _ => false
  end.

Section Service.
Context {R : Type} `{Repository.IDriverRepository R}.




Definition createDriver (now : Date) (driverData : CreateDriverData)
    (files : option (list File)) : method R Driver.t :=
  let* existingDriver := Repository.findByEmail (cd_email driverData) in
  throw_if (Driver.present existingDriver)
    (Error ("A driver with email " ++ cd_email driverData ++ " already exists")) ;;;
  let* driver := lift (Driver.create now (driverBaseData driverData)) in
  let driver :=
    if nonempty (cd_emergencyContacts driverData) then
      after (Driver.set_emergencyContacts
               (map contact_of (default [] (cd_emergencyContacts driverData)))) driver
    else driver in
  let* driver :=
    if nonempty (cd_endorsements driverData) then
      let* endorsements :=
        lift (mapM endorsement_of (default [] (cd_endorsements driverData))) in
      ret (after (Driver.set_endorsements endorsements) driver)
    else ret driver in
  let* hoursOfService :=
    lift (HoursOfService.create
            {| HoursOfService.data_drivingHoursToday := 0;
               HoursOfService.data_dutyHoursToday := 0;
               HoursOfService.data_timeUntilBreakRequired := 0;
               HoursOfService.data_id := None;
               HoursOfService.data_driverId := None |}) in
  let driver := after (Driver.set_hoursOfService (Some hoursOfService)) driver in
  let* driver :=
    if nonempty files then
      let* documents := lift (mapM (document_of now) (default [] files)) in
      ret (after (Driver.set_documents documents) driver)
    else ret driver in
  Repository.create driver.

Definition not_found (id : string) : Exn :=
  Error ("Driver with ID " ++ id ++ " not found").

Definition deleteDriver (id : string) : method R Driver.t :=
  let* existingDriver := Repository.findById id in
  throw_if (negb (Driver.present existingDriver)) (not_found id) ;;;
  Repository.delete id.

Definition updateDriver (now : Date) (id : string) (driverData : UpdateDriverData)
    (files : option (list File)) : method R Driver.t :=
  let* found := Repository.findById id in
  match found with
  | None => throw (not_found id)
  | Some existingDriver =>
      match ud_email driverData with
      | Some email =>
          if truthy_string email && negb (String.eqb email (Driver.email existingDriver))
          then
            let* driverWithEmail := Repository.findByEmail email in
            match driverWithEmail with
            | Some other =>
                throw_if (other_id other id)
                  (Error ("A driver with email " ++ email ++ " already exists"))
            | None => ret tt
            end
          else ret tt
      | None => ret tt
      end ;;;
      let* existingDriver :=
        lift (call_on (Driver.update now (updateBaseData driverData)) existingDriver) in
      let existingDriver :=
        match ud_emergencyContacts driverData with
        | Some emergencyContacts =>
            after (Driver.set_emergencyContacts (map contact_of emergencyContacts))
              existingDriver
        | None => existingDriver
        end in
      let* existingDriver :=
        match ud_endorsements driverData with
        | Some endorsements =>
            let* created := lift (mapM endorsement_of endorsements) in
            ret (after (Driver.set_endorsements created) existingDriver)
        | None => ret existingDriver
        end in
      let* existingDriver :=
        if nonempty files then
          let* newDocuments := lift (mapM (document_of now) (default [] files)) in
          ret (after (Driver.set_documents
                        (Driver.documents existingDriver ++ newDocuments))
                 existingDriver)
        else ret existingDriver in
      Repository.update existingDriver
  end.

Definition updateDriverStatus (now : Date) (id : string) (status : DriverStatus)
  : method R Driver.t :=
  let* found := Repository.findById id in
  match found with
  | None => throw (not_found id)
  | Some driver =>
      let driver := after (Driver.updateStatus now status) driver in
      Repository.update driver
  end.

Definition assignLoad (now : Date) (driverId loadId : string) : method R Driver.t :=
  let* found := Repository.findById driverId in
  match found with
  | None => throw (not_found driverId)
  | Some driver =>
      throw_if (negb (Driver.isAvailable driver))
        (Error ("Driver " ++ Driver.getFullName driver
                ++ " is not available for assignment")) ;;;
      let driver := after (Driver.assignLoad now loadId) driver in
      Repository.update driver
  end.

Definition completeLoad (now : Date) (driverId : string) : method R Driver.t :=
  let* found := Repository.findById driverId in
  match found with
  | None => throw (not_found driverId)
  | Some driver =>
      throw_if (negb (truthy_ostring (Driver.loadId driver)))
        (Error ("Driver " ++ Driver.getFullName driver
                ++ " does not have a load assigned")) ;;;
      let driver := after (Driver.completeLoad now) driver in
      Repository.update driver
  end.


Definition terminateDriver (now : Date) (id : string) (notes : option string)
  : method R Driver.t :=
  let* found := Repository.findById id in
  match found with
  | None => throw (not_found id)
  | Some driver =>
      let driver := after (Driver.terminate now notes) driver in
      Repository.update driver
  end.

Definition putDriverOnLeave (now : Date) (id : string) (notes : option string)
  : method R Driver.t :=
  let* found := Repository.findById id in
  match found with
  | None => throw (not_found id)
  | Some driver =>
      let driver := after (Driver.putOnLeave now notes) driver in
      Repository.update driver
  end.

Definition returnDriverFromLeave (now : Date) (id : string) : method R Driver.t :=
  let* found := Repository.findById id in
  match found with
  | None => throw (not_found id)
  | Some driver =>
      throw_if (negb (String.eqb (Driver.employmentStatus driver) EmploymentStatus.LEAVE))
        (Error ("Driver " ++ Driver.getFullName driver ++ " is not on leave")) ;;;
      let driver := after (Driver.returnFromLeave now) driver in
      Repository.update driver
  end.


End Service.

End DriverService.

(** ** PrismaDriverRepository: loading a row *)

Module PrismaDriverRepository.

Record ContactRow : Type := mk_ContactRow {
  contact_id : Z;
  contact_name : string;
  contact_relationship : string;
  contact_phone : string;
  contact_driverId : string
}.

Record EndorsementRow : Type := mk_EndorsementRow {
  endorsement_id : Z;
  endorsement_type : string;
  endorsement_expiryDate : option Date;
  endorsement_driverId : string
}.

Record DocumentRow : Type := mk_DocumentRow {
  document_id : string;
  document_fileName : string;
  document_fileUrl : string;
  document_fileType : string;
  document_driverId : string;
  document_createdAt : Date
}.

Record HoursOfServiceRow : Type := mk_HoursOfServiceRow {
  hours_id : Z;
  hours_drivingHoursToday : Q;
  hours_dutyHoursToday : Q;
  hours_timeUntilBreakRequired : Q;
  hours_driverId : string
}.

(** A driver row with its relations included; a nullable column is an
    option. *)
Record DriverRow : Type := mk_DriverRow {
  row_id : string;
  row_firstName : string;
  row_lastName : string;
  row_driverId : option string;
  row_dob : Date;
  row_ssn : option string;
  row_phonePrimary : string;
  row_phoneSecondary : option string;
  row_email : string;
  row_streetNumber : option string;
  row_streetName : option string;
  row_city : option string;
  row_stateProvince : option string;
  row_country : option string;
  row_postalCode : option string;
  row_licenseNumber : string;
  row_licenseState : string;
  row_licenseClass : string;
  row_licenseClassOther : option string;
  row_licenseExpiry : Date;
  row_medCertExpiry : Date;
  row_twicExpiry : option Date;
  row_hireDate : Date;
  row_driverType : string;
  row_employmentStatus : string;
  row_operatingBaseCity : option string;
  row_operatingBaseState : option string;
  row_assignedVehicle : option string;
  row_status : DriverStatus;
  row_loadId : option string;
  row_notes : option string;
  row_avatarUrl : option string;
  row_emergencyContacts : list ContactRow;
  row_endorsements : list EndorsementRow;
  row_documents : list DocumentRow;
  row_hoursOfService : option HoursOfServiceRow;
  row_createdAt : Date;
  row_updatedAt : Date
}.

(** [x || undefined] *)
Definition or_undefined (x : option string) : option string :=
  if truthy_ostring x then x else None.

Definition mapToDomainModel (now : Date) (prismaDriver : DriverRow) : completion Driver.t :=
  let emergencyContacts :=
    map (fun contact =>
           EmergencyContact.create
             {| EmergencyContact.data_id := Some (contact_id contact);
                EmergencyContact.data_name := contact_name contact;
                EmergencyContact.data_relationship := contact_relationship contact;
                EmergencyContact.data_phone := contact_phone contact;
                EmergencyContact.data_driverId := Some (contact_driverId contact) |})
      (row_emergencyContacts prismaDriver) in
  let+ endorsements :=
    DriverService.mapM
      (fun endorsement =>
         Endorsement.create
           {| Endorsement.data_id := Some (endorsement_id endorsement);
              Endorsement.data_type := endorsement_type endorsement;
              Endorsement.data_expiryDate := endorsement_expiryDate endorsement;
              Endorsement.data_driverId := Some (endorsement_driverId endorsement) |})
      (row_endorsements prismaDriver) in
  let+ documents :=
    DriverService.mapM
      (fun document =>
         Document.create now
           {| Document.data_id := Some (document_id document);
              Document.data_fileName := document_fileName document;
              Document.data_fileUrl := document_fileUrl document;
              Document.data_fileType := document_fileType document;
              Document.data_driverId := Some (document_driverId document);
              Document.data_createdAt := Some (document_createdAt document) |})
      (row_documents prismaDriver) in
  let+ hoursOfService :=
    match row_hoursOfService prismaDriver with
    | Some hours =>
        let+ created :=
          HoursOfService.create
            {| HoursOfService.data_id := Some (hours_id hours);
               HoursOfService.data_drivingHoursToday := hours_drivingHoursToday hours;
               HoursOfService.data_dutyHoursToday := hours_dutyHoursToday hours;
               HoursOfService.data_timeUntilBreakRequired :=
                 hours_timeUntilBreakRequired hours;
               HoursOfService.data_driverId := Some (hours_driverId hours) |} in
        Normal (Some created)
    | None => Normal None
    end in
  Driver.create now
    {| Driver.data_id := Some (row_id prismaDriver);
       Driver.data_firstName := row_firstName prismaDriver;
       Driver.data_lastName := row_lastName prismaDriver;
       Driver.data_driverId := or_undefined (row_driverId prismaDriver);
       Driver.data_dob := row_dob prismaDriver;
       Driver.data_ssn := or_undefined (row_ssn prismaDriver);
       Driver.data_phonePrimary := row_phonePrimary prismaDriver;
       Driver.data_phoneSecondary := or_undefined (row_phoneSecondary prismaDriver);
       Driver.data_email := row_email prismaDriver;
       Driver.data_streetNumber := or_undefined (row_streetNumber prismaDriver);
       Driver.data_streetName := or_undefined (row_streetName prismaDriver);
       Driver.data_city := or_undefined (row_city prismaDriver);
       Driver.data_stateProvince := or_undefined (row_stateProvince prismaDriver);
       Driver.data_country := or_undefined (row_country prismaDriver);
       Driver.data_postalCode := or_undefined (row_postalCode prismaDriver);
       Driver.data_licenseNumber := row_licenseNumber prismaDriver;
       Driver.data_licenseState := row_licenseState prismaDriver;
       Driver.data_licenseClass := row_licenseClass prismaDriver;
       Driver.data_licenseClassOther := or_undefined (row_licenseClassOther prismaDriver);
       Driver.data_licenseExpiry := row_licenseExpiry prismaDriver;
       Driver.data_medCertExpiry := row_medCertExpiry prismaDriver;
       Driver.data_twicExpiry := row_twicExpiry prismaDriver;
       Driver.data_hireDate := row_hireDate prismaDriver;
       Driver.data_driverType := row_driverType prismaDriver;
       Driver.data_employmentStatus := Some (row_employmentStatus prismaDriver);
       Driver.data_operatingBaseCity := or_undefined (row_operatingBaseCity prismaDriver);
       Driver.data_operatingBaseState := or_undefined (row_operatingBaseState prismaDriver);
       Driver.data_assignedVehicle := or_undefined (row_assignedVehicle prismaDriver);
       Driver.data_status := Some (row_status prismaDriver);
       Driver.data_loadId := or_undefined (row_loadId prismaDriver);
       Driver.data_notes := or_undefined (row_notes prismaDriver);
       Driver.data_avatarUrl := or_undefined (row_avatarUrl prismaDriver);
       Driver.data_emergencyContacts := Some emergencyContacts;
       Driver.data_endorsements := Some endorsements;
       Driver.data_documents := Some documents;
       Driver.data_hoursOfService := hoursOfService |}.

End PrismaDriverRepository.

(** ** Sample values

    The driver of the repository's integration script, at a clock reading of
    3 November 2026, used where a property is shown on a concrete input. *)
Module Sample.

Definition now : Date := Date_of_ymd 2026 11 3.

Definition data : Driver.data :=
  {| Driver.data_id := None;
     Driver.data_firstName := "Hassan";
     Driver.data_lastName := "Kharal";
     Driver.data_driverId := None;
     Driver.data_dob := Date_of_ymd 1997 2 8;
     Driver.data_ssn := Some "123-45-6789";
     Driver.data_phonePrimary := "519-980-6545";
     Driver.data_phoneSecondary := None;
     Driver.data_email := "hassan.kharal@example.com";
     Driver.data_streetNumber := Some "456";
     Driver.data_streetName := Some "Oak Ave";
     Driver.data_city := Some "Detroit";
     Driver.data_stateProvince := Some "MI";
     Driver.data_country := Some "USA";
     Driver.data_postalCode := Some "48202";
     Driver.data_licenseNumber := "HK876898";
     Driver.data_licenseState := "AK";
     Driver.data_licenseClass := "Class A";
     Driver.data_licenseClassOther := None;
     Driver.data_licenseExpiry := Date_of_ymd 2027 8 7;
     Driver.data_medCertExpiry := Date_of_ymd 2027 8 7;
     Driver.data_twicExpiry := None;
     Driver.data_hireDate := Date_of_ymd 2025 6 4;
     Driver.data_driverType := DriverType.COMPANY;
     Driver.data_employmentStatus := None;
     Driver.data_operatingBaseCity := None;
     Driver.data_operatingBaseState := None;
     Driver.data_assignedVehicle := None;
     Driver.data_status := None;
     Driver.data_loadId := None;
     Driver.data_notes := None;
     Driver.data_avatarUrl := None;
     Driver.data_emergencyContacts := None;
     Driver.data_endorsements := None;
     Driver.data_documents := None;
     Driver.data_hoursOfService := None |}.

(** [{ ...d, dob: v }] *)
Definition with_dob (v : Date) (d : Driver.data) : Driver.data :=
  {| Driver.data_id := Driver.data_id d;
     Driver.data_firstName := Driver.data_firstName d;
     Driver.data_lastName := Driver.data_lastName d;
     Driver.data_driverId := Driver.data_driverId d; Driver.data_dob := v;
     Driver.data_ssn := Driver.data_ssn d;
     Driver.data_phonePrimary := Driver.data_phonePrimary d;
     Driver.data_phoneSecondary := Driver.data_phoneSecondary d;
     Driver.data_email := Driver.data_email d;
     Driver.data_streetNumber := Driver.data_streetNumber d;
     Driver.data_streetName := Driver.data_streetName d;
     Driver.data_city := Driver.data_city d;
     Driver.data_stateProvince := Driver.data_stateProvince d;
     Driver.data_country := Driver.data_country d;
     Driver.data_postalCode := Driver.data_postalCode d;
     Driver.data_licenseNumber := Driver.data_licenseNumber d;
     Driver.data_licenseState := Driver.data_licenseState d;
     Driver.data_licenseClass := Driver.data_licenseClass d;
     Driver.data_licenseClassOther := Driver.data_licenseClassOther d;
     Driver.data_licenseExpiry := Driver.data_licenseExpiry d;
     Driver.data_medCertExpiry := Driver.data_medCertExpiry d;
     Driver.data_twicExpiry := Driver.data_twicExpiry d;
     Driver.data_hireDate := Driver.data_hireDate d;
     Driver.data_driverType := Driver.data_driverType d;
     Driver.data_employmentStatus := Driver.data_employmentStatus d;
     Driver.data_operatingBaseCity := Driver.data_operatingBaseCity d;
     Driver.data_operatingBaseState := Driver.data_operatingBaseState d;
     Driver.data_assignedVehicle := Driver.data_assignedVehicle d;
     Driver.data_status := Driver.data_status d;
     Driver.data_loadId := Driver.data_loadId d;
     Driver.data_notes := Driver.data_notes d;
     Driver.data_avatarUrl := Driver.data_avatarUrl d;
     Driver.data_emergencyContacts := Driver.data_emergencyContacts d;
     Driver.data_endorsements := Driver.data_endorsements d;
     Driver.data_documents := Driver.data_documents d;
     Driver.data_hoursOfService := Driver.data_hoursOfService d |}.

(** [{ ...d, licenseExpiry: v }] *)
Definition with_licenseExpiry (v : Date) (d : Driver.data) : Driver.data :=
  {| Driver.data_id := Driver.data_id d;
     Driver.data_firstName := Driver.data_firstName d;
     Driver.data_lastName := Driver.data_lastName d;
     Driver.data_driverId := Driver.data_driverId d;
     Driver.data_dob := Driver.data_dob d; Driver.data_ssn := Driver.data_ssn d;
     Driver.data_phonePrimary := Driver.data_phonePrimary d;
     Driver.data_phoneSecondary := Driver.data_phoneSecondary d;
     Driver.data_email := Driver.data_email d;
     Driver.data_streetNumber := Driver.data_streetNumber d;
     Driver.data_streetName := Driver.data_streetName d;
     Driver.data_city := Driver.data_city d;
     Driver.data_stateProvince := Driver.data_stateProvince d;
     Driver.data_country := Driver.data_country d;
     Driver.data_postalCode := Driver.data_postalCode d;
     Driver.data_licenseNumber := Driver.data_licenseNumber d;
     Driver.data_licenseState := Driver.data_licenseState d;
     Driver.data_licenseClass := Driver.data_licenseClass d;
     Driver.data_licenseClassOther := Driver.data_licenseClassOther d;
     Driver.data_licenseExpiry := v;
     Driver.data_medCertExpiry := Driver.data_medCertExpiry d;
     Driver.data_twicExpiry := Driver.data_twicExpiry d;
     Driver.data_hireDate := Driver.data_hireDate d;
     Driver.data_driverType := Driver.data_driverType d;
     Driver.data_employmentStatus := Driver.data_employmentStatus d;
     Driver.data_operatingBaseCity := Driver.data_operatingBaseCity d;
     Driver.data_operatingBaseState := Driver.data_operatingBaseState d;
     Driver.data_assignedVehicle := Driver.data_assignedVehicle d;
     Driver.data_status := Driver.data_status d;
     Driver.data_loadId := Driver.data_loadId d;
     Driver.data_notes := Driver.data_notes d;
     Driver.data_avatarUrl := Driver.data_avatarUrl d;
     Driver.data_emergencyContacts := Driver.data_emergencyContacts d;
     Driver.data_endorsements := Driver.data_endorsements d;
     Driver.data_documents := Driver.data_documents d;
     Driver.data_hoursOfService := Driver.data_hoursOfService d |}.

(** The update [{ dob: v }]. *)
Definition patch_dob (v : Date) : Driver.partial :=
  {| Driver.p_id := None; Driver.p_firstName := None; Driver.p_lastName := None;
     Driver.p_driverId := None; Driver.p_dob := Some v; Driver.p_ssn := None;
     Driver.p_phonePrimary := None; Driver.p_phoneSecondary := None;
     Driver.p_email := None; Driver.p_streetNumber := None;
     Driver.p_streetName := None; Driver.p_city := None;
     Driver.p_stateProvince := None; Driver.p_country := None;
     Driver.p_postalCode := None; Driver.p_licenseNumber := None;
     Driver.p_licenseState := None; Driver.p_licenseClass := None;
     Driver.p_licenseClassOther := None; Driver.p_licenseExpiry := None;
     Driver.p_medCertExpiry := None; Driver.p_twicExpiry := None;
     Driver.p_hireDate := None; Driver.p_driverType := None;
     Driver.p_employmentStatus := None; Driver.p_operatingBaseCity := None;
     Driver.p_operatingBaseState := None; Driver.p_assignedVehicle := None;
     Driver.p_status := None; Driver.p_loadId := None; Driver.p_notes := None;
     Driver.p_avatarUrl := None; Driver.p_emergencyContacts := None;
     Driver.p_endorsements := None; Driver.p_documents := None;
     Driver.p_hoursOfService := None; Driver.p_createdAt := None;
     Driver.p_updatedAt := None |}.

(** The sample driver as the store returns it, under the key "driver-0". *)
Definition driver : Driver.t :=
  after (Driver.set_id (Some "driver-0")) (Driver.new now (Driver.with_defaults data)).

Definition db : Database.t :=
  {| Database.drivers := {[ "driver-0" := driver ]}; Database.generated := 1 |}.

(** The same driver as an argument of the service's [createDriver]. *)
Definition createData : DriverService.CreateDriverData :=
  {| DriverService.cd_firstName := "Hassan";
     DriverService.cd_lastName := "Kharal";
     DriverService.cd_driverId := None;
     DriverService.cd_dob := Date_of_ymd 1997 2 8;
     DriverService.cd_ssn := Some "123-45-6789";
     DriverService.cd_phonePrimary := "519-980-6545";
     DriverService.cd_phoneSecondary := None;
     DriverService.cd_email := "hassan.kharal@example.com";
     DriverService.cd_streetNumber := Some "456";
     DriverService.cd_streetName := Some "Oak Ave";
     DriverService.cd_city := Some "Detroit";
     DriverService.cd_stateProvince := Some "MI";
     DriverService.cd_country := Some "USA";
     DriverService.cd_postalCode := Some "48202";
     DriverService.cd_licenseNumber := "HK876898";
     DriverService.cd_licenseState := "AK";
     DriverService.cd_licenseClass := "Class A";
     DriverService.cd_licenseClassOther := None;
     DriverService.cd_licenseExpiry := Date_of_ymd 2027 8 7;
     DriverService.cd_medCertExpiry := Date_of_ymd 2027 8 7;
     DriverService.cd_twicExpiry := None;
     DriverService.cd_hireDate := Date_of_ymd 2025 6 4;
     DriverService.cd_driverType := DriverType.COMPANY;
     DriverService.cd_employmentStatus := None;
     DriverService.cd_operatingBaseCity := None;
     DriverService.cd_operatingBaseState := None;
     DriverService.cd_assignedVehicle := None;
     DriverService.cd_emergencyContacts := None;
     DriverService.cd_endorsements := None;
     DriverService.cd_tempPassword := None;
     DriverService.cd_role := None;
     DriverService.cd_notes := None |}.

End Sample.

(** ** Vocabulary of the properties *)

(** Histories of an hours-of-service counter: the four mutators, and the
    states reached from a factory by calling them.  The state after a call
    is the one the call leaves, whether it returned or threw. *)
Module HoursOfServiceHistory.
Import HoursOfService.

Inductive call : Type :=
| AddDrivingTime (hours : Q)
| AddOnDutyTime (hours : Q)
| TakeBreak (hours : Q)
| ResetForNewDay.

Definition perform (c : call) : method t unit :=
  match c with
  | AddDrivingTime hours => addDrivingTime hours
  | AddOnDutyTime hours => addOnDutyTime hours
  | TakeBreak hours => takeBreak hours
  | ResetForNewDay => resetForNewDay
  end.

Inductive reachable : t -> Prop :=
| reachable_create (d : data) (h : t) :
    create d = Normal h -> reachable h
| reachable_createDefault (driverId : string) :
    reachable (createDefault driverId)
| reachable_call (h : t) (c : call) :
    reachable h -> reachable (after (perform c) h).



End HoursOfServiceHistory.

(** The strings a regular expression denotes. *)
Inductive matches : regex -> string -> Prop :=
| matches_Eps : matches Eps ""
| matches_Class (p : ascii -> bool) (c : ascii) :
    p c = true -> matches (Class p) (String c "")
| matches_Cat (r1 r2 : regex) (s1 s2 : string) :
    matches r1 s1 -> matches r2 s2 -> matches (Cat r1 r2) (s1 ++ s2)
| matches_Alt_l (r1 r2 : regex) (s : string) : matches r1 s -> matches (Alt r1 r2) s
| matches_Alt_r (r1 r2 : regex) (s : string) : matches r2 s -> matches (Alt r1 r2) s
| matches_Star_nil (r : regex) : matches (Star r) ""
| matches_Star_cons (r : regex) (s1 s2 : string) :
    matches r s1 -> matches (Star r) s2 -> matches (Star r) (s1 ++ s2).

(** Every character of a string satisfies [p]. *)
Fixpoint all_chars (p : ascii -> bool) (s : string) : bool :=
  match s with
  | EmptyString => true
  | String c s' => p c && all_chars p s'
  end.

(** What the validation of driver data asks of a driver at the clock reading
    [now]. *)
Definition plain_char (c : ascii) : bool := negb (is_space c || Ascii.eqb c "@").

Definition email_shaped (s : string) : Prop :=
  exists name domain suffix,
    s = name ++ "@" ++ domain ++ "." ++ suffix
    /\ name <> "" /\ domain <> "" /\ suffix <> ""
    /\ all_chars plain_char name = true /\ all_chars plain_char domain = true
    /\ all_chars plain_char suffix = true.

Definition valid_at (now : Date) (driver : Driver.t) : Prop :=
  Driver.firstName driver <> "" /\ Driver.lastName driver <> ""
  /\ Driver.licenseNumber driver <> "" /\ Driver.licenseState driver <> ""
  /\ Driver.licenseClass driver <> ""
  /\ email_shaped (Driver.email driver)
  /\ 10 <= count_digits (Driver.phonePrimary driver) <= 15
  /\ (forall phone, Driver.phoneSecondary driver = Some phone -> phone <> "" ->
       10 <= count_digits phone <= 15)
  /\ (21 <= getFullYear now - getFullYear (Driver.dob driver) <= 80)%Z
  /\ (now <= Driver.licenseExpiry driver)%Z
  /\ (now <= Driver.medCertExpiry driver)%Z
  /\ In (Driver.driverType driver) DriverType.values
  /\ (Driver.employmentStatus driver <> "" ->
       In (Driver.employmentStatus driver) EmploymentStatus.values).

(** Histories of the store: the calls of the service that write, and the
    stores reached from the empty one by making them.  The store after a
    call is the one the call leaves, whether it returned or threw. *)
Module ServiceHistory.
Import DriverService.

Inductive call : Type :=
| CreateDriver (driverData : CreateDriverData) (files : option (list File))
| UpdateDriver (id : string) (driverData : UpdateDriverData) (files : option (list File))
| DeleteDriver (id : string)
| UpdateDriverStatus (id : string) (status : DriverStatus)
| AssignLoad (driverId loadId : string)
| CompleteLoad (driverId : string)
| TerminateDriver (id : string) (notes : option string)
| PutDriverOnLeave (id : string) (notes : option string)
| ReturnDriverFromLeave (id : string).

Definition perform (now : Date) (c : call) : method Database.t Driver.t :=
  match c with
  | CreateDriver driverData files => createDriver now driverData files
  | UpdateDriver id driverData files => updateDriver now id driverData files
  | DeleteDriver id => deleteDriver id
  | UpdateDriverStatus id status => updateDriverStatus now id status
  | AssignLoad driverId loadId => assignLoad now driverId loadId
  | CompleteLoad driverId => completeLoad now driverId
  | TerminateDriver id notes => terminateDriver now id notes
  | PutDriverOnLeave id notes => putDriverOnLeave now id notes
  | ReturnDriverFromLeave id => returnDriverFromLeave now id
  end.

Definition empty : Database.t := {| Database.drivers := ∅; Database.generated := 0 |}.

Inductive reachable : Database.t -> Prop :=
| reachable_empty : reachable empty
| reachable_call (db : Database.t) (now : Date) (c : call) :
    reachable db -> reachable (after (perform now c) db).

(** Every record is stored under its own [id]. *)
Definition keyed (db : Database.t) : Prop :=
  forall id driver, Database.drivers db !! id = Some driver -> Driver.id driver = Some id.

(** No two records share an email. *)
Definition unique_emails (db : Database.t) : Prop :=
  forall id1 id2 driver1 driver2,
    Database.drivers db !! id1 = Some driver1 ->
    Database.drivers db !! id2 = Some driver2 ->
    Driver.email driver1 = Driver.email driver2 -> id1 = id2.

(** The keys still to be generated are free. *)
Definition fresh (db : Database.t) : Prop :=
  forall n, (Database.generated db <= n)%nat -> Database.drivers db !! Database.uuid n = None.

Definition consistent (db : Database.t) : Prop :=
  keyed db /\ unique_emails db /\ fresh db.

(** What one call may do to the store: nothing; add a record with a new
    email under the next generated key; replace a record, keeping its key and
    either its email or taking one no record has; delete a record. *)
Inductive step (db : Database.t) : Database.t -> Prop :=
| step_none : step db db
| step_create (driver : Driver.t) :
    Database.drivers db !! Database.uuid (Database.generated db) = None ->
    Driver.id driver = Some (Database.uuid (Database.generated db)) ->
    (forall id other, Database.drivers db !! id = Some other ->
                      Driver.email other <> Driver.email driver) ->
    step db {| Database.drivers :=
                 <[Database.uuid (Database.generated db) := driver]> (Database.drivers db);
               Database.generated := S (Database.generated db) |}
| step_update (id : string) (old driver : Driver.t) :
    Database.drivers db !! id = Some old ->
    Driver.id driver = Some id ->
    Driver.email driver = Driver.email old
    \/ (forall id' other, Database.drivers db !! id' = Some other ->
                          Driver.email other <> Driver.email driver) ->
    step db {| Database.drivers := <[id := driver]> (Database.drivers db);
               Database.generated := Database.generated db |}
| step_delete (id : string) :
    step db {| Database.drivers := base.delete id (Database.drivers db);
               Database.generated := Database.generated db |}.

End ServiceHistory.

(** * Properties *)

(** ** Numbers *)

Lemma Qlt_bool_iff (x y : Q) : Qlt_bool x y = true <-> (x < y)%Q.
Proof.
  unfold Qlt_bool. rewrite negb_true_iff, <- not_true_iff_false, Qle_bool_iff.
  split; [apply Qnot_le_lt | apply Qlt_not_le].
Qed.

Lemma Qlt_bool_false_iff (x y : Q) : Qlt_bool x y = false <-> (y <= x)%Q.
Proof.
  unfold Qlt_bool. rewrite negb_false_iff. apply Qle_bool_iff.
Qed.

(** ** HoursOfService *)

Section HoursOfServiceProperties.
Import HoursOfService HoursOfServiceHistory.
Local Open Scope Q_scope.






(** C7. [takeBreak(hours)] throws on negative hours; otherwise it sets
    [timeUntilBreakRequired] to the required break length 0.5, whatever
    [hours] is.  [drivingHoursToday] and [dutyHoursToday] are the same
    after the call in every case. *)
Theorem takeBreak_resets_countdown_only (this : t) (hours : Q) :
  (hours < 0 ->
     takeBreak hours this
     = (Throw (InvalidHoursOfServiceError "Break time cannot be negative"), this))
  /\ (~ hours < 0 ->
      result (takeBreak hours) this = Normal tt
      /\ timeUntilBreakRequired (after (takeBreak hours) this) = 1 # 2)
  /\ drivingHoursToday (after (takeBreak hours) this) = drivingHoursToday this
  /\ dutyHoursToday (after (takeBreak hours) this) = dutyHoursToday this.
Proof.
  unfold takeBreak, bind, throw_if, result, after.
  destruct (Qlt_bool hours 0) eqn:E.
  - apply Qlt_bool_iff in E. cbn. repeat split; intros; try reflexivity; contradiction.
  - apply Qlt_bool_false_iff in E. cbn.
    repeat split; intros; try reflexivity. exfalso. lra.
Qed.

Lemma takeBreak_resets_countdown_only_witness :
  let this := new 3 5 0 None None in
  timeUntilBreakRequired (after (takeBreak 8) this) = 1 # 2
  /\ takeBreak (-1) this
     = (Throw (InvalidHoursOfServiceError "Break time cannot be negative"), this).
Proof.
  intros this.
  destruct (takeBreak_resets_countdown_only this 8) as (_ & Hset & _).
  destruct (takeBreak_resets_countdown_only this (-1)) as (Hneg & _).
  split.
  - apply Hset. vm_compute. discriminate.
  - apply Hneg. reflexivity.
Defined.

(** A call that throws leaves the counter as it was. *)
Lemma perform_throw_unchanged (c : call) (h : t) (e : Exn) :
  result (perform c) h = Throw e -> after (perform c) h = h.
Proof.
  unfold result, after.
  destruct c as [hours | hours | hours |]; cbn;
    unfold addDrivingTime, addOnDutyTime, takeBreak, resetForNewDay,
      bind, throw_if, get, lift;
    try (destruct (Qlt_bool hours 0); cbn; [reflexivity |]);
    try (destruct (validateHours _ _ _); cbn; [discriminate | reflexivity]);
    cbn; discriminate.
Qed.





End HoursOfServiceProperties.

(** ** EmergencyContact *)

Section EmergencyContactProperties.
Import EmergencyContact.

Lemma truthy_string_iff (s : string) : truthy_string s = true <-> s <> "".
Proof.
  unfold truthy_string. rewrite negb_true_iff. split.
  - intros H ->. discriminate.
  - intros H. destruct s; [contradiction | reflexivity].
Qed.

(** C5, as the code has it.  [isValid()] is true if and only if [name],
    [relationship] and [phone] are non-empty and [phone] is at least 10
    characters long (its length is compared, its digits are not
    counted). *)
Theorem isValid_iff_nonempty_and_length (this : t) :
  isValid this = true
  <-> name this <> "" /\ relationship this <> "" /\ phone this <> ""
      /\ 10 <= String.length (phone this).
Proof.
  unfold isValid. rewrite !andb_true_iff, !truthy_string_iff, Nat.leb_le. tauto.
Qed.

(** C5 as stated fails: a phone of ten letters has no digit, and the
    contact is valid. *)
Lemma isValid_not_by_digits :
  let contact := create {| data_name := "Ann"; data_relationship := "spouse";
                           data_phone := "abcdefghij"; data_id := None;
                           data_driverId := None |} in
  ~ (isValid contact = true
     <-> name contact <> "" /\ relationship contact <> "" /\ phone contact <> ""
         /\ 10 <= count_digits (phone contact)).
Proof.
  intros contact [Hdigits _].
  assert (Hvalid : isValid contact = true) by reflexivity.
  destruct (Hdigits Hvalid) as (_ & _ & _ & Hten).
  vm_compute in Hten. lia.
Qed.

End EmergencyContactProperties.

(** ** Endorsement *)

Section EndorsementProperties.
Import Endorsement.

Lemma includes_In (l : list string) (x : string) : includes l x = true <-> In x l.
Proof.
  unfold includes. rewrite existsb_exists. split.
  - intros (y & Hin & Heq). apply String.eqb_eq in Heq. subst. exact Hin.
  - intros Hin. exists x. split; [exact Hin | apply String.eqb_refl].
Qed.

Lemma validateType_accepts (ty : string) :
  In (toUpperCase ty) VALID_TYPES -> validateType ty = Normal tt.
Proof.
  intros Hin. unfold validateType. apply includes_In in Hin. rewrite Hin. reflexivity.
Qed.

Lemma validateType_rejects (ty : string) :
  ~ In (toUpperCase ty) VALID_TYPES ->
  validateType ty = Throw (InvalidEndorsementTypeError ty).
Proof.
  intros Hnin. unfold validateType.
  destruct (includes VALID_TYPES (toUpperCase ty)) eqn:E; [| reflexivity].
  apply includes_In in E. contradiction.
Qed.

(** C9, as the code has it.  [create] accepts a type exactly when its
    upper-case form is one of H, N, P, S, T, X, stores the upper-case form,
    and otherwise throws InvalidEndorsementTypeError.  [update] does the
    same with a type that is present and not the empty string (the stored
    type is replaced by the upper-case form, and a rejected update changes
    nothing); an update whose type is absent or empty is not checked and
    keeps the stored type. *)
Theorem endorsement_type_normalized_and_checked :
  (forall d : data,
      (In (toUpperCase (data_type d)) VALID_TYPES ->
       exists e, create d = Normal e /\ type e = toUpperCase (data_type d))
      /\ (~ In (toUpperCase (data_type d)) VALID_TYPES ->
          create d = Throw (InvalidEndorsementTypeError (data_type d))))
  /\ (forall (this : t) (ty : string) (expiry : option Date),
         ty <> "" ->
         let d := {| p_type := Some ty; p_expiryDate := expiry |} in
         (In (toUpperCase ty) VALID_TYPES ->
          result (update d) this = Normal tt
          /\ type (after (update d) this) = toUpperCase ty)
         /\ (~ In (toUpperCase ty) VALID_TYPES ->
             update d this = (Throw (InvalidEndorsementTypeError ty), this)))
  /\ (forall (this : t) (ty : option string) (expiry : option Date),
         ty = None \/ ty = Some "" ->
         let d := {| p_type := ty; p_expiryDate := expiry |} in
         result (update d) this = Normal tt /\ type (after (update d) this) = type this).
Proof.
  split; [| split].
  - intros d. unfold create, cbind. split.
    + intros Hin. rewrite (validateType_accepts _ Hin). eexists. split; reflexivity.
    + intros Hnin. rewrite (validateType_rejects _ Hnin). reflexivity.
  - intros this ty expiry Hne d. apply truthy_string_iff in Hne.
    unfold update, result, after, bind, lift. cbn. rewrite Hne. split.
    + intros Hin. rewrite (validateType_accepts _ Hin). cbn.
      destruct expiry; cbn; split; reflexivity.
    + intros Hnin. rewrite (validateType_rejects _ Hnin). reflexivity.
  - intros this ty expiry [-> | ->] d; unfold update, result, after, bind; cbn;
      destruct expiry; cbn; split; reflexivity.
Qed.

(** Type "h" is stored as "H" by [create] and by [update]; type "Z" is
    rejected by both. *)
Lemma endorsement_type_normalized_and_checked_witness :
  (exists e, create {| data_type := "h"; data_expiryDate := None; data_id := None;
                       data_driverId := None |} = Normal e /\ type e = "H")
  /\ create {| data_type := "Z"; data_expiryDate := None; data_id := None;
               data_driverId := None |} = Throw (InvalidEndorsementTypeError "Z")
  /\ type (after (update {| p_type := Some "h"; p_expiryDate := None |})
             (new "N" None None None)) = "H"
  /\ update {| p_type := Some "Z"; p_expiryDate := None |} (new "N" None None None)
     = (Throw (InvalidEndorsementTypeError "Z"), new "N" None None None)
  /\ type (after (update {| p_type := Some ""; p_expiryDate := None |})
             (new "N" None None None)) = "N".
Proof.
  destruct endorsement_type_normalized_and_checked as (Hcreate & Hupdate & Hskip).
  split; [| split; [| split; [| split]]].
  - apply (Hcreate {| data_type := "h"; data_expiryDate := None; data_id := None;
                      data_driverId := None |}).
    cbn. tauto.
  - apply (Hcreate {| data_type := "Z"; data_expiryDate := None; data_id := None;
                      data_driverId := None |}).
    cbn. intuition discriminate.
  - apply (Hupdate (new "N" None None None) "h" None); [discriminate |].
    cbn. tauto.
  - apply (Hupdate (new "N" None None None) "Z" None); [discriminate |].
    cbn. intuition discriminate.
  - apply (Hskip (new "N" None None None) (Some "") None). right. reflexivity.
Defined.

(** C9 as stated fails for [update]: the empty type is not one of the six
    in upper case, and the update is accepted. *)
Lemma update_accepts_empty_type :
  let this := new "N" None None None in
  let d := {| p_type := Some ""; p_expiryDate := None |} in
  ~ (result (update d) this = Normal tt <-> In (toUpperCase "") VALID_TYPES).
Proof.
  intros this d [Haccept _].
  assert (Hin : In (toUpperCase "") VALID_TYPES) by (apply Haccept; reflexivity).
  cbn in Hin. intuition discriminate.
Qed.

End EndorsementProperties.

(** ** Driver: credentials *)

Section CredentialProperties.
Import Driver.
Local Open Scope Z_scope.


End CredentialProperties.

(** The two credential examples of the specification: a license expiring
    in 10 days, and one expired a day ago, checked with a threshold of 30
    days. *)
Example checkCredentialStatus_expiring_in_10_days :
  let driver :=
    Driver.new Sample.now
      (Sample.with_licenseExpiry (Date_addDays Sample.now 10) Sample.data) in
  exists st,
    result (Driver.checkCredentialStatus Sample.now (Some 30%Z)) driver = Normal st
    /\ Driver.licenseExpired st = false /\ Driver.licenseExpiringSoon st = true.
Proof. eexists. split; [reflexivity |]. split; reflexivity. Qed.

Example checkCredentialStatus_expired_yesterday :
  let driver :=
    Driver.new Sample.now
      (Sample.with_licenseExpiry (Date_addDays Sample.now (-1)) Sample.data) in
  exists st,
    result (Driver.checkCredentialStatus Sample.now (Some 30%Z)) driver = Normal st
    /\ Driver.licenseExpired st = true /\ Driver.licenseExpiringSoon st = false.
Proof. eexists. split; [reflexivity |]. split; reflexivity. Qed.

(** ** Driver: date of birth *)

Section DateOfBirthProperties.
Import Driver.
Local Open Scope Z_scope.

(** The test of the validation passes exactly when the calendar year of
    birth lies 21 to 80 years before the current calendar year. *)
Lemma dob_out_of_range_false_iff (now dob : Date) :
  dob_out_of_range now dob = false
  <-> 21 <= getFullYear now - getFullYear dob <= 80.
Proof.
  unfold dob_out_of_range. rewrite orb_false_iff, !Z.ltb_ge. lia.
Qed.

Lemma validateDriverData_dob (now : Date) (d : partial) (dob : Date) :
  validateDriverData now d = Normal tt ->
  p_dob d = Some dob ->
  21 <= getFullYear now - getFullYear dob <= 80.
Proof.
  unfold validateDriverData, cbind. intros Hvalid Hdob.
  repeat match type of Hvalid with
  | match ?c with Normal _ => _ | Throw _ => _ end = _ =>
      lazymatch c with
      | reject_date (p_dob d) _ _ => fail
      | _ => destruct c; [| discriminate Hvalid]
      end
  end.
  rewrite Hdob in Hvalid. cbn in Hvalid.
  destruct (dob_out_of_range now dob) eqn:E; [discriminate Hvalid |].
  apply dob_out_of_range_false_iff, E.
Qed.

(** What creation and update accept: only birth years 21 to 80 years
    before the current year. *)
Lemma create_birth_year (now : Date) (d : data) (driver : t) :
  create now d = Normal driver ->
  21 <= getFullYear now - getFullYear (data_dob d) <= 80.
Proof.
  unfold create, cbind. intros Hcreate.
  destruct (validateDriverData now (partial_of_data (with_defaults d))) as [[]|] eqn:E;
    [| discriminate].
  eapply validateDriverData_dob; [exact E | reflexivity].
Qed.

Lemma update_birth_year (now : Date) (this : t) (d : partial) (dob : Date) :
  result (update now d) this = Normal tt ->
  p_dob d = Some dob ->
  21 <= getFullYear now - getFullYear dob <= 80.
Proof.
  unfold update, result, bind, get, lift. cbn. intros Hupdate Hdob.
  destruct (validateDriverData now (spread (to_partial this) d)) as [[]|] eqn:E;
    [| discriminate].
  eapply validateDriverData_dob; [exact E |]. cbn. rewrite Hdob. reflexivity.
Qed.

(** C4 against the code.  On 3 November 2026 a date of birth of
    31 December 2005 makes the driver 20 years old, and both creation and
    update accept it; a date of birth of 31 December 1945 makes the driver
    80 years old, and both reject it: only the calendar years are
    compared. *)
Theorem dob_check_compares_calendar_years :
  let young := Date_of_ymd 2005 12 31 in
  let old := Date_of_ymd 1945 12 31 in
  let rejected :=
    InvalidDriverDataError
      "Invalid date of birth (driver must be between 21 and 80 years old)" in
  (age_in_years Sample.now young = 20
   /\ is_normal (create Sample.now (Sample.with_dob young Sample.data)) = true
   /\ result (update Sample.now (Sample.patch_dob young)) Sample.driver = Normal tt
   /\ dob (after (update Sample.now (Sample.patch_dob young)) Sample.driver) = young)
  /\ (age_in_years Sample.now old = 80
      /\ create Sample.now (Sample.with_dob old Sample.data) = Throw rejected
      /\ result (update Sample.now (Sample.patch_dob old)) Sample.driver
         = Throw rejected).
Proof. vm_compute. repeat split. Qed.

End DateOfBirthProperties.

(** ** DriverService, over any repository *)

(** What the service does once a lookup has answered, for every
    implementation of the interface: [r] is the store before the call and
    [r'] the store as the lookup leaves it. *)
Section AnyRepository.
Import DriverService.
Context {R : Type} `{Repository.IDriverRepository R}.








End AnyRepository.

(** ** DriverService over the store *)

Section ServiceProperties.
Import DriverService.



Lemma update_stored (db : Database.t) (id : string) (driver old : Driver.t) :
  Driver.id driver = Some id ->
  Database.drivers db !! id = Some old ->
  Repository.update driver db
  = (Normal driver,
     {| Database.drivers := <[id := driver]> (Database.drivers db);
        Database.generated := Database.generated db |}).
Proof.
  intros Hid Hstored. cbn. unfold Database.update. rewrite Hid, Hstored. reflexivity.
Qed.








(** The entity's own methods have no guard: on any driver, [assignLoad]
    then [completeLoad] ends in status [available] without a load. *)
Lemma Driver_assignLoad_completeLoad (driver : Driver.t) (now now' : Date)
    (loadId : string) :
  let driver' :=
    after (Driver.completeLoad now') (after (Driver.assignLoad now loadId) driver) in
  Driver.status driver' = AVAILABLE /\ Driver.loadId driver' = None.
Proof. split; reflexivity. Qed.

End ServiceProperties.

(** * Further properties of the domain layer *)

(** ** HoursOfService: what a counter accepts *)

Section HoursOfServiceMore.
Import HoursOfService HoursOfServiceHistory.
Local Open Scope Q_scope.








(** The query helpers agree: the maximum is reached exactly when no hours
    remain, for driving and for duty, and the remaining hours are never
    negative. *)
Theorem reached_max_iff_nothing_remains (this : t) :
  (hasReachedMaxDrivingHours this = true <-> getRemainingDrivingHours this == 0)
  /\ (hasReachedMaxDutyHours this = true <-> getRemainingDutyHours this == 0)
  /\ 0 <= getRemainingDrivingHours this
  /\ 0 <= getRemainingDutyHours this.
Proof.
  unfold hasReachedMaxDrivingHours, hasReachedMaxDutyHours, getRemainingDrivingHours,
    getRemainingDutyHours, MAX_DRIVING_HOURS_PER_DAY, MAX_DUTY_HOURS_PER_DAY.
  rewrite !Qle_bool_iff.
  destruct (Q.max_spec 0 (11 - drivingHoursToday this)) as [[Hlt1 Hm1] | [Hle1 Hm1]];
    destruct (Q.max_spec 0 (14 - dutyHoursToday this)) as [[Hlt2 Hm2] | [Hle2 Hm2]];
    rewrite Hm1, Hm2; repeat split; intros; lra.
Qed.





End HoursOfServiceMore.

(** ** Regular expressions: the matcher and the two patterns *)

Section RegexProperties.

Lemma matches_Cat_inv (r1 r2 : regex) (s : string) :
  matches (Cat r1 r2) s <-> exists s1 s2, s = s1 ++ s2 /\ matches r1 s1 /\ matches r2 s2.
Proof.
  split.
  - intros H. inversion H; subst. eauto.
  - intros (s1 & s2 & -> & H1 & H2). constructor; assumption.
Qed.

Lemma matches_Alt_inv (r1 r2 : regex) (s : string) :
  matches (Alt r1 r2) s <-> matches r1 s \/ matches r2 s.
Proof.
  split.
  - intros H. inversion H; subst; tauto.
  - intros [H | H]; [apply matches_Alt_l | apply matches_Alt_r]; exact H.
Qed.

Lemma matches_Class_inv (p : ascii -> bool) (s : string) :
  matches (Class p) s <-> exists c, s = String c "" /\ p c = true.
Proof.
  split.
  - intros H. inversion H; subst. eauto.
  - intros (c & -> & H). constructor. exact H.
Qed.

Lemma matches_Eps_inv (s : string) : matches Eps s <-> s = "".
Proof. split; [intros H; inversion H; reflexivity | intros ->; constructor]. Qed.

Lemma matches_Void_inv (s : string) : ~ matches Void s.
Proof. intros H. inversion H. Qed.

Lemma append_nil_l (s : string) : "" ++ s = s.
Proof. reflexivity. Qed.

Lemma append_cons (c : ascii) (s1 s2 : string) : String c s1 ++ s2 = String c (s1 ++ s2).
Proof. reflexivity. Qed.

Lemma append_nil_inv (s1 s2 : string) : s1 ++ s2 = "" -> s1 = "" /\ s2 = "".
Proof. destruct s1; [rewrite append_nil_l; tauto | rewrite append_cons; discriminate]. Qed.

Lemma nullable_matches (r : regex) : nullable r = true <-> matches r "".
Proof.
  induction r as [| | p | r1 IH1 r2 IH2 | r1 IH1 r2 IH2 | r IH]; cbn.
  - split; [discriminate | intros H; destruct (matches_Void_inv _ H)].
  - rewrite matches_Eps_inv. tauto.
  - rewrite matches_Class_inv. split; [discriminate | intros (c & H & _); discriminate].
  - rewrite andb_true_iff, IH1, IH2, matches_Cat_inv. split.
    + intros [H1 H2]. exists "", "". tauto.
    + intros (s1 & s2 & Heq & H1 & H2). symmetry in Heq.
      apply append_nil_inv in Heq as [-> ->]. tauto.
  - rewrite orb_true_iff, IH1, IH2, matches_Alt_inv. tauto.
  - split; [constructor | reflexivity].
Qed.

Lemma matches_Star_cons_inv (r : regex) (c : ascii) (s : string) :
  matches (Star r) (String c s) ->
  exists s1 s2, s = s1 ++ s2 /\ matches r (String c s1) /\ matches (Star r) s2.
Proof.
  intros H. remember (Star r) as r' eqn:Er. remember (String c s) as w eqn:Ew.
  revert s Ew. induction H as [| | | | | | r0 s1 s2 H1 _ H2 IH2]; intros t Et;
    try discriminate.
  injection Er as ->. destruct s1 as [| c1 s1].
  - rewrite append_nil_l in Et. apply IH2; [reflexivity | exact Et].
  - rewrite append_cons in Et. injection Et as -> <-. exists s1, s2.
    repeat split; assumption.
Qed.

Lemma matches_Cat_cons (r1 r2 : regex) (c : ascii) (s : string) :
  matches (Cat r1 r2) (String c s)
  <-> (exists s1 s2, s = s1 ++ s2 /\ matches r1 (String c s1) /\ matches r2 s2)
      \/ (matches r1 "" /\ matches r2 (String c s)).
Proof.
  rewrite matches_Cat_inv. split.
  - intros (s1 & s2 & Heq & H1 & H2). destruct s1 as [| c1 s1].
    + rewrite append_nil_l in Heq. right. subst s2. tauto.
    + rewrite append_cons in Heq. injection Heq as -> ->. left. eauto.
  - intros [(s1 & s2 & -> & H1 & H2) | [H1 H2]].
    + exists (String c s1), s2. tauto.
    + exists "", (String c s). tauto.
Qed.

Lemma deriv_matches (r : regex) (c : ascii) (s : string) :
  matches (deriv c r) s <-> matches r (String c s).
Proof.
  revert s. induction r as [| | p | r1 IH1 r2 IH2 | r1 IH1 r2 IH2 | r IH]; intros s; cbn.
  - split; intros H; destruct (matches_Void_inv _ H).
  - rewrite matches_Eps_inv. split; [intros H; destruct (matches_Void_inv _ H) | discriminate].
  - rewrite matches_Class_inv. destruct (p c) eqn:E.
    + rewrite matches_Eps_inv. split.
      * intros ->. eauto.
      * intros (c' & Heq & _). injection Heq as _ ->. reflexivity.
    + split; [intros H; destruct (matches_Void_inv _ H) |].
      intros (c' & Heq & Hp). injection Heq as <- _. congruence.
  - assert (Hcat : matches (Cat (deriv c r1) r2) s
                   <-> exists s1 s2, s = s1 ++ s2 /\ matches r1 (String c s1)
                                     /\ matches r2 s2).
    { rewrite matches_Cat_inv. split; intros (s1 & s2 & Heq & H1 & H2); exists s1, s2;
        (split; [exact Heq |]); (split; [apply IH1, H1 | exact H2]). }
    rewrite matches_Cat_cons. destruct (nullable r1) eqn:N.
    + rewrite matches_Alt_inv, Hcat, IH2. split; [| tauto].
      intros [H | H]; [tauto |]. right. split; [apply nullable_matches, N | exact H].
    + rewrite Hcat. split; [tauto |]. intros [H | [H _]]; [exact H |].
      apply nullable_matches in H. congruence.
  - rewrite !matches_Alt_inv, IH1, IH2. tauto.
  - rewrite matches_Cat_inv. split.
    + intros (s1 & s2 & -> & H1 & H2).
      apply (matches_Star_cons r (String c s1) s2); [apply IH, H1 | exact H2].
    + intros H. apply matches_Star_cons_inv in H as (s1 & s2 & -> & H1 & H2).
      exists s1, s2. split; [reflexivity |]. split; [apply IH, H1 | exact H2].
Qed.

Lemma regex_test_matches (r : regex) (s : string) :
  regex_test r s = true <-> matches r s.
Proof.
  revert r. induction s as [| c s IH]; intros r; cbn.
  - apply nullable_matches.
  - rewrite IH. apply deriv_matches.
Qed.

Lemma all_chars_app (p : ascii -> bool) (s1 s2 : string) :
  all_chars p (s1 ++ s2) = all_chars p s1 && all_chars p s2.
Proof.
  induction s1 as [| c s1 IH]; [reflexivity |].
  rewrite append_cons. cbn. rewrite IH. apply andb_assoc.
Qed.

Lemma length_app_string (s1 s2 : string) :
  String.length (s1 ++ s2) = String.length s1 + String.length s2.
Proof.
  induction s1 as [| c s1 IH]; [reflexivity |].
  rewrite append_cons. cbn. rewrite IH. reflexivity.
Qed.

Lemma matches_Star_Class (p : ascii -> bool) (s : string) :
  matches (Star (Class p)) s <-> all_chars p s = true.
Proof.
  split.
  - intros H. remember (Star (Class p)) as r eqn:Er.
    induction H as [| | | | | | r0 s1 s2 H1 _ H2 IH2]; try discriminate;
      [reflexivity |].
    injection Er as ->. apply matches_Class_inv in H1 as (c & -> & Hc).
    rewrite all_chars_app. cbn. rewrite Hc. apply IH2. reflexivity.
  - induction s as [| c s IH]; cbn; [constructor |].
    rewrite andb_true_iff. intros [Hc Hs].
    apply (matches_Star_cons (Class p) (String c "") s);
      [constructor; exact Hc | apply IH, Hs].
Qed.

Lemma matches_Plus_Class (p : ascii -> bool) (s : string) :
  matches (Plus (Class p)) s <-> s <> "" /\ all_chars p s = true.
Proof.
  unfold Plus. rewrite matches_Cat_inv. split.
  - intros (s1 & s2 & -> & H1 & H2). apply matches_Class_inv in H1 as (c & -> & Hc).
    apply matches_Star_Class in H2. rewrite all_chars_app, H2. cbn. rewrite Hc.
    split; [rewrite append_cons; discriminate | reflexivity].
  - intros [Hne Hall]. destruct s as [| c s]; [contradiction |].
    cbn in Hall. apply andb_true_iff in Hall as [Hc Hs].
    exists (String c ""), s. split; [reflexivity |].
    split; [constructor; exact Hc | apply matches_Star_Class, Hs].
Qed.

Lemma matches_Times_Class (p : ascii -> bool) (n : nat) (s : string) :
  matches (Times n (Class p)) s <-> String.length s = n /\ all_chars p s = true.
Proof.
  revert s. induction n as [| n IH]; intros s; cbn.
  - rewrite matches_Eps_inv. split.
    + intros ->. split; reflexivity.
    + intros [Hlen _]. destruct s; [reflexivity | discriminate].
  - rewrite matches_Cat_inv. split.
    + intros (s1 & s2 & -> & H1 & H2). apply matches_Class_inv in H1 as (c & -> & Hc).
      apply IH in H2 as [Hlen Hall].
      rewrite all_chars_app, length_app_string, Hall, Hlen. cbn. rewrite Hc.
      split; reflexivity.
    + intros [Hlen Hall]. destruct s as [| c s]; [discriminate |].
      cbn in Hlen, Hall. apply andb_true_iff in Hall as [Hc Hs].
      exists (String c ""), s. split; [reflexivity |].
      split; [constructor; exact Hc | apply IH; split; [lia | exact Hs]].
Qed.

Lemma matches_UpTo_Class (p : ascii -> bool) (n : nat) (s : string) :
  matches (UpTo n (Class p)) s <-> String.length s <= n /\ all_chars p s = true.
Proof.
  revert s. induction n as [| n IH]; intros s; cbn.
  - rewrite matches_Eps_inv. split.
    + intros ->. split; [cbn; lia | reflexivity].
    + intros [Hlen _]. destruct s; [reflexivity | cbn in Hlen; lia].
  - rewrite matches_Alt_inv, matches_Eps_inv, matches_Cat_inv. split.
    + intros [-> | (s1 & s2 & -> & H1 & H2)]; [split; [cbn; lia | reflexivity] |].
      apply matches_Class_inv in H1 as (c & -> & Hc).
      apply IH in H2 as [Hlen Hall].
      rewrite all_chars_app, length_app_string, Hall. cbn. rewrite Hc.
      split; [lia | reflexivity].
    + intros [Hlen Hall]. destruct s as [| c s]; [left; reflexivity | right].
      cbn in Hlen, Hall. apply andb_true_iff in Hall as [Hc Hs].
      exists (String c ""), s. split; [reflexivity |].
      split; [constructor; exact Hc | apply IH; split; [lia | exact Hs]].
Qed.

(** A string cut after its first [n] characters. *)
Lemma string_cut (n : nat) (t : string) :
  n <= String.length t ->
  exists t1 t2, t = t1 ++ t2 /\ String.length t1 = n.
Proof.
  revert t. induction n as [| n IHn]; intros t Hn.
  - exists "", t. split; reflexivity.
  - destruct t as [| c t]; cbn in Hn; [lia |].
    destruct (IHn t ltac:(lia)) as (t1 & t2 & -> & Hl).
    exists (String c t1), t2. split; [reflexivity | cbn; lia].
Qed.

Lemma phoneRegex_digits (s : string) :
  regex_test Driver.phoneRegex s = true
  <-> all_chars is_digit s = true /\ 10 <= String.length s <= 15.
Proof.
  rewrite regex_test_matches. unfold Driver.phoneRegex. rewrite matches_Cat_inv. split.
  - intros (s1 & s2 & -> & H1 & H2).
    apply matches_Times_Class in H1 as [Hlen1 Hall1].
    apply matches_UpTo_Class in H2 as [Hlen2 Hall2].
    rewrite all_chars_app, Hall1, Hall2, length_app_string. split; [reflexivity | lia].
  - intros [Hall [Hmin Hmax]].
    destruct (string_cut 10 s Hmin) as (s1 & s2 & -> & Hl1).
    rewrite length_app_string in Hmax.
    rewrite all_chars_app in Hall. apply andb_true_iff in Hall as [Hall1 Hall2].
    exists s1, s2. split; [reflexivity |]. split.
    + apply matches_Times_Class. split; assumption.
    + apply matches_UpTo_Class. split; [lia | assumption].
Qed.

Lemma strip_non_digits_spec (s : string) :
  all_chars is_digit (strip_non_digits s) = true
  /\ String.length (strip_non_digits s) = count_digits s.
Proof.
  induction s as [| c s [IHall IHlen]]; cbn; [split; reflexivity |].
  destruct (is_digit c) eqn:E; cbn; rewrite ?E, ?IHall, ?IHlen; split; reflexivity.
Qed.

(** The phone test of the validation: between 10 and 15 digits, whatever
    else the string holds. *)
Lemma phone_test_iff (s : string) :
  regex_test Driver.phoneRegex (strip_non_digits s) = true
  <-> 10 <= count_digits s <= 15.
Proof.
  rewrite phoneRegex_digits. destruct (strip_non_digits_spec s) as [Hall Hlen].
  rewrite Hall, Hlen. tauto.
Qed.

(** The email test of the validation: a local part, an at sign, and a
    domain with a dot inside it, each of the three pieces non-empty and free
    of white space and at signs. *)
Lemma email_test_iff (s : string) :
  regex_test Driver.emailRegex s = true <-> email_shaped s.
Proof.
  unfold email_shaped. rewrite regex_test_matches. unfold Driver.emailRegex.
  change (fun c : ascii => negb (is_space c || Ascii.eqb c "@")) with plain_char.
  rewrite matches_Cat_inv. split.
  - intros (name & rest & -> & Hname & Hrest).
    apply matches_Plus_Class in Hname as [Hn Hna].
    apply matches_Cat_inv in Hrest as (at_ & rest' & -> & Hat & Hrest').
    apply matches_Class_inv in Hat as (c & -> & Hc). apply Ascii.eqb_eq in Hc. subst c.
    apply matches_Cat_inv in Hrest' as (domain & rest'' & -> & Hdomain & Hrest'').
    apply matches_Plus_Class in Hdomain as [Hd Hda].
    apply matches_Cat_inv in Hrest'' as (dot & suffix & -> & Hdot & Hsuffix).
    apply matches_Class_inv in Hdot as (c & -> & Hc). apply Ascii.eqb_eq in Hc. subst c.
    apply matches_Plus_Class in Hsuffix as [Hs Hsa].
    exists name, domain, suffix. repeat split; assumption.
  - intros (name & domain & suffix & -> & Hn & Hd & Hs & Hna & Hda & Hsa).
    exists name, ("@" ++ domain ++ "." ++ suffix). split; [reflexivity |].
    split; [apply matches_Plus_Class; tauto |].
    apply matches_Cat_inv. exists "@", (domain ++ "." ++ suffix). split; [reflexivity |].
    split; [constructor; reflexivity |].
    apply matches_Cat_inv. exists domain, ("." ++ suffix). split; [reflexivity |].
    split; [apply matches_Plus_Class; tauto |].
    apply matches_Cat_inv. exists ".", suffix. split; [reflexivity |].
    split; [constructor; reflexivity | apply matches_Plus_Class; tauto].
Qed.

End RegexProperties.

(** ** Driver: what validation accepts *)

Section DriverValidation.
Import Driver.

Lemma cbind_unit (c : completion unit) (k : unit -> completion unit) :
  cbind c k = Normal tt <-> c = Normal tt /\ k tt = Normal tt.
Proof.
  unfold cbind. destruct c as [[] | e]; [tauto |].
  split; [discriminate | intros [H _]; discriminate].
Qed.

Lemma reject_string_iff (o : option string) (bad : string -> bool) (e : string -> Exn) :
  reject_string o bad e = Normal tt
  <-> forall s, o = Some s -> s <> "" -> bad s = false.
Proof.
  unfold reject_string. destruct o as [s |].
  - destruct (truthy_string s) eqn:T; cbn.
    + apply truthy_string_iff in T. destruct (bad s) eqn:B; cbn; split.
      * discriminate.
      * intros H. specialize (H s eq_refl T). congruence.
      * intros _ s' Heq _. injection Heq as <-. exact B.
      * reflexivity.
    + split; [| reflexivity]. intros _ s' Heq Hne. injection Heq as <-.
      apply truthy_string_iff in Hne. congruence.
  - split; [intros _ s H; discriminate H | reflexivity].
Qed.

Lemma reject_date_iff (d : Date) (bad : Date -> bool) (e : Exn) :
  reject_date (Some d) bad e = Normal tt <-> bad d = false.
Proof.
  unfold reject_date. destruct (bad d); split; try discriminate; reflexivity.
Qed.

Lemma check_required_iff (fields : list (string * bool)) :
  check_required fields = Normal tt <-> Forall (fun field => snd field = true) fields.
Proof.
  induction fields as [| [name truthy] fields IH]; cbn.
  - split; [constructor | reflexivity].
  - destruct truthy; cbn.
    + rewrite IH. split; [constructor; [reflexivity | assumption] |].
      intros H. apply Forall_inv_tail in H. exact H.
    + split; [discriminate |]. intros H. apply Forall_inv in H. discriminate.
Qed.

Lemma count_digits_nonempty (s : string) : 10 <= count_digits s -> s <> "".
Proof. intros H ->. cbn in H. lia. Qed.

Lemma email_shaped_nonempty (s : string) : email_shaped s -> s <> "".
Proof.
  intros (name & domain & suffix & -> & Hn & _) Hempty.
  destruct name; [contradiction | discriminate].
Qed.

Lemma includes_nonempty (l : list string) (s : string) :
  Forall (fun v => v <> "") l -> In s l -> s <> "".
Proof. intros Hall Hin. rewrite List.Forall_forall in Hall. apply Hall, Hin. Qed.

(** The validation accepts the properties of a driver exactly when the
    driver is valid at [now]. *)
Lemma validateDriverData_valid_at (now : Date) (driver : t) :
  validateDriverData now (to_partial driver) = Normal tt <-> valid_at now driver.
Proof.
  unfold validateDriverData, valid_at.
  rewrite !cbind_unit, check_required_iff, !reject_string_iff.
  cbn [to_partial p_email p_phonePrimary p_phoneSecondary p_dob p_licenseExpiry
       p_medCertExpiry p_driverType p_employmentStatus].
  rewrite !reject_date_iff, dob_out_of_range_false_iff, !Z.ltb_ge.
  unfold requiredFields. cbn [to_partial p_firstName p_lastName p_dob p_phonePrimary
    p_email p_licenseNumber p_licenseState p_licenseClass p_licenseExpiry
    p_medCertExpiry p_hireDate p_driverType truthy_ostring present].
  rewrite !Forall_cons, Forall_nil. cbn [snd]. rewrite !truthy_string_iff.
  split.
  - intros ((Hfn & Hln & _ & Hpp & Hem & Hnum & Hst & Hcl & _ & _ & _ & Hdt & _)
            & Hemail & Hphone & Hphone2 & Hdob & Hlic & Hmed & Htype & Hstatus).
    repeat split; try assumption; try lia.
    + apply email_test_iff. specialize (Hemail _ eq_refl Hem).
      apply negb_false_iff in Hemail. exact Hemail.
    + specialize (Hphone _ eq_refl Hpp). apply negb_false_iff, phone_test_iff in Hphone.
      lia.
    + specialize (Hphone _ eq_refl Hpp). apply negb_false_iff, phone_test_iff in Hphone.
      lia.
    + specialize (Hphone2 _ H H0). apply negb_false_iff, phone_test_iff in Hphone2. lia.
    + specialize (Hphone2 _ H H0). apply negb_false_iff, phone_test_iff in Hphone2. lia.
    + specialize (Htype _ eq_refl Hdt). apply negb_false_iff, includes_In in Htype.
      exact Htype.
    + intros Hne. specialize (Hstatus _ eq_refl Hne).
      apply negb_false_iff, includes_In in Hstatus. exact Hstatus.
  - intros (Hfn & Hln & Hnum & Hst & Hcl & Hemail & Hphone & Hphone2 & Hdob & Hlic
            & Hmed & Htype & Hstatus).
    assert (Hdt : driverType driver <> "").
    { eapply includes_nonempty; [| exact Htype].
      repeat constructor; discriminate. }
    repeat split; try assumption; try lia; try reflexivity.
    + apply (count_digits_nonempty _ (proj1 Hphone)).
    + apply email_shaped_nonempty, Hemail.
    + intros s [= <-] _. apply negb_false_iff, email_test_iff, Hemail.
    + intros s [= <-] _. apply negb_false_iff, phone_test_iff, Hphone.
    + intros s Hs Hne. apply negb_false_iff, phone_test_iff, (Hphone2 s Hs Hne).
    + intros s [= <-] _. apply negb_false_iff, includes_In, Htype.
    + intros s [= <-] Hne. apply negb_false_iff, includes_In, Hstatus, Hne.
Qed.

End DriverValidation.

Section DriverLifecycle.
Import Driver.
Local Open Scope Z_scope.

Lemma override_Some_default {A} (x : A) (o : option A) :
  override (Some x) o = Some (default x o).
Proof. destruct o; reflexivity. Qed.

(** The merged object an update validates holds the properties the driver
    has once the update is assigned. *)
Lemma validateDriverData_merged (now : Date) (this : t) (d : partial) :
  validateDriverData now (spread (to_partial this) d)
  = validateDriverData now (to_partial (after (assign d) this)).
Proof.
  unfold validateDriverData, requiredFields, after. cbn.
  rewrite !override_Some_default. reflexivity.
Qed.

Lemma create_run (now : Date) (d : data) (driver : t) :
  create now d = Normal driver
  <-> driver = new now (with_defaults d) /\ valid_at now driver.
Proof.
  unfold create.
  change (validateDriverData now (partial_of_data (with_defaults d)))
    with (validateDriverData now (to_partial (new now (with_defaults d)))).
  unfold cbind.
  destruct (validateDriverData now (to_partial (new now (with_defaults d))))
    as [[] | e] eqn:V.
  - apply validateDriverData_valid_at in V. split.
    + intros [= <-]. tauto.
    + intros [-> _]. reflexivity.
  - split; [discriminate |]. intros [-> Hvalid].
    apply validateDriverData_valid_at in Hvalid. congruence.
Qed.

Lemma update_eq (now : Date) (this : t) (d : partial) :
  update now d this
  = match validateDriverData now (to_partial (after (assign d) this)) with
    | Normal _ => (Normal tt, after (set_updatedAt now) (after (assign d) this))
    | Throw e => (Throw e, this)
    end.
Proof.
  rewrite <- validateDriverData_merged. unfold update, bind, get, lift.
  destruct (validateDriverData now (spread (to_partial this) d)) as [[] | e];
    reflexivity.
Qed.

Lemma update_run (now : Date) (this : t) (d : partial) :
  (result (update now d) this = Normal tt <-> valid_at now (after (assign d) this))
  /\ (result (update now d) this = Normal tt ->
      after (update now d) this = after (set_updatedAt now) (after (assign d) this))
  /\ (result (update now d) this <> Normal tt -> after (update now d) this = this).
Proof.
  assert (Hresult : result (update now d) this = fst (update now d this)) by reflexivity.
  assert (Hafter : after (update now d) this = snd (update now d this)) by reflexivity.
  rewrite Hresult, Hafter, update_eq, <- validateDriverData_valid_at.
  destruct (validateDriverData now (to_partial (after (assign d) this))) as [[] | e];
    cbn [fst snd]; repeat split; try tauto; try discriminate; try reflexivity.
Qed.

End DriverLifecycle.

Section DriverEntries.
Import Driver.
Local Open Scope Z_scope.





(** A driver whose license or medical certificate has expired cannot be
    updated, whatever the update is, unless the update brings a new expiry
    date for it: the call throws and changes nothing. *)
Theorem update_blocked_by_expired_credential (now : Date) (this : t) (d : partial) :
  (licenseExpiry this < now /\ p_licenseExpiry d = None)
  \/ (medCertExpiry this < now /\ p_medCertExpiry d = None) ->
  result (update now d) this <> Normal tt /\ after (update now d) this = this.
Proof.
  intros Hexpired. destruct (update_run now this d) as (Hiff & _ & Hfail).
  assert (Hrejected : result (update now d) this <> Normal tt).
  { intros Hresult. apply Hiff in Hresult.
    destruct Hresult as (_ & _ & _ & _ & _ & _ & _ & _ & _ & Hlicense & Hmed & _).
    cbn in Hlicense, Hmed.
    destruct Hexpired as [[Hlt Hnone] | [Hlt Hnone]]; rewrite Hnone in *;
      cbn in Hlicense, Hmed; lia. }
  split; [exact Hrejected | apply Hfail, Hrejected].
Qed.

(** In 2028 the license of the sample driver has expired: an update that
    only repeats the date of birth is refused. *)
Lemma update_blocked_by_expired_credential_witness :
  let later := Date_of_ymd 2028 1 1 in
  let same := Sample.patch_dob (dob Sample.driver) in
  result (update later same) Sample.driver <> Normal tt
  /\ after (update later same) Sample.driver = Sample.driver.
Proof.
  intros later same.
  apply (update_blocked_by_expired_credential later Sample.driver same).
  left. split; [vm_compute; reflexivity | reflexivity].
Defined.

End DriverEntries.

(** ** Driver: termination, collections, address *)

Section DriverMutators.
Import Driver.

(** [terminate(notes)] never fails; it sets the employment status to
    [terminated] and the status to [off-duty].  A non-empty note is appended
    as "Termination: note", after the notes the driver had and a blank line
    when it had some; without a note the notes stay as they were. *)
Theorem terminate_appends_note (now : Date) (text : option string) (this : t) :
  let driver := after (terminate now text) this in
  result (terminate now text) this = Normal tt
  /\ employmentStatus driver = EmploymentStatus.TERMINATED
  /\ status driver = OFF_DUTY
  /\ updatedAt driver = now
  /\ (truthy_ostring text = false -> notes driver = notes this)
  /\ (forall note, text = Some note -> note <> "" ->
      (forall old, notes this = Some old -> old <> "" ->
         notes driver = Some (old ++ newline ++ newline ++ "Termination: " ++ note))
      /\ (truthy_ostring (notes this) = false ->
          notes driver = Some ("Termination: " ++ note))).
Proof.
  unfold terminate, append_note, result, after, bind, get. cbn.
  assert (Hfalsy : forall s, truthy_string s = false -> s <> "" -> False).
  { intros s Hs Hne. apply truthy_string_iff in Hne. congruence. }
  destruct text as [note |]; cbn; [destruct (truthy_string note) eqn:T; cbn |];
    [destruct (notes this) as [old |] eqn:N; cbn;
       [destruct (truthy_string old) eqn:O; cbn |] | |];
    repeat split; try discriminate; intros;
    repeat match goal with
           | H : Some _ = Some _ |- _ => injection H as <-
           end;
    try reflexivity; try discriminate; exfalso; eauto.
Qed.

Lemma terminate_appends_note_witness :
  let once := after (terminate Sample.now (Some "policy violation")) Sample.driver in
  let twice := after (terminate Sample.now (Some "final")) once in
  notes once = Some "Termination: policy violation"
  /\ notes twice
     = Some ("Termination: policy violation" ++ newline ++ newline
             ++ "Termination: final").
Proof.
  intros once twice.
  destruct (terminate_appends_note Sample.now (Some "policy violation") Sample.driver)
    as (_ & _ & _ & _ & _ & Hnote).
  destruct (terminate_appends_note Sample.now (Some "final") once)
    as (_ & _ & _ & _ & _ & Hnote').
  split.
  - apply (Hnote "policy violation"); [reflexivity | discriminate | reflexivity].
  - apply (Hnote' "final"); [reflexivity | discriminate | |].
    + apply (Hnote "policy violation"); [reflexivity | discriminate | reflexivity].
    + discriminate.
Defined.

Lemma filter_length_lt {A} (f : A -> bool) (l : list A) :
  Nat.ltb (List.length (List.filter f l)) (List.length l) = true
  <-> exists x, In x l /\ f x = false.
Proof.
  rewrite Nat.ltb_lt. induction l as [| a l IH]; cbn.
  - split; [lia | intros (x & [] & _)].
  - pose proof (List.filter_length_le f l) as Hle. destruct (f a) eqn:E; cbn.
    + rewrite <- Nat.succ_lt_mono, IH. split.
      * intros (x & Hin & Hx). eauto.
      * intros (x & [-> | Hin] & Hx); [congruence | eauto].
    + split; [intros _; exists a; auto | intros _; lia].
Qed.

Lemma filter_keeps_all {A} (f : A -> bool) (l : list A) :
  (forall x, In x l -> f x = true) -> List.filter f l = l.
Proof.
  induction l as [| a l IH]; cbn; intros Hall; [reflexivity |].
  rewrite (Hall a (or_introl eq_refl)), IH; [reflexivity |].
  intros x Hin. apply Hall. right. exact Hin.
Qed.

Lemma id_differs_Z (own : option Z) (id : Z) :
  id_differs Z.eqb own id = true <-> own <> Some id.
Proof.
  destruct own as [i |]; cbn; [| split; [discriminate | reflexivity]].
  rewrite negb_true_iff, Z.eqb_neq. split; congruence.
Qed.

Lemma id_differs_string (own : option string) (id : string) :
  id_differs String.eqb own id = true <-> own <> Some id.
Proof.
  destruct own as [i |]; cbn; [| split; [discriminate | reflexivity]].
  rewrite negb_true_iff, String.eqb_neq. split; congruence.
Qed.

(** [removeEmergencyContact(contactId)] keeps exactly the contacts with
    another id.  It returns true and stamps [updatedAt] when some contact
    had the id; otherwise it returns false and the driver is as it was. *)
Theorem removeEmergencyContact_spec (now : Date) (contactId : Z) (this : t) :
  let driver := after (removeEmergencyContact now contactId) this in
  let had := exists contact, In contact (emergencyContacts this)
                             /\ EmergencyContact.id contact = Some contactId in
  (forall contact,
      In contact (emergencyContacts driver)
      <-> In contact (emergencyContacts this)
          /\ EmergencyContact.id contact <> Some contactId)
  /\ (had -> result (removeEmergencyContact now contactId) this = Normal true
             /\ updatedAt driver = now)
  /\ (~ had -> removeEmergencyContact now contactId this = (Normal false, this)).
Proof.
  intros driver had. subst driver.
  set (keep := fun x : EmergencyContact.t => id_differs Z.eqb (EmergencyContact.id x) contactId).
  set (kept := List.filter keep (emergencyContacts this)).
  set (wasRemoved := Nat.ltb (List.length kept) (List.length (emergencyContacts this))).
  assert (Hrun : removeEmergencyContact now contactId this
                 = (Normal wasRemoved,
                    if wasRemoved
                    then after (set_updatedAt now) (after (set_emergencyContacts kept) this)
                    else after (set_emergencyContacts kept) this)).
  { unfold removeEmergencyContact, bind, get, ret. cbn [fst snd].
    fold keep. fold kept. fold wasRemoved.
    cbn [set_emergencyContacts]. destruct wasRemoved; reflexivity. }
  assert (Hhad : had <-> wasRemoved = true).
  { unfold wasRemoved, kept. rewrite filter_length_lt. unfold had, keep.
    split; intros (x & Hin & Hx); exists x; (split; [exact Hin |]).
    - apply not_true_iff_false. rewrite id_differs_Z. intros Hne. apply Hne, Hx.
    - apply not_true_iff_false in Hx. rewrite id_differs_Z in Hx.
      destruct (EmergencyContact.id x) as [i |]; [| exfalso; apply Hx; discriminate].
      destruct (decide (i = contactId)); [congruence |]. exfalso. apply Hx. congruence. }
  unfold result, after. rewrite Hrun. cbn [fst snd].
  split; [| split].
  - intros x. transitivity (In x kept).
    + destruct wasRemoved; reflexivity.
    + unfold kept. rewrite List.filter_In. unfold keep. rewrite id_differs_Z. reflexivity.
  - intros Hyes. apply Hhad in Hyes. rewrite Hyes. split; reflexivity.
  - intros Hno. destruct wasRemoved eqn:W; [exfalso; apply Hno, Hhad; reflexivity |].
    f_equal. unfold after. cbn [set_emergencyContacts snd].
    replace kept with (emergencyContacts this); [destruct this; reflexivity |].
    symmetry. apply filter_keeps_all. intros x Hin.
    destruct (keep x) eqn:K; [reflexivity |]. exfalso.
    assert (Hlt : wasRemoved = true)
      by (unfold wasRemoved, kept; apply filter_length_lt; eauto).
    congruence.
Qed.

Lemma removeEmergencyContact_spec_witness :
  let ann := EmergencyContact.new "Ann" "spouse" "5551234567" (Some 3%Z) None in
  let driver := after (addEmergencyContact Sample.now ann) Sample.driver in
  result (removeEmergencyContact Sample.now 3) driver = Normal true
  /\ removeEmergencyContact Sample.now 4 driver = (Normal false, driver).
Proof.
  intros ann driver.
  destruct (removeEmergencyContact_spec Sample.now 3 driver) as (_ & Hyes & _).
  destruct (removeEmergencyContact_spec Sample.now 4 driver) as (_ & _ & Hno).
  split.
  - apply Hyes. exists ann. split; [left; reflexivity | reflexivity].
  - apply Hno. intros (contact & [<- | []] & Hid). discriminate.
Defined.

(** [removeDocument(documentId)] keeps exactly the documents with another
    id.  It returns true and stamps [updatedAt] when some document had the
    id; otherwise it returns false and the driver is as it was. *)
Theorem removeDocument_spec (now : Date) (documentId : string) (this : t) :
  let driver := after (removeDocument now documentId) this in
  let had := exists document, In document (documents this)
                              /\ Document.id document = Some documentId in
  (forall document,
      In document (documents driver)
      <-> In document (documents this) /\ Document.id document <> Some documentId)
  /\ (had -> result (removeDocument now documentId) this = Normal true
             /\ updatedAt driver = now)
  /\ (~ had -> removeDocument now documentId this = (Normal false, this)).
Proof.
  intros driver had. subst driver.
  set (keep := fun x : Document.t => id_differs String.eqb (Document.id x) documentId).
  set (kept := List.filter keep (documents this)).
  set (wasRemoved := Nat.ltb (List.length kept) (List.length (documents this))).
  assert (Hrun : removeDocument now documentId this
                 = (Normal wasRemoved,
                    if wasRemoved
                    then after (set_updatedAt now) (after (set_documents kept) this)
                    else after (set_documents kept) this)).
  { unfold removeDocument, bind, get, ret. cbn [fst snd]. fold keep. fold kept. fold wasRemoved.
    cbn [set_documents]. destruct wasRemoved; reflexivity. }
  assert (Hhad : had <-> wasRemoved = true).
  { unfold wasRemoved, kept. rewrite filter_length_lt. unfold had, keep.
    split; intros (x & Hin & Hx); exists x; (split; [exact Hin |]).
    - apply not_true_iff_false. rewrite id_differs_string. intros Hne. apply Hne, Hx.
    - apply not_true_iff_false in Hx. rewrite id_differs_string in Hx.
      destruct (Document.id x) as [i |]; [| exfalso; apply Hx; discriminate].
      destruct (decide (i = documentId)); [congruence |]. exfalso. apply Hx. congruence. }
  unfold result, after. rewrite Hrun. cbn [fst snd].
  split; [| split].
  - intros x. transitivity (In x kept).
    + destruct wasRemoved; reflexivity.
    + unfold kept. rewrite List.filter_In. unfold keep. rewrite id_differs_string. reflexivity.
  - intros Hyes. apply Hhad in Hyes. rewrite Hyes. split; reflexivity.
  - intros Hno. destruct wasRemoved eqn:W; [exfalso; apply Hno, Hhad; reflexivity |].
    f_equal. unfold after. cbn [set_documents snd].
    replace kept with (documents this); [destruct this; reflexivity |].
    symmetry. apply filter_keeps_all. intros x Hin.
    destruct (keep x) eqn:K; [reflexivity |]. exfalso.
    assert (Hlt : wasRemoved = true)
      by (unfold wasRemoved, kept; apply filter_length_lt; eauto).
    congruence.
Qed.

Lemma removeDocument_spec_witness :
  let scan := Document.new "cdl.pdf" "/files/cdl.pdf" "license" (Some "doc-1") None None in
  let driver := after (addDocument Sample.now scan) Sample.driver in
  result (removeDocument Sample.now "doc-1") driver = Normal true
  /\ removeDocument Sample.now "doc-2" driver = (Normal false, driver).
Proof.
  intros scan driver.
  destruct (removeDocument_spec Sample.now "doc-1" driver) as (_ & Hyes & _).
  destruct (removeDocument_spec Sample.now "doc-2" driver) as (_ & _ & Hno).
  split.
  - apply Hyes. exists scan. split; [left; reflexivity | reflexivity].
  - apply Hno. intros (document & [<- | []] & Hid). discriminate.
Defined.

(** Adding an endorsement and removing it by its id gives back the
    endorsements the driver had, when none of them has that id. *)
Theorem addEndorsement_removeEndorsement (now now' : Date) (endorsement : Endorsement.t)
    (endorsementId : Z) (this : t) :
  Endorsement.id endorsement = Some endorsementId ->
  (forall other, In other (endorsements this) ->
                 Endorsement.id other <> Some endorsementId) ->
  let added := after (addEndorsement now endorsement) this in
  result (removeEndorsement now' endorsementId) added = Normal true
  /\ endorsements (after (removeEndorsement now' endorsementId) added)
     = endorsements this.
Proof.
  intros Hid Hfresh added. subst added.
  set (keep := fun x : Endorsement.t => id_differs Z.eqb (Endorsement.id x) endorsementId).
  assert (Hkept : List.filter keep (endorsements this ++ [endorsement])
                  = endorsements this).
  { rewrite List.filter_app, filter_keeps_all.
    - cbn. unfold keep. rewrite Hid. cbn. rewrite Z.eqb_refl. cbn. apply app_nil_r.
    - intros x Hin. apply id_differs_Z, Hfresh, Hin. }
  assert (Hlt : Nat.ltb (List.length (endorsements this))
                  (List.length (endorsements this ++ [endorsement])) = true).
  { apply Nat.ltb_lt. rewrite List.length_app. cbn. lia. }
  unfold addEndorsement, removeEndorsement, result, after, bind, get, ret.
  cbn [fst snd set_endorsements set_updatedAt endorsements]. fold keep.
  rewrite Hkept, Hlt. split; reflexivity.
Qed.

Lemma addEndorsement_removeEndorsement_witness :
  let h := Endorsement.new "H" None (Some 7%Z) None in
  let added := after (addEndorsement Sample.now h) Sample.driver in
  result (removeEndorsement Sample.now 7) added = Normal true
  /\ endorsements (after (removeEndorsement Sample.now 7) added)
     = endorsements Sample.driver.
Proof.
  intros h added.
  apply (addEndorsement_removeEndorsement Sample.now Sample.now h 7 Sample.driver).
  - reflexivity.
  - intros other [].
Defined.

Lemma address_parts_nil (parts : list (option string)) :
  List.filter truthy_string (omap (fun part : option string => part) parts) = []
  <-> Forall (fun part => truthy_ostring part = false) parts.
Proof.
  induction parts as [| [s |] parts IH]; cbn.
  - split; [constructor | reflexivity].
  - destruct (truthy_string s) eqn:T; cbn.
    + split; [discriminate |]. intros H. apply Forall_inv in H. cbn in H. congruence.
    + rewrite IH. split; [constructor; assumption |]. apply Forall_inv_tail.
  - rewrite IH. split; [constructor; [reflexivity | assumption] |]. apply Forall_inv_tail.
Qed.

Lemma concat_nonempty (sep : string) (parts : list string) :
  parts <> [] -> Forall (fun part => part <> "") parts -> String.concat sep parts <> "".
Proof.
  destruct parts as [| first rest]; [contradiction |]. intros _ Hall.
  apply Forall_inv in Hall. destruct first as [| c first]; [contradiction |].
  destruct rest; cbn; discriminate.
Qed.

(** [getFullAddress()] is [null] exactly when the six parts of the address
    are all absent or empty; a result it returns is never the empty
    string. *)
Theorem getFullAddress_null_iff (this : t) :
  (getFullAddress this = None
   <-> truthy_ostring (streetNumber this) = false
       /\ truthy_ostring (streetName this) = false
       /\ truthy_ostring (city this) = false
       /\ truthy_ostring (stateProvince this) = false
       /\ truthy_ostring (postalCode this) = false
       /\ truthy_ostring (country this) = false)
  /\ (forall address, getFullAddress this = Some address -> address <> "").
Proof.
  unfold getFullAddress.
  set (parts := [streetNumber this; streetName this; city this; stateProvince this;
                 postalCode this; country this]).
  pose proof (address_parts_nil parts) as Hnil.
  destruct (List.filter truthy_string (omap (fun part : option string => part) parts))
    as [| first rest] eqn:E; cbn [List.length Nat.ltb Nat.leb].
  - split; [| discriminate]. split; [intros _ | reflexivity].
    pose proof (proj1 Hnil eq_refl) as Hall. unfold parts in Hall.
    repeat match goal with
           | H : Forall _ (_ :: _) |- _ =>
               let Hhead := fresh "Hhead" in
               pose proof (Forall_inv H) as Hhead; apply Forall_inv_tail in H
           end.
    tauto.
  - split.
    + split; [discriminate |]. intros (H1 & H2 & H3 & H4 & H5 & H6). exfalso.
      assert (Hall : Forall (fun part => truthy_ostring part = false) parts)
        by (unfold parts; repeat constructor; assumption).
      apply Hnil in Hall. discriminate.
    + intros address [= <-]. apply (concat_nonempty ", " (first :: rest)); [discriminate |].
      rewrite <- E. apply List.Forall_forall. intros part Hin.
      apply List.filter_In in Hin as [_ Htruthy]. apply truthy_string_iff, Htruthy.
Qed.

Lemma getFullAddress_null_iff_witness :
  getFullAddress Sample.driver = Some "456, Oak Ave, Detroit, MI, 48202, USA"
  /\ "456, Oak Ave, Detroit, MI, 48202, USA" <> "".
Proof.
  assert (Haddress : getFullAddress Sample.driver
                     = Some "456, Oak Ave, Detroit, MI, 48202, USA") by reflexivity.
  split; [exact Haddress |].
  apply (proj2 (getFullAddress_null_iff Sample.driver) _ Haddress).
Defined.

End DriverMutators.

(** ** Document, Endorsement, DriverStatusHelper *)

Section SmallEntities.

Lemma split_nonempty (sep : ascii) (s : string) : split sep s <> [].
Proof.
  destruct s as [| c s]; cbn; [discriminate |].
  destruct (Ascii.eqb c sep); [discriminate |]. destruct (split sep s); discriminate.
Qed.

Lemma split_append (sep : ascii) (s1 s2 : string) :
  split sep (s1 ++ String sep s2) = (split sep s1 ++ split sep s2)%list.
Proof.
  induction s1 as [| c s1 IH].
  - rewrite append_nil_l. cbn [split]. rewrite Ascii.eqb_refl. reflexivity.
  - change (String c s1 ++ String sep s2) with (String c (s1 ++ String sep s2)).
    cbn [split]. rewrite IH. destruct (Ascii.eqb c sep); [reflexivity |].
    pose proof (split_nonempty sep s1) as Hne.
    destruct (split sep s1) as [| part parts]; [contradiction | reflexivity].
Qed.

Lemma split_plain (sep : ascii) (s : string) :
  all_chars (fun c => negb (Ascii.eqb c sep)) s = true -> split sep s = [s].
Proof.
  induction s as [| c s IH]; cbn; [reflexivity |].
  rewrite andb_true_iff, negb_true_iff. intros [Hc Hs]. rewrite Hc, (IH Hs). reflexivity.
Qed.

(** The extension of a file name is what follows its last dot, in lower
    case; a name without a dot has the empty extension and is neither an
    image nor a PDF; and no document is both an image and a PDF. *)
Theorem getFileExtension_spec (this : Document.t) :
  let plain := all_chars (fun c => negb (Ascii.eqb c ".")) in
  (forall base extension,
      Document.fileName this = base ++ "." ++ extension ->
      plain extension = true ->
      Document.getFileExtension this = toLowerCase extension)
  /\ (plain (Document.fileName this) = true ->
      Document.getFileExtension this = ""
      /\ Document.isImage this = false /\ Document.isPdf this = false)
  /\ (Document.isImage this && Document.isPdf this = false).
Proof.
  intros plain. split; [| split].
  - intros base extension Hname Hplain. unfold Document.getFileExtension.
    rewrite Hname.
    change (base ++ "." ++ extension) with (base ++ String "." extension).
    rewrite split_append, (split_plain _ _ Hplain), List.length_app, List.last_last.
    cbn [List.length]. replace (Nat.ltb _ _) with true; [reflexivity |].
    symmetry. apply Nat.ltb_lt. pose proof (split_nonempty "." base) as Hne.
    destruct (split "." base); [contradiction | cbn [List.length]; lia].
  - intros Hplain.
    assert (Hext : Document.getFileExtension this = "").
    { unfold Document.getFileExtension. rewrite (split_plain _ _ Hplain). reflexivity. }
    unfold Document.isImage, Document.isPdf. rewrite Hext. repeat split.
  - unfold Document.isImage, Document.isPdf.
    destruct (String.eqb (Document.getFileExtension this) "pdf") eqn:E;
      [| apply andb_false_r].
    apply String.eqb_eq in E. rewrite E. reflexivity.
Qed.

Lemma getFileExtension_spec_witness :
  let scan := Document.new "Scan.of.CDL.PDF" "/files/1" "license" None None None in
  Document.getFileExtension scan = "pdf"
  /\ Document.isPdf (Document.new "README" "/files/2" "other" None None None) = false.
Proof.
  intros scan. split.
  - apply (proj1 (getFileExtension_spec scan) "Scan.of.CDL" "PDF"); reflexivity.
  - apply (proj1 (proj2 (getFileExtension_spec
                           (Document.new "README" "/files/2" "other" None None None)))).
    reflexivity.
Defined.

(** [Document.update] assigns the file name and the URL before it checks the
    type: with a type that is not one of the valid ones it throws, the type
    stays as it was, and a non-empty name and URL given with it have already
    replaced the old ones.  With a valid type all three are replaced. *)
Theorem Document_update_checks_type_last (this : Document.t)
    (name url type : string) :
  name <> "" -> url <> "" -> type <> "" ->
  let d := {| Document.p_fileName := Some name; Document.p_fileUrl := Some url;
              Document.p_fileType := Some type |} in
  let document := after (Document.update d) this in
  Document.fileName document = name /\ Document.fileUrl document = url
  /\ (In type Document.VALID_TYPES ->
      result (Document.update d) this = Normal tt /\ Document.fileType document = type)
  /\ (~ In type Document.VALID_TYPES ->
      result (Document.update d) this = Throw (InvalidDocumentTypeError type)
      /\ Document.fileType document = Document.fileType this).
Proof.
  intros Hname Hurl Htype d document. subst d document.
  apply truthy_string_iff in Hname, Hurl, Htype.
  unfold Document.update, Document.when_truthy, Document.validateType, result, after,
    bind, lift. cbn [Document.p_fileName Document.p_fileUrl Document.p_fileType].
  rewrite Hname, Hurl, Htype. cbn [Document.set_fileName Document.set_fileUrl fst snd].
  destruct (includes Document.VALID_TYPES type) eqn:E; cbn.
  - apply includes_In in E.
    split; [reflexivity |]. split; [reflexivity |]. split; [split; reflexivity |].
    intros Hout. contradiction.
  - split; [reflexivity |]. split; [reflexivity |]. split; [| split; reflexivity].
    intros Hin. pose proof (proj2 (includes_In Document.VALID_TYPES type) Hin). congruence.
Qed.

Lemma Document_update_checks_type_last_witness :
  let this := Document.new "old.pdf" "/files/old" "license" None None None in
  let d := {| Document.p_fileName := Some "new.pdf"; Document.p_fileUrl := Some "/files/new";
              Document.p_fileType := Some "application/pdf" |} in
  result (Document.update d) this = Throw (InvalidDocumentTypeError "application/pdf")
  /\ Document.fileName (after (Document.update d) this) = "new.pdf"
  /\ Document.fileType (after (Document.update d) this) = "license".
Proof.
  intros this d.
  destruct (Document_update_checks_type_last this "new.pdf" "/files/new" "application/pdf")
    as (Hname & _ & _ & Hbad); try discriminate.
  destruct Hbad as [Hthrow Hkept].
  - cbn. intuition discriminate.
  - repeat split; assumption.
Defined.

(** The type of an endorsement is always one of H, N, P, S, T, X: [create]
    returns only such endorsements, and [update] keeps the property whether
    it returns or throws. *)
Theorem endorsement_type_always_valid :
  (forall d e, Endorsement.create d = Normal e -> In (Endorsement.type e) Endorsement.VALID_TYPES)
  /\ (forall d this,
        In (Endorsement.type this) Endorsement.VALID_TYPES ->
        In (Endorsement.type (after (Endorsement.update d) this)) Endorsement.VALID_TYPES).
Proof.
  split.
  - intros d e. unfold Endorsement.create, Endorsement.validateType, cbind.
    destruct (includes Endorsement.VALID_TYPES (toUpperCase (Endorsement.data_type d)))
      eqn:E; cbn; [| discriminate].
    intros [= <-]. exact (proj1 (includes_In Endorsement.VALID_TYPES _) E).
  - intros d this Hvalid.
    unfold Endorsement.update, Endorsement.validateType, after, bind, lift.
    destruct (Endorsement.p_type d) as [ty |].
    + destruct (truthy_string ty).
      * destruct (includes Endorsement.VALID_TYPES (toUpperCase ty)) eqn:E.
        -- apply includes_In in E. destruct (Endorsement.p_expiryDate d); exact E.
        -- exact Hvalid.
      * destruct (Endorsement.p_expiryDate d); exact Hvalid.
    + destruct (Endorsement.p_expiryDate d); exact Hvalid.
Qed.

Lemma endorsement_type_always_valid_witness :
  In (Endorsement.type
        (after (Endorsement.update {| Endorsement.p_type := Some "x";
                                      Endorsement.p_expiryDate := None |})
           (Endorsement.new "N" None None None)))
    Endorsement.VALID_TYPES.
Proof.
  apply (proj2 endorsement_type_always_valid). cbn. tauto.
Defined.

(** Every status is listed by [getAllStatuses] once; it is an active status
    or an inactive one, never both; and only [available], an active status,
    can be assigned a load, which is also the test of [Driver.isAvailable]. *)
Theorem statuses_partition (status : DriverStatus) :
  In status DriverStatusHelper.getAllStatuses
  /\ List.NoDup DriverStatusHelper.getAllStatuses
  /\ (In status DriverStatusHelper.getActiveStatuses
      <-> ~ In status DriverStatusHelper.getInactiveStatuses)
  /\ (DriverStatusHelper.canBeAssigned status = true <-> status = AVAILABLE)
  /\ (DriverStatusHelper.canBeAssigned status = true ->
      In status DriverStatusHelper.getActiveStatuses)
  /\ (forall driver, Driver.status driver = status ->
        Driver.isAvailable driver = DriverStatusHelper.canBeAssigned status).
Proof.
  split; [destruct status; cbn; tauto |].
  split; [unfold DriverStatusHelper.getAllStatuses;
          repeat (apply List.NoDup_cons; [cbn; intuition discriminate |]);
          apply List.NoDup_nil |].
  split; [destruct status; cbn; intuition discriminate |].
  split; [destruct status; cbn; intuition discriminate |].
  split; [destruct status; cbn; intuition discriminate |].
  intros driver <-. reflexivity.
Qed.

End SmallEntities.

(** ** DriverService: what the calls do to the store *)

Section StoreProperties.
Import DriverService ServiceHistory.

Lemma findByEmail_none (db : Database.t) (email : string) (r : Database.t) :
  Database.findByEmail email db = (Normal None, r) ->
  forall id other, Database.drivers db !! id = Some other -> Driver.email other <> email.
Proof.
  unfold Database.findByEmail. intros Hnone id other Hstored Hemail.
  destruct (List.find _ (map_to_list (Database.drivers db))) as [row |] eqn:E;
    [discriminate |].
  apply elem_of_map_to_list, list_elem_of_In in Hstored.
  pose proof (find_none _ _ E _ Hstored) as Hno. cbn in Hno.
  rewrite Hemail, String.eqb_refl in Hno. discriminate.
Qed.

Lemma findByEmail_some (db : Database.t) (email : string) (found : Driver.t)
    (r : Database.t) :
  Database.findByEmail email db = (Normal (Some found), r) ->
  exists id, Database.drivers db !! id = Some found /\ Driver.email found = email.
Proof.
  unfold Database.findByEmail. intros Hsome.
  destruct (List.find _ (map_to_list (Database.drivers db))) as [[id row] |] eqn:E;
    [| discriminate].
  injection Hsome as <- _. apply find_some in E as [Hin Heq].
  exists id. split.
  - apply elem_of_map_to_list, list_elem_of_In, Hin.
  - apply String.eqb_eq, Heq.
Qed.

Lemma findByEmail_reads (db : Database.t) (email : string) :
  snd (Database.findByEmail email db) = db.
Proof. reflexivity. Qed.

(** The shape shared by the calls that load a driver, change it and store
    it. *)
Lemma found_run {A} (db : Database.t) (id : string)
    (k : Driver.t -> method Database.t A) :
  (let* found := Repository.findById id in
   match found with
   | None => throw (not_found id)
   | Some driver => k driver
   end) db
  = match Database.drivers db !! id with
    | None => (Throw (not_found id), db)
    | Some driver => k driver db
    end.
Proof.
  unfold bind. cbn [Repository.findById Database.repository]. unfold Database.findById.
  destruct (Database.drivers db !! id); reflexivity.
Qed.

Lemma update_step (db : Database.t) (id : string) (old driver : Driver.t) :
  keyed db ->
  Database.drivers db !! id = Some old ->
  Driver.id driver = Driver.id old ->
  Driver.email driver = Driver.email old
  \/ (forall id' other, Database.drivers db !! id' = Some other ->
                        Driver.email other <> Driver.email driver) ->
  step db (snd (Repository.update driver db)).
Proof.
  intros Hkeyed Hstored Hid Hemail. rewrite (Hkeyed _ _ Hstored) in Hid.
  rewrite (update_stored db id driver old Hid Hstored). cbn [snd].
  apply step_update with (old := old); assumption.
Qed.

Lemma guarded_update_step (db : Database.t) (id : string) (old driver : Driver.t)
    (guard : bool) (e : Exn) :
  keyed db ->
  Database.drivers db !! id = Some old ->
  Driver.id driver = Driver.id old ->
  Driver.email driver = Driver.email old ->
  step db (snd ((throw_if guard e ;;; Repository.update driver) db)).
Proof.
  intros Hkeyed Hstored Hid Hemail. unfold bind. destruct guard; cbn [throw_if throw ret].
  - apply step_none.
  - pose proof (update_step db id old driver Hkeyed Hstored Hid (or_introl Hemail)) as Hstep.
    destruct (Repository.update driver db) as [[updated | e'] db']; exact Hstep.
Qed.

Lemma noted_frame (now : Date) (employment : string) (status : DriverStatus)
    (label : string) (notes : option string) (this : Driver.t) :
  let driver :=
    after (Driver.set_employmentStatus employment ;;; Driver.set_status status ;;;
           Driver.append_note label notes ;;; Driver.set_updatedAt now) this in
  Driver.id driver = Driver.id this /\ Driver.email driver = Driver.email this
  /\ Driver.status driver = status /\ Driver.employmentStatus driver = employment
  /\ Driver.hoursOfService driver = Driver.hoursOfService this
  /\ Driver.loadId driver = Driver.loadId this
  /\ Driver.getFullName driver = Driver.getFullName this.
Proof.
  intros driver. subst driver. unfold after, bind, Driver.append_note, get.
  destruct notes as [n |]; [| cbn; repeat split].
  destruct (truthy_string n); [| cbn; repeat split].
  cbn. destruct (Driver.notes this) as [old |]; [| cbn; repeat split].
  destruct (truthy_string old); cbn; repeat split.
Qed.

Lemma zero_hours :
  HoursOfService.create
    {| HoursOfService.data_drivingHoursToday := 0;
       HoursOfService.data_dutyHoursToday := 0;
       HoursOfService.data_timeUntilBreakRequired := 0;
       HoursOfService.data_id := None;
       HoursOfService.data_driverId := None |}
  = Normal (HoursOfService.new 0 0 0 None None).
Proof. reflexivity. Qed.

(** [createDriver] throws before it writes, or hands [create] of the store a
    driver built from the entity the factory returned. *)
Lemma createDriver_run (db : Database.t) (now : Date) (driverData : CreateDriverData)
    (files : option (list File)) :
  (exists e, createDriver now driverData files db = (Throw e, db))
  \/ exists base driver,
       Database.findByEmail (cd_email driverData) db = (Normal None, db)
       /\ Driver.create now (driverBaseData driverData) = Normal base
       /\ Driver.email driver = cd_email driverData
       /\ Driver.status driver = AVAILABLE
       /\ Driver.loadId driver = None
       /\ Driver.employmentStatus driver = Driver.employmentStatus base
       /\ Driver.hoursOfService driver = Some (HoursOfService.new 0 0 0 None None)
       /\ (nonempty files = true ->
           mapM (document_of now) (default [] files) = Normal (Driver.documents driver))
       /\ createDriver now driverData files db = Repository.create driver db.
Proof.
  unfold createDriver, bind.
  cbn [Repository.findByEmail Database.repository]. unfold Database.findByEmail at 1 3.
  destruct (List.find _ (map_to_list (Database.drivers db))) as [row |] eqn:Hfind;
    cbn [fmap option_fmap option_map Driver.present throw_if throw ret];
    [left; eexists; reflexivity |].
  unfold lift.
  destruct (Driver.create now (driverBaseData driverData)) as [base | e] eqn:Hbase;
    [| left; eexists; reflexivity].
  assert (Hfields : Driver.email base = cd_email driverData
                    /\ Driver.status base = AVAILABLE /\ Driver.loadId base = None).
  { apply create_run in Hbase as [-> _]. repeat split. }
  destruct Hfields as (Hemail & Hstatus & Hload).
  set (driver1 := if nonempty (cd_emergencyContacts driverData) then _ else base).
  assert (H1 : Driver.email driver1 = cd_email driverData
               /\ Driver.status driver1 = AVAILABLE
               /\ Driver.loadId driver1 = None
               /\ Driver.employmentStatus driver1 = Driver.employmentStatus base).
  { subst driver1. destruct (nonempty (cd_emergencyContacts driverData)); repeat split;
      assumption. }
  destruct H1 as (E1 & S1 & L1 & M1). clearbody driver1.
  assert (Hlookup : Database.findByEmail (cd_email driverData) db = (Normal None, db))
    by (unfold Database.findByEmail; rewrite Hfind; reflexivity).
  destruct (nonempty (cd_endorsements driverData));
    [destruct (mapM endorsement_of (default [] (cd_endorsements driverData)))
       as [endorsements | e]; cbn [ret]; [| left; eexists; reflexivity] |];
    rewrite zero_hours;
    (destruct (nonempty files) eqn:Hfiles;
     [destruct (mapM (document_of now) (default [] files)) as [documents | e] eqn:Hdocuments;
      cbn [ret]; [| left; eexists; reflexivity] |]);
    right; exists base; eexists;
    (split; [exact Hlookup |]); (split; [reflexivity |]);
    do 6 (split; [shelve |]); reflexivity.
  Unshelve.
  all: cbn; try assumption; try reflexivity; try discriminate.
  all: intros _; exact Hdocuments.
Qed.

Lemma create_step (db : Database.t) (driver : Driver.t) :
  (forall id other, Database.drivers db !! id = Some other ->
                    Driver.email other <> Driver.email driver) ->
  step db (snd (Repository.create driver db)).
Proof.
  intros Hnew. cbn [Repository.create Database.repository]. unfold Database.create.
  destruct (Database.drivers db !! Database.uuid (Database.generated db)) eqn:Hfree;
    cbn [snd]; [apply step_none |].
  apply step_create; [exact Hfree | reflexivity | exact Hnew].
Qed.

Lemma createDriver_step (db : Database.t) (now : Date) (driverData : CreateDriverData)
    (files : option (list File)) :
  step db (after (createDriver now driverData files) db).
Proof.
  unfold after.
  destruct (createDriver_run db now driverData files)
    as [[e ->] | (base & driver & Hlookup & _ & Hemail & _ & _ & _ & _ & _ & ->)].
  - apply step_none.
  - apply create_step. rewrite Hemail. apply (findByEmail_none _ _ _ Hlookup).
Qed.

(** The check of the new email in [updateDriver], for the driver stored
    under [id]: it throws, or the email the driver is to get is its own or
    that of no stored record. *)
Lemma updateDriver_email_check (db : Database.t) (id : string) (old : Driver.t)
    (given : option string) :
  Database.drivers db !! id = Some old ->
  let check : method Database.t unit :=
    match given with
    | Some email =>
        if truthy_string email && negb (String.eqb email (Driver.email old))
        then
          let* driverWithEmail := Repository.findByEmail email in
          match driverWithEmail with
          | Some other =>
              throw_if (other_id other id)
                (Error ("A driver with email " ++ email ++ " already exists"))
          | None => ret tt
          end
        else ret tt
    | None => ret tt
    end in
  (exists e, check db = (Throw e, db))
  \/ (check db = (Normal tt, db)
      /\ (keyed db -> default (Driver.email old) given <> "" ->
          default (Driver.email old) given = Driver.email old
          \/ forall id' other, Database.drivers db !! id' = Some other ->
                               Driver.email other <> default (Driver.email old) given)).
Proof.
  intros Hstored check. subst check.
  destruct given as [email |];
    [| right; split; [reflexivity | intros _ _; left; reflexivity]].
  change (default (Driver.email old) (Some email)) with email.
  destruct (truthy_string email) eqn:Htruthy; cbn [andb].
  2:{ right. split; [reflexivity |]. intros _ Hne. apply truthy_string_iff in Hne.
      congruence. }
  destruct (String.eqb email (Driver.email old)) eqn:Hsame; cbn [negb].
  { right. split; [reflexivity |]. intros _ _. left. apply String.eqb_eq, Hsame. }
  unfold bind. cbn [Repository.findByEmail Database.repository].
  destruct (Database.findByEmail email db) as [[[other |] | e] db'] eqn:Hlookup.
  - assert (db' = db) as -> by (pose proof (findByEmail_reads db email) as Hr;
                                rewrite Hlookup in Hr; exact Hr).
    destruct (other_id other id) eqn:Hother; cbn [throw_if throw ret].
    + left. eexists. reflexivity.
    + right. split; [reflexivity |]. intros Hkeyed _. left.
      apply findByEmail_some in Hlookup as (id' & Hstored' & Hemail).
      unfold other_id, Driver.id_differs in Hother.
      rewrite (Hkeyed _ _ Hstored') in Hother. apply negb_false_iff, String.eqb_eq in Hother.
      subst id'. congruence.
  - assert (db' = db) as -> by (pose proof (findByEmail_reads db email) as Hr;
                                rewrite Hlookup in Hr; exact Hr).
    right. split; [reflexivity |]. intros _ _. right.
    apply (findByEmail_none _ _ _ Hlookup).
  - unfold Database.findByEmail in Hlookup. discriminate.
Qed.

Lemma updateDriver_run (db : Database.t) (now : Date) (id : string)
    (driverData : UpdateDriverData) (files : option (list File)) :
  (exists e, updateDriver now id driverData files db = (Throw e, db))
  \/ exists old driver,
       Database.drivers db !! id = Some old
       /\ valid_at now driver
       /\ Driver.id driver = Driver.id old
       /\ (keyed db ->
           Driver.email driver = Driver.email old
           \/ forall id' other, Database.drivers db !! id' = Some other ->
                                Driver.email other <> Driver.email driver)
       /\ Driver.status driver = Driver.status old
       /\ Driver.loadId driver = Driver.loadId old
       /\ Driver.hoursOfService driver = Driver.hoursOfService old
       /\ Driver.updatedAt driver = now
       /\ (nonempty files = true ->
           exists newDocuments,
             mapM (document_of now) (default [] files) = Normal newDocuments
             /\ Driver.documents driver = (Driver.documents old ++ newDocuments)%list)
       /\ updateDriver now id driverData files db = Repository.update driver db.
Proof.
  remember (updateDriver now id driverData files db) as run eqn:Hrun.
  unfold updateDriver in Hrun. unfold bind at 1 in Hrun.
  cbn [Repository.findById Database.repository] in Hrun. unfold Database.findById in Hrun.
  destruct (Database.drivers db !! id) as [old |] eqn:Hstored;
    [| left; eexists; exact Hrun].
  pose proof (updateDriver_email_check db id old (ud_email driverData) Hstored)
    as Hcheck.
  cbv zeta in Hcheck. unfold bind at 1 in Hrun.
  destruct Hcheck as [[e He] | [Hok Hemail]];
    [rewrite He in Hrun; left; eexists; exact Hrun |].
  rewrite Hok in Hrun. unfold bind at 1 in Hrun. unfold lift at 1, call_on in Hrun.
  rewrite update_eq in Hrun.
  destruct (Driver.validateDriverData now
              (Driver.to_partial (after (Driver.assign (updateBaseData driverData)) old)))
    as [[] | e] eqn:Hvalid; [| left; eexists; exact Hrun].
  apply validateDriverData_valid_at in Hvalid.
  set (driver1 := after (Driver.set_updatedAt now)
                    (after (Driver.assign (updateBaseData driverData)) old)) in Hrun.
  pose (kept := fun driver : Driver.t =>
          valid_at now driver
          /\ Driver.id driver = Driver.id old
          /\ Driver.email driver = default (Driver.email old) (ud_email driverData)
          /\ Driver.status driver = Driver.status old
          /\ Driver.loadId driver = Driver.loadId old
          /\ Driver.hoursOfService driver = Driver.hoursOfService old
          /\ Driver.updatedAt driver = now
          /\ Driver.documents driver = Driver.documents old).
  assert (H1 : kept driver1).
  { split; [exact Hvalid |]. repeat (split; [reflexivity |]). reflexivity. }
  clearbody driver1.
  set (driver2 := match ud_emergencyContacts driverData with
                  | Some emergencyContacts => _
                  | None => driver1
                  end) in Hrun.
  assert (H2 : kept driver2).
  { subst driver2. destruct (ud_emergencyContacts driverData); exact H1. }
  clearbody driver2. clear H1.
  assert (Htail : forall driver3 : Driver.t,
             kept driver3 ->
             run = (let* existingDriver :=
                      if nonempty files then
                        let* newDocuments :=
                          lift (mapM (document_of now) (default [] files)) in
                        ret (after (Driver.set_documents
                                      (Driver.documents driver3 ++ newDocuments))
                               driver3)
                      else ret driver3 in
                    Repository.update existingDriver) db ->
             (exists e, run = (Throw e, db))
             \/ exists old0 driver,
                  Some old = Some old0
                  /\ valid_at now driver
                  /\ Driver.id driver = Driver.id old0
                  /\ (keyed db ->
                      Driver.email driver = Driver.email old0
                      \/ forall id' other, Database.drivers db !! id' = Some other ->
                                           Driver.email other <> Driver.email driver)
                  /\ Driver.status driver = Driver.status old0
                  /\ Driver.loadId driver = Driver.loadId old0
                  /\ Driver.hoursOfService driver = Driver.hoursOfService old0
                  /\ Driver.updatedAt driver = now
                  /\ (nonempty files = true ->
                      exists newDocuments,
                        mapM (document_of now) (default [] files) = Normal newDocuments
                        /\ Driver.documents driver
                           = (Driver.documents old0 ++ newDocuments)%list)
                  /\ run = Repository.update driver db).
  { intros driver3 (Hv & Hid & Hmail & Hstatus & Hload & Hhours & Hat & Hdocs) Hrun3.
    assert (Hunique : keyed db ->
                      Driver.email driver3 = Driver.email old
                      \/ forall id' other, Database.drivers db !! id' = Some other ->
                                           Driver.email other <> Driver.email driver3).
    { intros Hkeyed. rewrite Hmail. apply Hemail; [exact Hkeyed |]. rewrite <- Hmail.
      apply email_shaped_nonempty. apply Hv. }
    unfold bind at 1 in Hrun3. destruct (nonempty files) eqn:Hfiles.
    - unfold bind at 1, lift at 1 in Hrun3.
      destruct (mapM (document_of now) (default [] files)) as [newDocuments | e]
        eqn:Hnew; [| left; eexists; exact Hrun3].
      cbn [ret] in Hrun3. right.
      exists old, (after (Driver.set_documents (Driver.documents driver3 ++ newDocuments))
                     driver3).
      split; [reflexivity |]. split; [exact Hv |]. split; [exact Hid |].
      split; [exact Hunique |]. split; [exact Hstatus |]. split; [exact Hload |].
      split; [exact Hhours |]. split; [exact Hat |]. split; [| exact Hrun3].
      intros _. exists newDocuments. split; [reflexivity |].
      cbn. rewrite Hdocs. reflexivity.
    - cbn [ret] in Hrun3. right. exists old, driver3.
      split; [reflexivity |]. split; [exact Hv |]. split; [exact Hid |].
      split; [exact Hunique |]. split; [exact Hstatus |]. split; [exact Hload |].
      split; [exact Hhours |]. split; [exact Hat |]. split; [| exact Hrun3].
      discriminate. }
  unfold bind at 1 in Hrun. destruct (ud_endorsements driverData) as [endorsements |].
  - unfold bind at 1, lift at 1 in Hrun.
    destruct (mapM endorsement_of endorsements) as [created | e];
      [| left; eexists; exact Hrun].
    cbn [ret] in Hrun.
    apply (Htail (after (Driver.set_endorsements created) driver2)); [exact H2 | exact Hrun].
  - cbn [ret] in Hrun. apply (Htail driver2); [exact H2 | exact Hrun].
Qed.

Lemma updateDriver_step (db : Database.t) (now : Date) (id : string)
    (driverData : UpdateDriverData) (files : option (list File)) :
  keyed db -> step db (after (updateDriver now id driverData files) db).
Proof.
  intros Hkeyed. unfold after.
  destruct (updateDriver_run db now id driverData files)
    as [[e ->] | (old & driver & Hstored & _ & Hid & Hemail & _ & _ & _ & _ & _ & ->)].
  - apply step_none.
  - apply update_step with (id := id) (old := old); try assumption.
    apply Hemail, Hkeyed.
Qed.

Lemma deleteDriver_step (db : Database.t) (id : string) :
  step db (after (deleteDriver id) db).
Proof.
  unfold after, deleteDriver, bind.
  cbn [Repository.findById Repository.delete Database.repository].
  unfold Database.findById, Database.delete.
  destruct (Database.drivers db !! id) as [driver |] eqn:Hstored;
    cbn [Driver.present negb throw_if throw ret snd]; [| apply step_none].
  rewrite Hstored. apply step_delete.
Qed.

(** Every call does one of the four things. *)
Lemma perform_step (db : Database.t) (now : Date) (c : call) :
  keyed db -> step db (after (perform now c) db).
Proof.
  intros Hkeyed.
  destruct c as [driverData files | id driverData files | id | id status
                | driverId loadId | driverId | id notes | id notes | id];
    cbn [perform].
  - apply createDriver_step.
  - apply updateDriver_step, Hkeyed.
  - apply deleteDriver_step.
  - unfold after, updateDriverStatus. rewrite found_run.
    destruct (Database.drivers db !! id) as [driver |] eqn:Hstored; [| apply step_none].
    apply update_step with (id := id) (old := driver); try assumption; try reflexivity.
    left. reflexivity.
  - unfold after, assignLoad. rewrite found_run.
    destruct (Database.drivers db !! driverId) as [driver |] eqn:Hstored;
      [| apply step_none].
    apply guarded_update_step with (id := driverId) (old := driver);
      try assumption; reflexivity.
  - unfold after, completeLoad. rewrite found_run.
    destruct (Database.drivers db !! driverId) as [driver |] eqn:Hstored;
      [| apply step_none].
    apply guarded_update_step with (id := driverId) (old := driver);
      try assumption; reflexivity.
  - unfold after, terminateDriver. rewrite found_run.
    destruct (Database.drivers db !! id) as [driver |] eqn:Hstored; [| apply step_none].
    destruct (noted_frame now EmploymentStatus.TERMINATED OFF_DUTY "Termination" notes
                driver) as (Hid & Hemail & _).
    apply update_step with (id := id) (old := driver); try assumption.
    left. exact Hemail.
  - unfold after, putDriverOnLeave. rewrite found_run.
    destruct (Database.drivers db !! id) as [driver |] eqn:Hstored; [| apply step_none].
    destruct (noted_frame now EmploymentStatus.LEAVE AWAY "Leave" notes driver)
      as (Hid & Hemail & _).
    apply update_step with (id := id) (old := driver); try assumption.
    left. exact Hemail.
  - unfold after, returnDriverFromLeave. rewrite found_run.
    destruct (Database.drivers db !! id) as [driver |] eqn:Hstored; [| apply step_none].
    apply guarded_update_step with (id := id) (old := driver);
      try assumption; reflexivity.
Qed.

Lemma uuid_inj (n m : nat) : Database.uuid n = Database.uuid m -> n = m.
Proof.
  unfold Database.uuid. rewrite !append_cons, !append_nil_l.
  intros [= Heq]. apply (inj pretty) in Heq. exact Heq.
Qed.

Lemma step_consistent (db db' : Database.t) :
  consistent db -> step db db' -> consistent db'.
Proof.
  intros (Hkeyed & Hunique & Hfresh) Hstep.
  destruct Hstep as [| driver Hfree Hid Hnew | id old driver Hstored Hid Hemail | id].
  - repeat split; assumption.
  - split; [| split].
    + intros id' d. cbn [Database.drivers Database.generated]. rewrite lookup_insert_Some.
      intros [[<- <-] | [_ Hd]]; [exact Hid | apply Hkeyed, Hd].
    + intros id1 id2 d1 d2. cbn [Database.drivers Database.generated].
      rewrite !lookup_insert_Some.
      intros [[<- <-] | [Hne1 H1]] [[<- <-] | [Hne2 H2]] Heq.
      * reflexivity.
      * exfalso. apply (Hnew _ _ H2). symmetry. exact Heq.
      * exfalso. apply (Hnew _ _ H1). exact Heq.
      * apply (Hunique _ _ _ _ H1 H2 Heq).
    + intros n Hn. cbn [Database.drivers Database.generated] in Hn |- *.
      rewrite lookup_insert_None. split.
      * apply Hfresh. lia.
      * intros Heq. apply uuid_inj in Heq. lia.
  - split; [| split].
    + intros id' d. cbn [Database.drivers Database.generated]. rewrite lookup_insert_Some.
      intros [[<- <-] | [_ Hd]]; [exact Hid | apply Hkeyed, Hd].
    + intros id1 id2 d1 d2. cbn [Database.drivers Database.generated].
      rewrite !lookup_insert_Some.
      intros [[<- <-] | [Hne1 H1]] [[<- <-] | [Hne2 H2]] Heq.
      * reflexivity.
      * destruct Hemail as [Hsame | Hnew].
        -- apply (Hunique _ _ _ _ Hstored H2). congruence.
        -- exfalso. apply (Hnew _ _ H2). symmetry. exact Heq.
      * destruct Hemail as [Hsame | Hnew].
        -- apply (Hunique _ _ _ _ H1 Hstored). congruence.
        -- exfalso. apply (Hnew _ _ H1). exact Heq.
      * apply (Hunique _ _ _ _ H1 H2 Heq).
    + intros n Hn. cbn [Database.drivers Database.generated] in Hn |- *.
      rewrite lookup_insert_None. split.
      * apply Hfresh, Hn.
      * intros ->. rewrite (Hfresh n Hn) in Hstored. discriminate.
  - split; [| split].
    + intros id' d. cbn [Database.drivers Database.generated].
      rewrite lookup_delete_Some. intros [_ Hd]. apply Hkeyed, Hd.
    + intros id1 id2 d1 d2. cbn [Database.drivers Database.generated].
      rewrite !lookup_delete_Some.
      intros [_ H1] [_ H2]. apply (Hunique _ _ _ _ H1 H2).
    + intros n Hn. cbn [Database.drivers Database.generated] in Hn |- *.
      rewrite lookup_delete_None. right. apply Hfresh, Hn.
Qed.

Lemma perform_consistent (db : Database.t) (now : Date) (c : call) :
  consistent db -> consistent (after (perform now c) db).
Proof.
  intros Hconsistent. apply (step_consistent db); [exact Hconsistent |].
  apply perform_step, Hconsistent.
Qed.

Lemma empty_consistent : consistent empty.
Proof.
  split; [| split].
  - intros id driver Hstored. cbn in Hstored. rewrite lookup_empty in Hstored. discriminate.
  - intros id1 id2 d1 d2 Hstored. cbn in Hstored. rewrite lookup_empty in Hstored.
    discriminate.
  - intros n _. cbn. apply lookup_empty.
Qed.

Lemma update_atomic (db : Database.t) (driver : Driver.t) :
  is_normal (fst (Repository.update driver db)) = false ->
  snd (Repository.update driver db) = db.
Proof.
  cbn [Repository.update Database.repository]. unfold Database.update.
  destruct (Driver.id driver) as [id |]; [| reflexivity].
  destruct (Database.drivers db !! id); [discriminate | reflexivity].
Qed.

Lemma guarded_update_atomic (db : Database.t) (driver : Driver.t) (guard : bool)
    (e : Exn) :
  is_normal (fst ((throw_if guard e ;;; Repository.update driver) db)) = false ->
  snd ((throw_if guard e ;;; Repository.update driver) db) = db.
Proof.
  unfold bind. destruct guard; cbn [throw_if throw ret]; [reflexivity |].
  pose proof (update_atomic db driver) as Hatomic.
  destruct (Repository.update driver db) as [[updated | e'] db']; exact Hatomic.
Qed.

Lemma create_atomic (db : Database.t) (driver : Driver.t) :
  is_normal (fst (Repository.create driver db)) = false ->
  snd (Repository.create driver db) = db.
Proof.
  cbn [Repository.create Database.repository]. unfold Database.create.
  destruct (Database.drivers db !! Database.uuid (Database.generated db));
    [reflexivity | discriminate].
Qed.

Lemma perform_atomic (db : Database.t) (now : Date) (c : call) :
  is_normal (result (perform now c) db) = false -> after (perform now c) db = db.
Proof.
  unfold result, after.
  destruct c as [driverData files | id driverData files | id | id status
                | driverId loadId | driverId | id notes | id notes | id];
    cbn [perform].
  - destruct (createDriver_run db now driverData files)
      as [[e ->] | (base & driver & _ & _ & _ & _ & _ & _ & _ & _ & ->)];
      [reflexivity | apply create_atomic].
  - destruct (updateDriver_run db now id driverData files)
      as [[e ->] | (old & driver & _ & _ & _ & _ & _ & _ & _ & _ & _ & ->)];
      [reflexivity | apply update_atomic].
  - unfold deleteDriver, bind.
    cbn [Repository.findById Repository.delete Database.repository].
    unfold Database.findById, Database.delete.
    destruct (Database.drivers db !! id) as [driver |] eqn:Hstored;
      cbn [Driver.present negb throw_if throw ret fst snd]; [| reflexivity].
    rewrite Hstored. discriminate.
  - unfold updateDriverStatus. rewrite found_run.
    destruct (Database.drivers db !! id); [apply update_atomic | reflexivity].
  - unfold assignLoad. rewrite found_run.
    destruct (Database.drivers db !! driverId);
      [apply guarded_update_atomic | reflexivity].
  - unfold completeLoad. rewrite found_run.
    destruct (Database.drivers db !! driverId);
      [apply guarded_update_atomic | reflexivity].
  - unfold terminateDriver. rewrite found_run.
    destruct (Database.drivers db !! id); [apply update_atomic | reflexivity].
  - unfold putDriverOnLeave. rewrite found_run.
    destruct (Database.drivers db !! id); [apply update_atomic | reflexivity].
  - unfold returnDriverFromLeave. rewrite found_run.
    destruct (Database.drivers db !! id); [apply guarded_update_atomic | reflexivity].
Qed.

Lemma step_frame (db db' : Database.t) :
  step db db' ->
  exists id, forall id', id' <> id ->
    Database.drivers db' !! id' = Database.drivers db !! id'.
Proof.
  intros [| driver _ _ _ | id old driver _ _ _ | id].
  - exists "". reflexivity.
  - eexists. intros id' Hne. cbn [Database.drivers]. apply lookup_insert_ne.
    intros Heq. apply Hne. symmetry. exact Heq.
  - exists id. intros id' Hne. cbn [Database.drivers]. apply lookup_insert_ne.
    intros Heq. apply Hne. symmetry. exact Heq.
  - exists id. intros id' Hne. cbn [Database.drivers]. apply lookup_delete_ne.
    intros Heq. apply Hne. symmetry. exact Heq.
Qed.

(** The store stays consistent: if every record is stored under its own
    [id], no two records share an email and the keys still to be generated
    are free, the same holds after any call of the service, whether it
    returned or threw; so it holds of every store reached from the empty
    one. *)
Theorem store_stays_consistent :
  (forall db now c, consistent db -> consistent (after (perform now c) db))
  /\ (forall db, reachable db -> consistent db).
Proof.
  split.
  - intros db now c. apply perform_consistent.
  - intros db Hreachable. induction Hreachable as [| db now c _ IH].
    + apply empty_consistent.
    + apply perform_consistent, IH.
Qed.

Lemma store_stays_consistent_witness :
  let db := after (perform Sample.now (AssignLoad "driver-0" "L-1"))
              (after (perform Sample.now (CreateDriver Sample.createData None)) empty) in
  consistent db /\ Driver.status <$> Database.drivers db !! "driver-0" = Some DRIVING.
Proof.
  intros db. split.
  - apply (proj2 store_stays_consistent). subst db.
    apply reachable_call, reachable_call, reachable_empty.
  - vm_compute. reflexivity.
Defined.

(** A call of the service that throws has written nothing: the store is as
    it was before the call. *)
Theorem failed_call_writes_nothing (db : Database.t) (now : Date) (c : call) :
  is_normal (result (perform now c) db) = false -> after (perform now c) db = db.
Proof. apply perform_atomic. Qed.

Lemma failed_call_writes_nothing_witness :
  after (perform Sample.now (UpdateDriverStatus "driver-9" OFF_DUTY)) Sample.db
  = Sample.db.
Proof.
  apply (failed_call_writes_nothing Sample.db Sample.now
           (UpdateDriverStatus "driver-9" OFF_DUTY)).
  vm_compute. reflexivity.
Defined.

(** On a store whose records are stored under their own [id], a call
    changes the record under one key at most and leaves every other record
    as it was. *)
Theorem call_touches_one_record (db : Database.t) (now : Date) (c : call) :
  keyed db ->
  exists id, forall id', id' <> id ->
    Database.drivers (after (perform now c) db) !! id' = Database.drivers db !! id'.
Proof. intros Hkeyed. apply step_frame, perform_step, Hkeyed. Qed.

Lemma call_touches_one_record_witness :
  exists id, forall id', id' <> id ->
    Database.drivers
      (after (perform Sample.now (TerminateDriver "driver-0" (Some "left"))) Sample.db)
      !! id'
    = Database.drivers Sample.db !! id'.
Proof.
  apply (call_touches_one_record Sample.db Sample.now
           (TerminateDriver "driver-0" (Some "left"))).
  intros id driver Hstored. cbn [Sample.db Database.drivers] in Hstored.
  apply lookup_singleton_Some in Hstored as [<- <-]. reflexivity.
Defined.



Lemma document_of_upload (now : Date) (file : File) :
  In (mimetype file) allowedMimes ->
  document_of now file = Throw (InvalidDocumentTypeError (mimetype file)).
Proof.
  intros Hin. unfold document_of, Document.create, Document.validateType, cbind.
  cbn [Document.data_fileType].
  cbn in Hin. destruct Hin as [<- | [<- | [<- | [<- | [<- | []]]]]]; reflexivity.
Qed.

Lemma mapM_upload (now : Date) (files : list File) (file : File) :
  In file files -> In (mimetype file) allowedMimes ->
  is_normal (mapM (document_of now) files) = false.
Proof.
  intros Hin Hmime. induction files as [| first rest IH]; [contradiction |].
  cbn [mapM]. unfold cbind. destruct Hin as [-> | Hin].
  - rewrite (document_of_upload now file Hmime). reflexivity.
  - destruct (document_of now first); [| reflexivity].
    specialize (IH Hin). destruct (mapM (document_of now) rest); [discriminate |].
    reflexivity.
Qed.

Lemma In_nonempty {A} (x : A) (o : option (list A)) :
  In x (default [] o) -> nonempty o = true.
Proof. destruct o as [[| y l] |]; cbn; try contradiction. reflexivity. Qed.

(** The only files the upload filter of the controller lets through have
    one of five MIME types, and the service takes the MIME type of a file for
    the type of its document, which must be one of the eight document types:
    so [createDriver] and [updateDriver] never return when a file that
    passed the filter comes with the call, and they store nothing. *)
Theorem uploads_are_always_rejected (db : Database.t) (now : Date)
    (files : option (list File)) (file : File) :
  In file (default [] files) ->
  In (mimetype file) allowedMimes ->
  (forall driverData,
      is_normal (result (createDriver now driverData files) db) = false
      /\ after (createDriver now driverData files) db = db)
  /\ (forall id driverData,
        is_normal (result (updateDriver now id driverData files) db) = false
        /\ after (updateDriver now id driverData files) db = db).
Proof.
  intros Hin Hmime.
  pose proof (mapM_upload now _ file Hin Hmime) as Hfails.
  pose proof (In_nonempty _ _ Hin) as Hfiles.
  split.
  - intros driverData.
    assert (Hthrows : is_normal (result (createDriver now driverData files) db) = false).
    { unfold result.
      destruct (createDriver_run db now driverData files)
        as [[e ->] | (base & driver & _ & _ & _ & _ & _ & _ & _ & Hdocuments & _)];
        [reflexivity |].
      rewrite (Hdocuments Hfiles) in Hfails. discriminate. }
    split; [exact Hthrows |].
    apply (perform_atomic db now (CreateDriver driverData files)), Hthrows.
  - intros id driverData.
    assert (Hthrows : is_normal (result (updateDriver now id driverData files) db)
                      = false).
    { unfold result.
      destruct (updateDriver_run db now id driverData files)
        as [[e ->] | (old & driver & _ & _ & _ & _ & _ & _ & _ & _ & Hdocuments & _)];
        [reflexivity |].
      destruct (Hdocuments Hfiles) as (newDocuments & Hnew & _).
      rewrite Hnew in Hfails. discriminate. }
    split; [exact Hthrows |].
    apply (perform_atomic db now (UpdateDriver id driverData files)), Hthrows.
Qed.

Lemma uploads_are_always_rejected_witness :
  let scan := {| originalname := "cdl.pdf"; path := Some "/uploads/cdl.pdf";
                 filename := Some "cdl.pdf"; mimetype := "application/pdf" |} in
  is_normal (result (createDriver Sample.now Sample.createData (Some [scan])) empty)
  = false
  /\ is_normal (result (createDriver Sample.now Sample.createData None) empty) = true.
Proof.
  intros scan.
  destruct (uploads_are_always_rejected empty Sample.now (Some [scan]) scan)
    as [Hcreate _]; [left; reflexivity | left; reflexivity |].
  split; [exact (proj1 (Hcreate Sample.createData)) | vm_compute; reflexivity].
Defined.















Lemma update_hours (db : Database.t) (driver : Driver.t) (hours : HoursOfService.t) :
  Driver.hoursOfService driver = Some hours ->
  (forall id stored, Database.drivers db !! id = Some stored ->
                     Driver.hoursOfService stored = Some hours) ->
  forall id stored,
    Database.drivers (snd (Repository.update driver db)) !! id = Some stored ->
    Driver.hoursOfService stored = Some hours.
Proof.
  intros Hdriver Hall id stored.
  cbn [Repository.update Database.repository]. unfold Database.update.
  destruct (Driver.id driver) as [key |]; [| apply Hall].
  destruct (Database.drivers db !! key); [| apply Hall].
  cbn [snd Database.drivers]. rewrite lookup_insert_Some.
  intros [[_ <-] | [_ Hstored]]; [exact Hdriver | apply (Hall _ _ Hstored)].
Qed.

Lemma guarded_update_hours (db : Database.t) (driver : Driver.t)
    (hours : HoursOfService.t) (guard : bool) (e : Exn) :
  Driver.hoursOfService driver = Some hours ->
  (forall id stored, Database.drivers db !! id = Some stored ->
                     Driver.hoursOfService stored = Some hours) ->
  forall id stored,
    Database.drivers (snd ((throw_if guard e ;;; Repository.update driver) db)) !! id
    = Some stored ->
    Driver.hoursOfService stored = Some hours.
Proof.
  intros Hdriver Hall. unfold bind. destruct guard; cbn [throw_if throw ret];
    [exact Hall |].
  pose proof (update_hours db driver hours Hdriver Hall) as Hupdate.
  destruct (Repository.update driver db) as [[updated | e'] db']; exact Hupdate.
Qed.

(** No call changes the hours of service of a record, and a new record has
    the zero counter. *)
Lemma perform_hours (db : Database.t) (now : Date) (c : call) :
  (forall id stored, Database.drivers db !! id = Some stored ->
     Driver.hoursOfService stored = Some (HoursOfService.new 0 0 0 None None)) ->
  forall id stored,
    Database.drivers (after (perform now c) db) !! id = Some stored ->
    Driver.hoursOfService stored = Some (HoursOfService.new 0 0 0 None None).
Proof.
  intros Hall. unfold after.
  destruct c as [driverData files | key driverData files | key | key status
                | key loadId | key | key notes | key notes | key];
    cbn [perform].
  - destruct (createDriver_run db now driverData files)
      as [[e ->] | (base & driver & _ & _ & _ & _ & _ & _ & Hhours & _ & ->)];
      [exact Hall |].
    cbn [Repository.create Database.repository]. unfold Database.create.
    destruct (Database.drivers db !! Database.uuid (Database.generated db));
      [exact Hall |].
    intros id stored. cbn [snd Database.drivers]. rewrite lookup_insert_Some.
    intros [[_ <-] | [_ Hstored]]; [exact Hhours | apply (Hall _ _ Hstored)].
  - destruct (updateDriver_run db now key driverData files)
      as [[e ->] | (old & driver & Hold & _ & _ & _ & _ & _ & Hhours & _ & _ & ->)];
      [exact Hall |].
    apply update_hours; [| exact Hall]. rewrite Hhours. apply (Hall _ _ Hold).
  - unfold deleteDriver, bind.
    cbn [Repository.findById Repository.delete Database.repository].
    unfold Database.findById, Database.delete.
    destruct (Database.drivers db !! key) as [driver |] eqn:Hstored;
      cbn [Driver.present negb throw_if throw ret snd]; [| exact Hall].
    rewrite Hstored. intros id stored. cbn [snd Database.drivers].
    rewrite lookup_delete_Some. intros [_ Hid]. apply (Hall _ _ Hid).
  - unfold updateDriverStatus. rewrite found_run.
    destruct (Database.drivers db !! key) as [driver |] eqn:Hstored; [| exact Hall].
    apply update_hours; [| exact Hall]. apply (Hall _ _ Hstored).
  - unfold assignLoad. rewrite found_run.
    destruct (Database.drivers db !! key) as [driver |] eqn:Hstored; [| exact Hall].
    apply guarded_update_hours; [| exact Hall]. apply (Hall _ _ Hstored).
  - unfold completeLoad. rewrite found_run.
    destruct (Database.drivers db !! key) as [driver |] eqn:Hstored; [| exact Hall].
    apply guarded_update_hours; [| exact Hall]. apply (Hall _ _ Hstored).
  - unfold terminateDriver. rewrite found_run.
    destruct (Database.drivers db !! key) as [driver |] eqn:Hstored; [| exact Hall].
    destruct (noted_frame now EmploymentStatus.TERMINATED OFF_DUTY "Termination" notes
                driver) as (_ & _ & _ & _ & Hhours & _).
    apply update_hours; [| exact Hall].
    unfold Driver.terminate. rewrite Hhours. apply (Hall _ _ Hstored).
  - unfold putDriverOnLeave. rewrite found_run.
    destruct (Database.drivers db !! key) as [driver |] eqn:Hstored; [| exact Hall].
    destruct (noted_frame now EmploymentStatus.LEAVE AWAY "Leave" notes driver)
      as (_ & _ & _ & _ & Hhours & _).
    apply update_hours; [| exact Hall].
    unfold Driver.putOnLeave. rewrite Hhours. apply (Hall _ _ Hstored).
  - unfold returnDriverFromLeave. rewrite found_run.
    destruct (Database.drivers db !! key) as [driver |] eqn:Hstored; [| exact Hall].
    apply guarded_update_hours; [| exact Hall]. apply (Hall _ _ Hstored).
Qed.

(** The service never records hours: in every store reached from the empty
    one, each driver has a counter of hours, and it is the one [createDriver]
    gave it, with no driving time, no duty time and no time left until a
    break. *)
Theorem hours_are_never_recorded (db : Database.t) (id : string) (driver : Driver.t) :
  reachable db ->
  Database.drivers db !! id = Some driver ->
  exists hours,
    Driver.hoursOfService driver = Some hours
    /\ HoursOfService.drivingHoursToday hours = 0%Q
    /\ HoursOfService.dutyHoursToday hours = 0%Q
    /\ HoursOfService.timeUntilBreakRequired hours = 0%Q.
Proof.
  intros Hreachable Hstored. exists (HoursOfService.new 0 0 0 None None).
  split; [| repeat split].
  revert id driver Hstored. induction Hreachable as [| db now c _ IH].
  - intros id driver Hstored. cbn in Hstored. rewrite lookup_empty in Hstored.
    discriminate.
  - apply perform_hours, IH.
Qed.

Lemma hours_are_never_recorded_witness :
  let db := after (perform Sample.now (AssignLoad "driver-0" "L-1"))
              (after (perform Sample.now (CreateDriver Sample.createData None)) empty) in
  exists driver hours,
    Database.drivers db !! "driver-0" = Some driver
    /\ Driver.status driver = DRIVING
    /\ Driver.hoursOfService driver = Some hours
    /\ HoursOfService.drivingHoursToday hours = 0%Q.
Proof.
  intros db.
  assert (Hstored : exists driver,
             Database.drivers db !! "driver-0" = Some driver
             /\ Driver.status driver = DRIVING)
    by (eexists; vm_compute; split; reflexivity).
  destruct Hstored as (driver & Hstored & Hstatus).
  destruct (hours_are_never_recorded db "driver-0" driver) as (hours & Hhours & Hzero & _).
  - subst db. apply reachable_call, reachable_call, reachable_empty.
  - exact Hstored.
  - exists driver, hours. repeat split; assumption.
Defined.

End StoreProperties.

(** ** PrismaDriverRepository: what a loaded row is *)

Section LoadedRows.
Import PrismaDriverRepository.
Local Open Scope Z_scope.

Lemma mapToDomainModel_run (now : Date) (prismaDriver : DriverRow) (driver : Driver.t) :
  mapToDomainModel now prismaDriver = Normal driver ->
  exists d,
    Driver.create now d = Normal driver
    /\ Driver.data_id d = Some (row_id prismaDriver)
    /\ Driver.data_email d = row_email prismaDriver
    /\ Driver.data_licenseExpiry d = row_licenseExpiry prismaDriver
    /\ Driver.data_medCertExpiry d = row_medCertExpiry prismaDriver
    /\ Driver.data_status d = Some (row_status prismaDriver).
Proof.
  unfold mapToDomainModel, cbind.
  destruct (DriverService.mapM _ (row_endorsements prismaDriver)) as [endorsements | e];
    [| discriminate].
  destruct (DriverService.mapM _ (row_documents prismaDriver)) as [documents | e];
    [| discriminate].
  destruct (row_hoursOfService prismaDriver) as [hours |].
  - destruct (HoursOfService.create _) as [created | e]; [| discriminate].
    intros Hcreate. eexists. split; [exact Hcreate |]. repeat split.
  - intros Hcreate. eexists. split; [exact Hcreate |]. repeat split.
Qed.

(** Loading a row validates it again, at the time of the load: a row whose
    license or medical certificate has expired since it was stored cannot be
    loaded.  A driver that is loaded is valid at that time, so reports
    neither as expired; it has the key, email and status of the row; and its
    timestamps are the time of the load, not those of the row. *)
Theorem mapToDomainModel_revalidates (now : Date) (prismaDriver : DriverRow) :
  (forall driver,
      mapToDomainModel now prismaDriver = Normal driver ->
      valid_at now driver
      /\ Driver.id driver = Some (row_id prismaDriver)
      /\ Driver.email driver = row_email prismaDriver
      /\ Driver.status driver = row_status prismaDriver
      /\ Driver.isLicenseExpired now driver = false
      /\ Driver.isMedCertExpired now driver = false
      /\ Driver.createdAt driver = now /\ Driver.updatedAt driver = now)
  /\ (row_licenseExpiry prismaDriver < now \/ row_medCertExpiry prismaDriver < now ->
      is_normal (mapToDomainModel now prismaDriver) = false).
Proof.
  assert (Hloaded : forall driver,
             mapToDomainModel now prismaDriver = Normal driver ->
             valid_at now driver
             /\ Driver.id driver = Some (row_id prismaDriver)
             /\ Driver.email driver = row_email prismaDriver
             /\ Driver.status driver = row_status prismaDriver
             /\ Driver.licenseExpiry driver = row_licenseExpiry prismaDriver
             /\ Driver.medCertExpiry driver = row_medCertExpiry prismaDriver
             /\ Driver.createdAt driver = now /\ Driver.updatedAt driver = now).
  { intros driver Hmap.
    destruct (mapToDomainModel_run now prismaDriver driver Hmap)
      as (d & Hcreate & Hid & Hemail & Hlicense & Hmed & Hstatus).
    apply create_run in Hcreate as [-> Hvalid].
    split; [exact Hvalid |]. cbn. rewrite Hid, Hemail, Hlicense, Hmed, Hstatus.
    repeat split. }
  split.
  - intros driver Hmap.
    destruct (Hloaded driver Hmap)
      as (Hvalid & Hid & Hemail & Hstatus & _ & _ & Hcreated & Hupdated).
    split; [exact Hvalid |]. split; [exact Hid |]. split; [exact Hemail |].
    split; [exact Hstatus |].
    destruct Hvalid as (_ & _ & _ & _ & _ & _ & _ & _ & _ & Hlicense & Hmed & _).
    unfold Driver.isLicenseExpired, Driver.isMedCertExpired.
    split; [apply Z.ltb_ge, Hlicense |]. split; [apply Z.ltb_ge, Hmed |].
    split; assumption.
  - intros Hexpired.
    destruct (mapToDomainModel now prismaDriver) as [driver |] eqn:Hmap; [| reflexivity].
    destruct (Hloaded driver eq_refl)
      as (Hvalid & _ & _ & _ & Hlicense & Hmed & _).
    destruct Hvalid as (_ & _ & _ & _ & _ & _ & _ & _ & _ & Hl & Hm & _).
    rewrite Hlicense in Hl. rewrite Hmed in Hm. lia.
Qed.

Lemma mapToDomainModel_revalidates_witness :
  let row :=
    {| row_id := "driver-0"; row_firstName := "Hassan"; row_lastName := "Kharal";
       row_driverId := None; row_dob := Date_of_ymd 1997 2 8; row_ssn := None;
       row_phonePrimary := "519-980-6545"; row_phoneSecondary := None;
       row_email := "hassan.kharal@example.com"; row_streetNumber := None;
       row_streetName := None; row_city := None; row_stateProvince := None;
       row_country := None; row_postalCode := None; row_licenseNumber := "HK876898";
       row_licenseState := "AK"; row_licenseClass := "Class A";
       row_licenseClassOther := None; row_licenseExpiry := Date_of_ymd 2027 8 7;
       row_medCertExpiry := Date_of_ymd 2027 8 7; row_twicExpiry := None;
       row_hireDate := Date_of_ymd 2025 6 4; row_driverType := DriverType.COMPANY;
       row_employmentStatus := EmploymentStatus.ACTIVE; row_operatingBaseCity := None;
       row_operatingBaseState := None; row_assignedVehicle := None;
       row_status := DRIVING; row_loadId := Some "L-1"; row_notes := None;
       row_avatarUrl := None; row_emergencyContacts := []; row_endorsements := [];
       row_documents := []; row_hoursOfService := None;
       row_createdAt := Date_of_ymd 2025 6 4; row_updatedAt := Date_of_ymd 2025 6 5 |} in
  (exists driver,
      mapToDomainModel Sample.now row = Normal driver
      /\ Driver.status driver = DRIVING /\ Driver.createdAt driver = Sample.now)
  /\ is_normal (mapToDomainModel (Date_of_ymd 2028 1 1) row) = false.
Proof.
  intros row.
  destruct (mapToDomainModel_revalidates Sample.now row) as [Hloaded _].
  destruct (mapToDomainModel_revalidates (Date_of_ymd 2028 1 1) row) as [_ Hexpired].
  split.
  - assert (Hmap : exists driver, mapToDomainModel Sample.now row = Normal driver)
      by (eexists; vm_compute; reflexivity).
    destruct Hmap as [driver Hmap].
    destruct (Hloaded driver Hmap) as (_ & _ & _ & Hstatus & _ & _ & Hcreated & _).
    exists driver. split; [exact Hmap |]. split; assumption.
  - apply Hexpired. left. vm_compute. reflexivity.
Defined.

End LoadedRows.
